(** * shiftcheck: a shallow embedding of [app.py] and its checked properties

    The application is a Flask program over an SQLite file with five
    tables.  The embedding has three layers, each in its own module:

    - [PyStr]: the Python string operations the handlers call
      ([str.strip], [str.lower], [str.split], [str.startswith], [int]);
    - [Sql]: the rows, the tables, the AUTOINCREMENT counters and the SQL
      statements and queries that occur in the source;
    - [App]: the request handlers, written in a small state-and-exception
      monad over the connection, the session, the flashed messages and
      the list of executed statements, and [serve], one request from
      routing to teardown.

    After the vocabulary of the properties come the proofs: the shift
    page (select, toggle, complete), the frame rules of the monad, the
    admin pages, the account pages, the invariant of the store over all
    reachable servers, and the dashboard query; then start-up and
    sessions, notes and odd actions, the forms' missing fields, the
    dashboard after the shift page's actions, every request as one
    write with what the writes keep, and the edit form's round trip.

    Strings are [String.string]; in the string operations a character
    stands for a code point below 256, and the messages of the source
    are kept as the bytes of its text.  Column values are never NULL in
    the model: every INSERT of the source supplies every column it later
    reads.  Integers are [Z]; those bound to a statement are taken to
    lie in SQLite's range ([Sql.sqlite_int]), outside of which the
    driver raises before the statement runs, and a statement about the
    reply to an id that no row carries says so.  Of the session the
    model keeps the two keys that decide what a request may do; the
    flashed messages, which Flask stores in the session as well, are a
    component of their own. *)

From Stdlib Require Import ZArith List String Ascii Bool Lia Permutation.
Import ListNotations.
Local Open Scope Z_scope.

(* ===================================================================== *)
(** ** Python string operations *)
(* ===================================================================== *)

Module PyStr.

(** [str.isspace] on one code point below 256: TAB..CR, FS..US, SPACE,
    NEL and NBSP. *)
Definition isspace (c : ascii) : bool :=
  let n := Z.of_N (N_of_ascii c) in
  ((9 <=? n) && (n <=? 13)) || ((28 <=? n) && (n <=? 32))
  || (n =? 133) || (n =? 160).

Fixpoint lstrip (s : string) : string :=
  match s with
  | EmptyString => EmptyString
  | String c r => if isspace c then lstrip r else s
  end.

Fixpoint rstrip (s : string) : string :=
  match s with
  | EmptyString => EmptyString
  | String c r =>
      match rstrip r with
      | EmptyString => if isspace c then EmptyString else String c EmptyString
      | r' => String c r'
      end
  end.

(** [s.strip()] *)
Definition strip (s : string) : string := rstrip (lstrip s).

(** [str.lower] on one code point below 256: A..Z and the Latin-1
    capitals other than the multiplication sign. *)
Definition lower_char (c : ascii) : ascii :=
  let n := Z.of_N (N_of_ascii c) in
  if ((65 <=? n) && (n <=? 90))
     || ((192 <=? n) && (n <=? 222) && negb (n =? 215))
  then ascii_of_N (Z.to_N (n + 32)) else c.

(** [s.lower()] *)
Fixpoint lower (s : string) : string :=
  match s with
  | EmptyString => EmptyString
  | String c r => String (lower_char c) (lower r)
  end.

(** [s.split(sep)] for a one-character separator: never the empty list. *)
Fixpoint split (sep : ascii) (s : string) : list string :=
  match s with
  | EmptyString => [EmptyString]
  | String c r =>
      if Ascii.eqb c sep then EmptyString :: split sep r
      else match split sep r with
           | h :: t => String c h :: t
           | [] => [String c EmptyString]
           end
  end.

(** Truth value of a string: [if s:] *)
Definition truthy (s : string) : bool :=
  match s with EmptyString => false | _ => true end.

(** [s.startswith(p)] *)
Definition startswith (p s : string) : bool := String.prefix p s.

(** [s.split(sep, 1)[1]] for a string that contains [sep]: what follows
    the first occurrence. *)
Fixpoint after_first (sep : ascii) (s : string) : option string :=
  match s with
  | EmptyString => None
  | String c r => if Ascii.eqb c sep then Some r else after_first sep r
  end.

Definition digit_val (c : ascii) : option Z :=
  let n := Z.of_N (N_of_ascii c) in
  if (48 <=? n) && (n <=? 57) then Some (n - 48) else None.

(** The digits of a decimal literal: single underscores are allowed
    between digits only. [prev] tells whether the previous character was
    a digit. *)
Fixpoint digits (s : string) (acc : Z) (prev : bool) : option Z :=
  match s with
  | EmptyString => if prev then Some acc else None
  | String c r =>
      match digit_val c with
      | Some d => digits r (10 * acc + d) true
      | None =>
          if Ascii.eqb c "_"%char && prev then digits r acc false else None
      end
  end.

(** The white space [int] skips before and after a literal: C's
    [isspace] (TAB..CR and SPACE) and, of the code points from 128 on,
    those of [str.isspace] (below 256: NEL and NBSP), which the
    conversion turns into spaces before it parses.  The separators
    FS..US are not among them, although [str.strip] removes them. *)
Definition int_space (c : ascii) : bool :=
  let n := Z.of_N (N_of_ascii c) in
  ((9 <=? n) && (n <=? 13)) || (n =? 32) || (n =? 133) || (n =? 160).

(** What is left of [s] once the leading, respectively trailing,
    characters with [sp] are skipped. *)
Fixpoint lskip (sp : ascii -> bool) (s : string) : string :=
  match s with
  | EmptyString => EmptyString
  | String c r => if sp c then lskip sp r else s
  end.

Fixpoint rskip (sp : ascii -> bool) (s : string) : string :=
  match s with
  | EmptyString => EmptyString
  | String c r =>
      match rskip sp r with
      | EmptyString => if sp c then EmptyString else String c EmptyString
      | r' => String c r'
      end
  end.

(** The number of digits of a literal, its underscores aside. *)
Fixpoint count_digits (s : string) : Z :=
  match s with
  | EmptyString => 0
  | String c r =>
      (match digit_val c with Some _ => 1 | None => 0 end) + count_digits r
  end.

(** The interpreter's guard on the length of a decimal literal: one of
    more than 640 digits is refused when the limit is positive and the
    literal has more digits than the limit. *)
Definition too_long (max_str_digits n : Z) : bool :=
  (640 <? n) && (0 <? max_str_digits) && (max_str_digits <? n).

(** [int(s)] in base 10, with [sys.get_int_max_str_digits()] as first
    argument; [None] stands for [ValueError], which is what a malformed
    literal and a literal of too many digits both raise. *)
Definition int (max_str_digits : Z) (s : string) : option Z :=
  let t := rskip int_space (lskip int_space s) in
  let '(negative, body) :=
    match t with
    | String "+"%char r => (false, r)
    | String "-"%char r => (true, r)
    | _ => (false, t)
    end in
  match digits body 0 false with
  | Some n =>
      if too_long max_str_digits (count_digits body) then None
      else Some (if negative then - n else n)
  | None => None
  end.

(** Lexicographic order on code points: SQLite's BINARY collation and
    Python's [<=] on the strings of the model. *)
Definition leb (a b : string) : bool := String.leb a b.

End PyStr.

(* ===================================================================== *)
(** ** The store: rows, tables and the SQL of the source *)
(* ===================================================================== *)

Module Sql.

(** Rows of the five tables of [init_db], one field per column. *)
Record user_row := mk_user {
  user_id : Z; user_email : string; user_name : string;
  user_password : string; user_is_admin : Z }.

Record shift_row := mk_shift {
  shift_id : Z; shift_title : string; shift_description : string;
  shift_is_template : Z }.

Record step_row := mk_step {
  step_id : Z; step_shift_id : Z; step_position : Z;
  step_description : string }.

Record progress_row := mk_progress {
  progress_id : Z; progress_user_id : Z; progress_shift_id : Z;
  progress_step_id : Z; progress_completed : Z;
  progress_timestamp : string }.

Record note_row := mk_note {
  note_id : Z; note_shift_id : Z; note_user_id : Z; note_content : string;
  note_timestamp : string }.

(** A table: its rows in insertion order and its [sqlite_sequence]
    entry, the largest rowid AUTOINCREMENT has handed out. *)
Record table (R : Type) := mk_table { rows : list R; autoinc : Z }.
Arguments mk_table {R} _ _.
Arguments rows {R} _.
Arguments autoinc {R} _.

Record DB := mk_db {
  user : table user_row;
  shift : table shift_row;
  shift_step : table step_row;
  progress : table progress_row;
  note : table note_row }.

Definition max_id (ids : list Z) : Z := fold_right Z.max 0 ids.

(** AUTOINCREMENT: one more than the larger of the largest rowid in the
    table and the recorded sequence value. *)
Definition next_rowid {R} (id : R -> Z) (t : table R) : Z :=
  Z.max (autoinc t) (max_id (map id (rows t))) + 1.

Definition insert_row {R} (id : R -> Z) (mk : Z -> R) (t : table R)
  : table R :=
  let i := next_rowid id t in mk_table (rows t ++ [mk i]) i.

Definition delete_where {R} (cond : R -> bool) (t : table R) : table R :=
  mk_table (filter (fun r => negb (cond r)) (rows t)) (autoinc t).

Definition update_where {R} (cond : R -> bool) (f : R -> R) (t : table R)
  : table R :=
  mk_table (map (fun r => if cond r then f r else r) (rows t)) (autoinc t).

(** The range of SQLite's INTEGER.  Every id a row carries lies in it;
    an integer taken from the request (the id in the URL, the step id of
    a toggle) need not, and the driver refuses to bind one outside it. *)
Definition sqlite_int (n : Z) : Prop := - 2 ^ 63 <= n < 2 ^ 63.

(** The statements the handlers execute, with their bound parameters. *)
Inductive stmt :=
| InsertUser (email name password : string) (is_admin : Z)
| InsertShift (title description : string)
| UpdateShift (title description : string) (id : Z)
| DeleteShift (id : Z)
| InsertStep (shift_id position : Z) (description : string)
| DeleteSteps (shift_id : Z)
| InsertProgress (user_id shift_id step_id completed : Z) (ts : string)
| UpdateProgress (completed : Z) (ts : string) (user_id shift_id step_id : Z)
| DeleteProgressOf (user_id shift_id : Z)
| DeleteProgressOfShift (shift_id : Z)
| InsertNote (shift_id user_id : Z) (content ts : string)
| DeleteNotes (shift_id : Z).

Definition with_user (d : DB) t := mk_db t (shift d) (shift_step d) (progress d) (note d).
Definition with_shift (d : DB) t := mk_db (user d) t (shift_step d) (progress d) (note d).
Definition with_shift_step (d : DB) t := mk_db (user d) (shift d) t (progress d) (note d).
Definition with_progress (d : DB) t := mk_db (user d) (shift d) (shift_step d) t (note d).
Definition with_note (d : DB) t := mk_db (user d) (shift d) (shift_step d) (progress d) t.

Definition progress_of (u s : Z) (p : progress_row) : bool :=
  (progress_user_id p =? u) && (progress_shift_id p =? s).

Definition progress_at (u s st : Z) (p : progress_row) : bool :=
  (progress_user_id p =? u) && (progress_shift_id p =? s)
  && (progress_step_id p =? st).

Definition email_taken (d : DB) (email : string) : bool :=
  existsb (fun r => String.eqb (user_email r) email) (rows (user d)).

(** The outcome of [cur.execute]: the new store and, after an INSERT,
    the new [lastrowid]; or the constraint that failed.  [user.email] is
    the only constrained column besides the primary keys, which
    AUTOINCREMENT always satisfies. *)
Inductive outcome :=
| Done (d : DB) (rowid : option Z)
| Failed (msg : string).

Definition exec (s : stmt) (d : DB) : outcome :=
  match s with
  | InsertUser email name password is_admin =>
      if email_taken d email
      then Failed "UNIQUE constraint failed: user.email"
      else Done (with_user d (insert_row user_id
                   (fun i => mk_user i email name password is_admin) (user d)))
                (Some (next_rowid user_id (user d)))
  | InsertShift title description =>
      Done (with_shift d (insert_row shift_id
              (fun i => mk_shift i title description 1) (shift d)))
           (Some (next_rowid shift_id (shift d)))
  | UpdateShift title description id =>
      Done (with_shift d (update_where (fun r => shift_id r =? id)
              (fun r => mk_shift (shift_id r) title description
                                 (shift_is_template r)) (shift d)))
           None
  | DeleteShift id =>
      Done (with_shift d (delete_where (fun r => shift_id r =? id) (shift d)))
           None
  | InsertStep sid pos description =>
      Done (with_shift_step d (insert_row step_id
              (fun i => mk_step i sid pos description) (shift_step d)))
           (Some (next_rowid step_id (shift_step d)))
  | DeleteSteps sid =>
      Done (with_shift_step d
              (delete_where (fun r => step_shift_id r =? sid) (shift_step d)))
           None
  | InsertProgress u sid st completed ts =>
      Done (with_progress d (insert_row progress_id
              (fun i => mk_progress i u sid st completed ts) (progress d)))
           (Some (next_rowid progress_id (progress d)))
  | UpdateProgress completed ts u sid st =>
      Done (with_progress d (update_where (progress_at u sid st)
              (fun r => mk_progress (progress_id r) (progress_user_id r)
                          (progress_shift_id r) (progress_step_id r)
                          completed ts) (progress d)))
           None
  | DeleteProgressOf u sid =>
      Done (with_progress d (delete_where (progress_of u sid) (progress d)))
           None
  | DeleteProgressOfShift sid =>
      Done (with_progress d
              (delete_where (fun r => progress_shift_id r =? sid) (progress d)))
           None
  | InsertNote sid u content ts =>
      Done (with_note d (insert_row note_id
              (fun i => mk_note i sid u content ts) (note d)))
           (Some (next_rowid note_id (note d)))
  | DeleteNotes sid =>
      Done (with_note d (delete_where (fun r => note_shift_id r =? sid) (note d)))
           None
  end.

(** [ORDER BY]: a stable insertion sort on the rows in table order
    (SQLite leaves the order of ties open; the model keeps table order). *)
Fixpoint insert_by {A} (le : A -> A -> bool) (x : A) (l : list A) : list A :=
  match l with
  | [] => [x]
  | y :: t => if le x y then x :: l else y :: insert_by le x t
  end.

Definition sort_by {A} (le : A -> A -> bool) (l : list A) : list A :=
  fold_right (insert_by le) [] l.

(** [SELECT * FROM user WHERE email=?] then [fetchone] *)
Definition user_by_email (d : DB) (email : string) : option user_row :=
  find (fun r => String.eqb (user_email r) email) (rows (user d)).

(** [SELECT * FROM user WHERE id=?] then [fetchone] *)
Definition user_by_id (d : DB) (id : Z) : option user_row :=
  find (fun r => user_id r =? id) (rows (user d)).

(** [SELECT * FROM shift WHERE id=?] then [fetchone] *)
Definition shift_by_id (d : DB) (id : Z) : option shift_row :=
  find (fun r => shift_id r =? id) (rows (shift d)).

(** [SELECT * FROM shift] *)
Definition all_shifts (d : DB) : list shift_row := rows (shift d).

(** [SELECT * FROM shift ORDER BY id DESC] *)
Definition shifts_newest_first (d : DB) : list shift_row :=
  sort_by (fun a b => shift_id b <=? shift_id a) (rows (shift d)).

(** [SELECT * FROM shift_step WHERE shift_id=? ORDER BY position] *)
Definition steps_of (d : DB) (sid : Z) : list step_row :=
  sort_by (fun a b => step_position a <=? step_position b)
    (filter (fun r => step_shift_id r =? sid) (rows (shift_step d))).

(** [SELECT completed FROM progress WHERE user_id=? AND shift_id=? AND
    step_id=?] then [fetchone] *)
Definition completed_of (d : DB) (u sid st : Z) : option Z :=
  option_map progress_completed
    (find (progress_at u sid st) (rows (progress d))).

(** [SELECT * FROM progress WHERE user_id=? AND shift_id=?] *)
Definition progress_rows_of (d : DB) (u sid : Z) : list progress_row :=
  filter (progress_of u sid) (rows (progress d)).

(** The notes of a shift joined with their authors' names, newest
    first. *)
Definition notes_of (d : DB) (sid : Z) : list (note_row * string) :=
  sort_by (fun a b => PyStr.leb (note_timestamp (fst b)) (note_timestamp (fst a)))
    (flat_map (fun n =>
       if note_shift_id n =? sid then
         map (fun u => (n, user_name u))
             (filter (fun u => user_id u =? note_user_id n) (rows (user d)))
       else []) (rows (note d))).

(** The aggregates of the dashboard query over one group. *)
Definition sum_completed (g : list progress_row) : Z :=
  fold_right (fun p a => progress_completed p + a) 0 g.

Definition max_timestamp (g : list progress_row) : string :=
  fold_right (fun p a => if PyStr.leb a (progress_timestamp p)
                         then progress_timestamp p else a) EmptyString g.

(** The rows [p] joined to shift [s] for user [u]: one group of
    [GROUP BY s.id]. *)
Definition group_of (d : DB) (u : Z) (s : shift_row) : list progress_row :=
  filter (progress_of u (shift_id s)) (rows (progress d)).

(** [HAVING SUM(p.completed) < COUNT(p.id)] on a group of the inner
    join, which has at least one row. *)
Definition in_progress (d : DB) (u : Z) (s : shift_row) : bool :=
  let g := group_of d u s in
  negb (Nat.eqb (List.length g) 0)
  && (sum_completed g <? Z.of_nat (List.length g)).

(** The dashboard query: groups that pass HAVING, ordered by their
    latest timestamp, newest first, and the first of them. *)
Definition current_shift_of (d : DB) (u : Z) : option shift_row :=
  hd_error
    (sort_by (fun a b => PyStr.leb (max_timestamp (group_of d u b))
                                   (max_timestamp (group_of d u a)))
       (filter (in_progress d u) (rows (shift d)))).

(** A new file after the CREATE TABLE statements of [init_db]: five
    empty tables. *)
Definition empty_db : DB :=
  mk_db (mk_table [] 0) (mk_table [] 0) (mk_table [] 0) (mk_table [] 0)
        (mk_table [] 0).

End Sql.

(* ===================================================================== *)
(** ** The application: sessions, requests and handlers *)
(* ===================================================================== *)

Module App.

Import Sql.

(** What the program takes from outside the repository: werkzeug's
    password hashing (salted, so it draws on an entropy counter; [None]
    is the library's default method), the UTC clock, read as an
    ISO-8601 string, and the interpreter's limit on the digits of an
    integer literal ([sys.get_int_max_str_digits()]: 4300 unless the
    interpreter is started with another value, 0 for no limit). *)
Record env := mk_env {
  generate_password_hash : nat -> option string -> string -> string;
  check_password_hash : string -> string -> bool;
  utcnow_isoformat : nat -> string;
  int_max_str_digits : Z }.

(** The two keys of the signed session cookie that decide what a
    request may do: flask-login's [_user_id] and the [is_admin_access]
    flag of the admin gate.  The flashed messages, which Flask also
    keeps in the session (under [_flashes], until a page shows them),
    are kept apart, in [flashed]. *)
Record session := mk_session {
  sess_user_id : option Z;
  is_admin_access : bool }.

Inductive http_method := GET | POST.

Record request := mk_request {
  method : http_method;
  form : list (string * string) }.

Inductive endpoint :=
| ep_index | ep_login | ep_dashboard | ep_shifts
| ep_shift_detail (shift_id : Z) | ep_admin | ep_admin_access.

(** [render_template] with its context arguments. *)
Inductive page :=
| index_html
| register_html
| login_html
| shifts_html (shifts : list shift_row)
| shift_detail_html (shift : shift_row) (steps : list step_row)
    (progress : list (Z * progress_row)) (notes : list (note_row * string))
| admin_html (shifts : list shift_row)
| admin_edit_shift_html (shift : shift_row) (steps_text : string)
| admin_access_html.

Inductive response :=
| Redirect (to : endpoint)
| Render (p : page)
| Abort (status : Z).

Inductive exn :=
| BadRequestKeyError (key : string)
| ValueError
| IntegrityError (msg : string)
| TypeError.

(** [str(e)] for the one exception the source prints. *)
Definition str_exn (e : exn) : string :=
  match e with
  | BadRequestKeyError k => k
  | ValueError => "invalid literal for int() with base 10"
  | IntegrityError msg => msg
  | TypeError => "The view function did not return a valid response"
  end.

(** What one request works on: the connection [g.db] with its
    uncommitted changes, the committed file, the session, the messages
    flashed so far, the cursor's [lastrowid], the number of readings of
    clock and entropy taken so far, and the statements that took effect,
    oldest first. *)
Record world := mk_world {
  conn : DB;
  stored : DB;
  sess : session;
  flashed : list (string * string);
  lastrowid : option Z;
  ticks : nat;
  applied : list stmt }.

Definition M (A : Type) : Type := world -> (exn + A) * world.

Definition ret {A} (a : A) : M A := fun w => (inr a, w).

Definition bind {A B} (m : M A) (k : A -> M B) : M B :=
  fun w => match m w with
           | (inl e, w') => (inl e, w')
           | (inr a, w') => k a w'
           end.

Definition raise {A} (e : exn) : M A := fun w => (inl e, w).

(** [try: body  except Exception as e: handler e] *)
Definition try_except {A} (body : M A) (handler : exn -> M A) : M A :=
  fun w => match body w with
           | (inl e, w') => handler e w'
           | r => r
           end.

Declare Scope handler_scope.
Delimit Scope handler_scope with handler.
Notation "x <- c ;; k" := (bind c (fun x => k))
  (at level 61, c at next level, right associativity) : handler_scope.
Notation "c ;; k" := (bind c (fun _ => k))
  (at level 61, right associativity) : handler_scope.
Local Open Scope string_scope.
Local Open Scope list_scope.
Local Open Scope Z_scope.
Local Open Scope handler_scope.

(** [cur.execute(stmt)] for a statement that writes.  The integers of
    a statement are bound as they are: that the driver refuses one
    outside [sqlite_int] with an [OverflowError], before the statement
    runs, is not modelled, so the runs of the model are those of the
    program on integers within that range. *)
Definition execute (s : stmt) : M unit :=
  fun w => match exec s (conn w) with
           | Done d r =>
               (inr tt,
                mk_world d (stored w) (sess w) (flashed w)
                  (match r with Some _ => r | None => lastrowid w end)
                  (ticks w) (applied w ++ [s]))
           | Failed msg => (inl (IntegrityError msg), w)
           end.

(** [cur.execute(query)] followed by the fetch: a read of the
    connection, with the same proviso on the integers bound. *)
Definition query {A} (q : DB -> A) : M A := fun w => (inr (q (conn w)), w).

(** [g.db.commit()] *)
Definition commit : M unit :=
  fun w => (inr tt,
            mk_world (conn w) (conn w) (sess w) (flashed w) (lastrowid w)
              (ticks w) (applied w)).

(** [flash(message, category)]: Flask appends the message to the
    session's [_flashes]; here that list is [flashed], beside the two
    keys of [sess]. *)
Definition flash (msg cat : string) : M unit :=
  fun w => (inr tt,
            mk_world (conn w) (stored w) (sess w) (flashed w ++ [(msg, cat)])
              (lastrowid w) (ticks w) (applied w)).

Definition get_session : M session := fun w => (inr (sess w), w).

Definition set_session (s : session) : M unit :=
  fun w => (inr tt,
            mk_world (conn w) (stored w) s (flashed w) (lastrowid w)
              (ticks w) (applied w)).

Definition get_lastrowid : M (option Z) := fun w => (inr (lastrowid w), w).

(** One reading of the clock or of the entropy source. *)
Definition tick : M nat :=
  fun w => (inr (ticks w),
            mk_world (conn w) (stored w) (sess w) (flashed w) (lastrowid w)
              (S (ticks w)) (applied w)).

Fixpoint assoc (k : string) (l : list (string * string)) : option string :=
  match l with
  | [] => None
  | (k', v) :: t => if String.eqb k' k then Some v else assoc k t
  end.

(** [request.form[key]]: a missing key is a 400. *)
Definition form_item (rq : request) (key : string) : M string :=
  match assoc key (form rq) with
  | Some v => ret v
  | None => raise (BadRequestKeyError key)
  end.

(** [request.form.get(key, default)] *)
Definition form_get (rq : request) (key default : string) : string :=
  match assoc key (form rq) with Some v => v | None => default end.

Definition is_post (rq : request) : bool :=
  match method rq with POST => true | GET => false end.

Definition newline : ascii := "010"%char.

(** ["\n".join(l)] *)
Fixpoint join_lines (l : list string) : string :=
  match l with
  | [] => ""
  | [x] => x
  | x :: t => String.append x (String newline (join_lines t))
  end.

(** [{p['step_id']: p for p in rows}]: a later row replaces an earlier
    one with the same key, in the place of the earlier one. *)
Fixpoint dict_set (k : Z) (v : progress_row) (d : list (Z * progress_row))
  : list (Z * progress_row) :=
  match d with
  | [] => [(k, v)]
  | (k', v') :: t => if k' =? k then (k, v) :: t else (k', v') :: dict_set k v t
  end.

Definition progress_dict (l : list progress_row) : list (Z * progress_row) :=
  fold_left (fun d p => dict_set (progress_step_id p) p d) l [].

Section Handlers.

Variable E : env.

(** [datetime.utcnow().isoformat()] *)
Definition utcnow : M string := t <- tick ;; ret (utcnow_isoformat E t).

(** [init_db]: the tables exist in every store of the model, so what is
    left is the bootstrap account, inserted unless its email is there. *)
Definition init_db (d : DB) : DB :=
  match user_by_email d "admin@example.com" with
  | Some _ => d
  | None =>
      match exec (InsertUser "admin@example.com" "Admin"
                    (generate_password_hash E 0 None "admin123") 1) d with
      | Done d' _ => d'
      | Failed _ => d
      end
  end.

(** [load_user], on a connection of its own: it reads the committed
    file. *)
Definition load_user (uid : Z) : M (option user_row) :=
  fun w => (inr (user_by_id (stored w) uid), w).

(** [current_user]: the row [load_user] finds for the session's
    [_user_id], if any. *)
Definition current_user : M (option user_row) :=
  s <- get_session ;;
  match sess_user_id s with
  | None => ret None
  | Some uid => load_user uid
  end.

(** [@login_required]: flask-login's [unauthorized] with
    [login_view = 'login']. *)
Definition login_required (view : user_row -> M response) : M response :=
  cu <- current_user ;;
  match cu with
  | None =>
      flash "Please log in to access this page." "message" ;;
      ret (Redirect ep_login)
  | Some u => view u
  end.

Definition index : M response :=
  cu <- current_user ;;
  match cu with
  | Some _ => ret (Redirect ep_dashboard)
  | None => ret (Render index_html)
  end.

Definition register (rq : request) : M response :=
  if is_post rq then
    email_raw <- form_item rq "email" ;;
    let email := PyStr.lower (PyStr.strip email_raw) in
    name_raw <- form_item rq "name" ;;
    let name := PyStr.strip name_raw in
    password <- form_item rq "password" ;;
    t <- tick ;;
    let hashed := generate_password_hash E t (Some "pbkdf2:sha256") password in
    try_except
      (execute (InsertUser email name hashed 0) ;;
       commit ;;
       flash "Registrace úspěšná, přihlas se." "success" ;;
       ret (Redirect ep_login))
      (fun e =>
         flash (String.append "Chyba při registraci: " (str_exn e)) "danger" ;;
         ret (Render register_html))
  else ret (Render register_html).

(** [login_user(User(row))] *)
Definition login_user (row : user_row) : M unit :=
  s <- get_session ;;
  set_session (mk_session (Some (user_id row)) (is_admin_access s)).

(** [logout_user()] *)
Definition logout_user : M unit :=
  s <- get_session ;;
  set_session (mk_session None (is_admin_access s)).

Definition login (rq : request) : M response :=
  if is_post rq then
    email_raw <- form_item rq "email" ;;
    let email := PyStr.lower (PyStr.strip email_raw) in
    password <- form_item rq "password" ;;
    row <- query (fun d => user_by_email d email) ;;
    match row with
    | Some r =>
        if check_password_hash E (user_password r) password then
          login_user r ;;
          flash "Přihlášení úspěšné" "success" ;;
          ret (Redirect ep_dashboard)
        else
          flash "Špatné přihlašovací údaje" "danger" ;;
          ret (Render login_html)
    | None =>
        flash "Špatné přihlašovací údaje" "danger" ;;
        ret (Render login_html)
    end
  else ret (Render login_html).

(** [dashboard] as the file has it.  Lines 167-169, which read the
    Prague clock, are indented at the level of the body of [create_app]
    and so close the handler after line 166; the [return] of line 170 is
    indented deeper again, which Python refuses.  The embedding follows
    the block structure: the handler's body is the query and the time
    zone lookup, and it ends without a [return], which Flask answers
    with a [TypeError]. *)
Definition dashboard : M response :=
  login_required (fun cu =>
    current_shift <- query (fun d => current_shift_of d (user_id cu)) ;;
    raise TypeError).

Definition logout : M response :=
  login_required (fun _ =>
    logout_user ;;
    flash "Odhlášeno" "info" ;;
    ret (Redirect ep_index)).

Definition shifts : M response :=
  login_required (fun _ =>
    l <- query all_shifts ;;
    ret (Render (shifts_html l))).

(** The loop of [select_shift]: one INSERT per step, each with its own
    reading of the clock. *)
Fixpoint insert_progress (uid sid : Z) (steps : list step_row) : M unit :=
  match steps with
  | [] => ret tt
  | s :: rest =>
      ts <- utcnow ;;
      execute (InsertProgress uid sid (step_id s) 0 ts) ;;
      insert_progress uid sid rest
  end.

(** The tail of [shift_detail]: what a GET renders. *)
Definition shift_detail_page (uid : Z) (sh : shift_row)
    (steps : list step_row) : M response :=
  prog <- query (fun d => progress_rows_of d uid (shift_id sh)) ;;
  notes <- query (fun d => notes_of d (shift_id sh)) ;;
  ret (Render (shift_detail_html sh steps (progress_dict prog) notes)).

Definition shift_detail (sid : Z) (rq : request) : M response :=
  login_required (fun cu =>
    let uid := user_id cu in
    shift <- query (fun d => shift_by_id d sid) ;;
    match shift with
    | None =>
        flash "Směna nenalezena" "danger" ;;
        ret (Redirect ep_shifts)
    | Some sh =>
        steps <- query (fun d => steps_of d sid) ;;
        match (if is_post rq then assoc "action" (form rq) else None) with
        | None => shift_detail_page uid sh steps
        | Some action =>
            if String.eqb action "select_shift" then
              execute (DeleteProgressOf uid sid) ;;
              insert_progress uid sid steps ;;
              commit ;;
              flash "Směna vybrána – hodně štěstí!" "success" ;;
              ret (Redirect (ep_shift_detail sid))
            else if PyStr.truthy action && PyStr.startswith "toggle_" action then
              (* int(action.split('_', 1)[1]); the prefix holds a '_' *)
              match option_map (PyStr.int (int_max_str_digits E))
                               (PyStr.after_first "_" action) with
              | Some (Some st) =>
                  row <- query (fun d => completed_of d uid sid st) ;;
                  match row with
                  | Some completed =>
                      let newc := if completed =? 0 then 1 else 0 in
                      ts <- utcnow ;;
                      execute (UpdateProgress newc ts uid sid st) ;;
                      commit ;;
                      ret (Redirect (ep_shift_detail sid))
                  | None => ret (Redirect (ep_shift_detail sid))
                  end
              | _ => raise ValueError
              end
            else if String.eqb action "complete_shift" then
              execute (DeleteProgressOf uid sid) ;;
              commit ;;
              flash "Směna byla označena jako dokončená." "info" ;;
              ret (Redirect ep_dashboard)
            else if String.eqb action "add_note" then
              let content := PyStr.strip (form_get rq "note_content" "") in
              (if PyStr.truthy content then
                 ts <- utcnow ;;
                 execute (InsertNote sid uid content ts) ;;
                 commit ;;
                 flash "Poznámka přidána." "success"
               else
                 flash "Poznámka nesmí být prázdná." "warning") ;;
              ret (Redirect (ep_shift_detail sid))
            else shift_detail_page uid sh steps
        end
    end).

(** The loop shared by [admin] and [edit_shift]: every line is trimmed,
    a blank one is skipped, any other is inserted at [pos], which then
    advances. *)
Fixpoint insert_steps (sid pos : Z) (lines : list string) : M unit :=
  match lines with
  | [] => ret tt
  | s :: rest =>
      let s' := PyStr.strip s in
      if PyStr.truthy s' then
        execute (InsertStep sid pos s') ;;
        insert_steps sid (pos + 1) rest
      else insert_steps sid pos rest
  end.

(** The guard at the head of the three admin handlers. *)
Definition admin_gate (view : M response) : M response :=
  s <- get_session ;;
  if is_admin_access s then view
  else flash "Nemáš oprávnění" "danger" ;; ret (Redirect ep_admin_access).

Definition admin (rq : request) : M response :=
  admin_gate (
    if is_post rq then
      title <- form_item rq "title" ;;
      let description := form_get rq "description" "" in
      let steps := PyStr.split newline (form_get rq "steps" "") in
      execute (InsertShift title description) ;;
      rowid <- get_lastrowid ;;
      match rowid with   (* set by the INSERT just executed *)
      | Some sid =>
          insert_steps sid 1 steps ;;
          commit ;;
          flash "Směna vytvořena" "success" ;;
          ret (Redirect ep_admin)
      | None => raise TypeError
      end
    else
      l <- query shifts_newest_first ;;
      ret (Render (admin_html l))).

Definition edit_shift (sid : Z) (rq : request) : M response :=
  admin_gate (
    shift <- query (fun d => shift_by_id d sid) ;;
    match shift with
    | None =>
        flash "Směna nenalezena." "danger" ;;
        ret (Redirect ep_admin)
    | Some sh =>
        steps <- query (fun d => steps_of d sid) ;;
        let steps_text := join_lines (map step_description steps) in
        if is_post rq then
          title <- form_item rq "title" ;;
          let description := form_get rq "description" "" in
          let steps_input := PyStr.split newline (form_get rq "steps" "") in
          execute (UpdateShift title description sid) ;;
          execute (DeleteSteps sid) ;;
          insert_steps sid 1 steps_input ;;
          commit ;;
          flash "Směna upravena." "success" ;;
          ret (Redirect ep_admin)
        else ret (Render (admin_edit_shift_html sh steps_text))
    end).

Definition delete_shift (sid : Z) : M response :=
  admin_gate (
    execute (DeleteProgressOfShift sid) ;;
    execute (DeleteSteps sid) ;;
    execute (DeleteNotes sid) ;;
    execute (DeleteShift sid) ;;
    commit ;;
    flash "Směna a všechny související údaje byly smazány." "info" ;;
    ret (Redirect ep_admin)).

Definition admin_access (rq : request) : M response :=
  if is_post rq then
    password <- form_item rq "password" ;;
    if String.eqb password "admin123" then
      s <- get_session ;;
      set_session (mk_session (sess_user_id s) true) ;;
      flash "Přístup povolen" "success" ;;
      ret (Redirect ep_admin)
    else
      flash "Špatné heslo" "danger" ;;
      ret (Render admin_access_html)
  else ret (Render admin_access_html).

(** The routes of [create_app] with the methods each accepts. *)
Inductive route :=
| r_index | r_register | r_login | r_dashboard | r_logout | r_shifts
| r_shift_detail (shift_id : Z) | r_admin | r_edit_shift (shift_id : Z)
| r_delete_shift (shift_id : Z) | r_admin_access.

Definition accepts (r : route) (m : http_method) : bool :=
  match r, m with
  | (r_index | r_dashboard | r_logout | r_shifts), POST => false
  | r_delete_shift _, GET => false
  | _, _ => true
  end.

Definition view (r : route) (rq : request) : M response :=
  match r with
  | r_index => index
  | r_register => register rq
  | r_login => login rq
  | r_dashboard => dashboard
  | r_logout => logout
  | r_shifts => shifts
  | r_shift_detail sid => shift_detail sid rq
  | r_admin => admin rq
  | r_edit_shift sid => edit_shift sid rq
  | r_delete_shift sid => delete_shift sid
  | r_admin_access => admin_access rq
  end.

(** The server between requests: the committed file and the count of
    clock and entropy readings. *)
Record server := mk_server { file : DB; readings : nat }.

(** What the client gets back: the response, the messages flashed
    during the request, and the session's [_user_id] and
    [is_admin_access] as the cookie of the response carries them. *)
Record reply := mk_reply {
  answer : response;
  messages : list (string * string);
  cookie : session }.

(** [before_request] opens the connection on the committed file. *)
Definition open_world (sv : server) (s : session) : world :=
  mk_world (file sv) (file sv) s [] None (readings sv) [].

(** One request from routing to [teardown_request]: an uncaught
    exception becomes a 400 (missing form key) or a 500, and closing the
    connection drops whatever was not committed. *)
Definition serve (r : route) (rq : request) (s : session) (sv : server)
  : reply * server :=
  if accepts r (method rq) then
    let '(res, w) := view r rq (open_world sv s) in
    (mk_reply (match res with
               | inr resp => resp
               | inl (BadRequestKeyError _) => Abort 400
               | inl _ => Abort 500
               end) (flashed w) (sess w),
     mk_server (stored w) (ticks w))
  else (mk_reply (Abort 405) [] s, sv).

End Handlers.

End App.

(* ===================================================================== *)
(** ** Vocabulary of the properties *)
(* ===================================================================== *)

Import Sql App.
Local Open Scope string_scope.
Local Open Scope list_scope.
Local Open Scope Z_scope.

(** *** Progress *)

(** A progress row without its timestamp. *)
Definition untimed (p : progress_row) : Z * Z * Z * Z * Z :=
  (progress_id p, progress_user_id p, progress_shift_id p,
   progress_step_id p, progress_completed p).

Definition progress_key (p : progress_row) : Z * Z * Z :=
  (progress_user_id p, progress_shift_id p, progress_step_id p).

(** The data model's invariant on progress: at most one row per
    (user, shift, step), and [completed] is 0 or 1. *)
Definition one_row_per_step (d : DB) : Prop :=
  NoDup (map progress_key (rows (progress d))).

Definition flags_are_bits (d : DB) : Prop :=
  Forall (fun p => progress_completed p = 0 \/ progress_completed p = 1)
         (rows (progress d)).

(** A progress row as [select_shift] inserts it for step [s]. *)
Definition fresh_progress (uid sid : Z) (p : progress_row) (s : step_row)
  : Prop :=
  progress_user_id p = uid /\ progress_shift_id p = sid
  /\ progress_step_id p = step_id s /\ progress_completed p = 0.

(** What a run leaves alone besides the connection. *)
Definition keeps_session_and_file (w w' : world) : Prop :=
  stored w' = stored w /\ sess w' = sess w /\ flashed w' = flashed w.

(** The same request sent [n] times with the same cookie. *)
Fixpoint repeat_request (E : env) (r : route) (rq : request) (s : session)
    (n : nat) (sv : server) : server :=
  match n with
  | O => sv
  | S k => repeat_request E r rq s k (snd (serve E r rq s sv))
  end.

(** *** Steps of a shift *)

(** The non-blank lines of a steps text block, trimmed, in input order. *)
Definition step_lines (text : string) : list string :=
  filter PyStr.truthy (map PyStr.strip (PyStr.split newline text)).

(** Consecutive positions from [pos] on. *)
Fixpoint numbered (pos : Z) (l : list string) : list (Z * string) :=
  match l with
  | [] => []
  | x :: t => (pos, x) :: numbered (pos + 1) t
  end.

(** Position and description of the steps of a shift, in table order. *)
Definition steps_listing (d : DB) (sid : Z) : list (Z * string) :=
  map (fun r => (step_position r, step_description r))
      (filter (fun r => step_shift_id r =? sid) (rows (shift_step d))).

(** The steps table after the INSERT loop over [lines]. *)
Fixpoint add_steps (sid pos : Z) (lines : list string) (t : table step_row)
  : table step_row :=
  match lines with
  | [] => t
  | s :: rest =>
      if PyStr.truthy (PyStr.strip s)
      then add_steps sid (pos + 1) rest
             (insert_row step_id
                (fun i => mk_step i sid pos (PyStr.strip s)) t)
      else add_steps sid pos rest t
  end.

(** The statements of that loop. *)
Fixpoint step_stmts (sid pos : Z) (lines : list string) : list stmt :=
  match lines with
  | [] => []
  | s :: rest =>
      if PyStr.truthy (PyStr.strip s)
      then InsertStep sid pos (PyStr.strip s) :: step_stmts sid (pos + 1) rest
      else step_stmts sid pos rest
  end.

(** SQLite's own guarantee on an AUTOINCREMENT table: the recorded
    sequence value is at least every rowid in the table. *)
Definition sequence_ok {R} (id : R -> Z) (t : table R) : Prop :=
  forall r, In r (rows t) -> id r <= autoinc t.

(** The store after a create, an edit and a delete by the admin
    handlers, as their statements leave it. *)
Definition created (d : DB) (title description text : string) : DB :=
  with_shift_step
    (with_shift d
       (insert_row shift_id (fun i => mk_shift i title description 1)
                   (shift d)))
    (add_steps (next_rowid shift_id (shift d)) 1 (PyStr.split newline text)
               (shift_step d)).

Definition edited (d : DB) (sid : Z) (title description text : string) : DB :=
  with_shift_step
    (with_shift d
       (update_where (fun r => shift_id r =? sid)
          (fun r => mk_shift (shift_id r) title description
                             (shift_is_template r)) (shift d)))
    (add_steps sid 1 (PyStr.split newline text)
       (delete_where (fun r => step_shift_id r =? sid) (shift_step d))).

Definition deleted (d : DB) (sid : Z) : DB :=
  mk_db (user d)
        (delete_where (fun r => shift_id r =? sid) (shift d))
        (delete_where (fun r => step_shift_id r =? sid) (shift_step d))
        (delete_where (fun r => progress_shift_id r =? sid) (progress d))
        (delete_where (fun r => note_shift_id r =? sid) (note d)).

(** *** Accounts and the admin gate *)

(** [email.strip().lower()] *)
Definition normalize_email (e : string) : string :=
  PyStr.lower (PyStr.strip e).

(** A string that does not begin with white space. *)
Definition starts_clean (s : string) : Prop :=
  match s with
  | EmptyString => True
  | String c _ => PyStr.isspace c = false
  end.

(** The data model's invariant on users: emails are stored normalized
    and no two rows share one. *)
Definition emails_normalized (d : DB) : Prop :=
  forall u, In u (rows (user d)) ->
            normalize_email (user_email u) = user_email u.

Definition emails_unique (d : DB) : Prop :=
  NoDup (map user_email (rows (user d))).

(** The same server with another user table. *)
Definition with_users (sv : server) (t : table user_row) : server :=
  mk_server (with_user (file sv) t) (readings sv).

(** The same reply with another user id in the cookie. *)
Definition with_cookie_user (rp : reply) (u : option Z) : reply :=
  mk_reply (answer rp) (messages rp)
           (mk_session u (is_admin_access (cookie rp))).

(** The three admin routes. *)
Definition admin_route (r : route) : Prop :=
  r = r_admin \/ (exists sid, r = r_edit_shift sid)
  \/ (exists sid, r = r_delete_shift sid).

(** The messages of the failures the pages report. *)
Definition refusal : list (string * string) := [("Nemáš oprávnění", "danger")].

Definition duplicate_email_message : string * string :=
  (String.append "Chyba při registraci: "
                 "UNIQUE constraint failed: user.email", "danger").

Definition bad_credentials : list (string * string) :=
  [("Špatné přihlašovací údaje", "danger")].

(** *** Frames, the invariant and the reachable servers *)

(** A monadic computation all of whose runs relate the world before to
    the world after by [R]. *)
Definition respects {A} (R : world -> world -> Prop) (m : M A) : Prop :=
  forall w, R w (snd (m w)).

(** The two worlds agree on what [f] reads of them. *)
Definition unchanged {B} (f : world -> B) (w w' : world) : Prop := f w' = f w.

(** The admin flag of a world's session. *)
Definition flag_of (w : world) : bool := is_admin_access (sess w).

(** What holds of the file between any two requests. *)
Record store_ok (d : DB) : Prop := mk_store_ok {
  ok_one_row : one_row_per_step d;
  ok_bits : flags_are_bits d;
  ok_step_ids : NoDup (map step_id (rows (shift_step d)));
  ok_step_seq : sequence_ok step_id (shift_step d);
  ok_shift_seq : sequence_ok shift_id (shift d);
  ok_step_refs : forall st, In st (rows (shift_step d)) ->
                            step_shift_id st <= autoinc (shift d);
  ok_emails : emails_normalized d;
  ok_unique : emails_unique d }.

(** The servers the program can be in: the one [create_app] starts
    with on a new file, and any server after one more request, whatever
    the route, the request and the cookie. *)
Inductive reachable (E : env) : server -> Prop :=
| reach_start : reachable E (mk_server (init_db E empty_db) 0)
| reach_serve : forall sv r rq s,
    reachable E sv -> reachable E (snd (serve E r rq s sv)).

(** *** A store to run the handlers on *)

(** A small environment and store to run the handlers on. *)
Definition demo_env : env :=
  mk_env (fun _ _ p => String.append "hash:" p)
         (fun h p => String.eqb h (String.append "hash:" p))
         (fun n => String.append "2024-01-01T00:00:0"
                     (String (ascii_of_nat (48 + n)) ""))
         4300.

Definition demo_file : DB :=
  mk_db (mk_table [mk_user 1 "admin@example.com" "Admin" "hash:admin123" 1;
                   mk_user 2 "bob@x.cz" "Bob" "hash:pw" 0] 2)
        (mk_table [mk_shift 1 "Opening" "" 1] 1)
        (mk_table [mk_step 1 1 1 "Unlock door";
                   mk_step 2 1 2 "Turn on lights"] 2)
        (mk_table [mk_progress 1 2 1 1 1 "2024-01-01T00:00:00";
                   mk_progress 2 2 1 2 0 "2024-01-01T00:00:00"] 2)
        (mk_table [mk_note 1 1 2 "ready" "2024-01-01T00:00:00"] 1).

Definition demo_server : server := mk_server demo_file 1.

Definition bob_row : user_row := mk_user 2 "bob@x.cz" "Bob" "hash:pw" 0.

Definition opening : shift_row := mk_shift 1 "Opening" "" 1.

Definition bob : session := mk_session (Some 2) false.
Definition anonymous : session := mk_session None false.
Definition anonymous_admin : session := mk_session None true.

Definition post (fields : list (string * string)) : request :=
  mk_request POST fields.

Definition demo_steps_text : string :=
  String.append "Lock door"
    (String newline (String.append "  "
       (String newline "  Lights off "))).

Definition demo_shift_form : request :=
  post [("title", "Closing"); ("description", "evening");
        ("steps", demo_steps_text)].

(** *** Sessions and requests *)

(** The user behind a session: the row its [_user_id] finds, if any. *)
Definition current_user_of (d : DB) (s : session) : option user_row :=
  match sess_user_id s with
  | Some uid => user_by_id d uid
  | None => None
  end.

(** The routes behind [@login_required]. *)
Definition protected (r : route) : Prop :=
  r = r_dashboard \/ r = r_logout \/ r = r_shifts
  \/ exists sid, r = r_shift_detail sid.

(** flask-login's answer to a request without a user. *)
Definition please_log_in : list (string * string) :=
  [("Please log in to access this page.", "message")].

(** What a request may not touch when it only reads: the file and the
    count of readings. *)
Definition server_of (w : world) : DB * nat := (stored w, ticks w).

(** *** Lines, references and positions *)

(** A string without the separator: [s.split(sep, 1)] has one piece. *)
Definition free_of (sep : ascii) (s : string) : Prop :=
  PyStr.after_first sep s = None.

(** A line as the step loop stores it: not empty, trimmed, one line. *)
Definition clean_line (x : string) : Prop :=
  x <> "" /\ PyStr.strip x = x /\ free_of newline x.

(** Rows refer only to ids that were handed out: progress rows to a
    shift and a step, notes to a shift. *)
Definition references_issued (d : DB) : Prop :=
  (forall p, In p (rows (progress d)) ->
             progress_shift_id p <= autoinc (shift d)
             /\ progress_step_id p <= autoinc (shift_step d))
  /\ (forall n, In n (rows (note d)) -> note_shift_id n <= autoinc (shift d)).

(** What is stored as text: step descriptions are clean lines, note
    contents are trimmed and not empty. *)
Definition texts_clean (d : DB) : Prop :=
  (forall st, In st (rows (shift_step d)) -> clean_line (step_description st))
  /\ (forall n, In n (rows (note d)) ->
                note_content n <> "" /\ PyStr.strip (note_content n) = note_content n).

(** The steps of every shift sit at positions 1..K in table order. *)
Definition positions_run (d : DB) : Prop :=
  forall sid,
    map fst (steps_listing d sid)
    = map Z.of_nat (List.seq 1 (List.length (steps_listing d sid))).

(** Only the bootstrap account carries [is_admin = 1]. *)
Definition one_admin_row (d : DB) : Prop :=
  forall u, In u (rows (user d)) ->
            user_is_admin u = 1 -> user_email u = "admin@example.com".

(** *** The ways a request changes the file *)

(** One request leaves the file as it was or changes it in one of eight
    ways, each with what the handler checked before writing. *)
Inductive writes (d : DB) : DB -> Prop :=
| w_nothing : writes d d
| w_register (email name hashed : string) :
    email_taken d (normalize_email email) = false ->
    writes d (with_user d
                (insert_row user_id
                   (fun i => mk_user i (normalize_email email)
                               (PyStr.strip name) hashed 0) (user d)))
| w_select (cu : user_row) (sh : shift_row) (sid : Z)
           (new : list progress_row) (d' : DB) :
    In cu (rows (user d)) -> shift_by_id d sid = Some sh ->
    user d' = user d -> shift d' = shift d ->
    shift_step d' = shift_step d -> note d' = note d ->
    rows (progress d')
      = filter (fun r => negb (progress_of (user_id cu) sid r))
               (rows (progress d)) ++ new ->
    Forall2 (fresh_progress (user_id cu) sid) new (steps_of d sid) ->
    writes d d'
| w_toggle (cu : user_row) (sh : shift_row) (sid st c : Z) (ts : string) :
    In cu (rows (user d)) -> shift_by_id d sid = Some sh ->
    completed_of d (user_id cu) sid st <> None ->
    c = 0 \/ c = 1 ->
    writes d (with_progress d
                (update_where (progress_at (user_id cu) sid st)
                   (fun r => mk_progress (progress_id r) (progress_user_id r)
                               (progress_shift_id r) (progress_step_id r)
                               c ts) (progress d)))
| w_complete (cu : user_row) (sh : shift_row) (sid : Z) :
    In cu (rows (user d)) -> shift_by_id d sid = Some sh ->
    writes d (with_progress d
                (delete_where (progress_of (user_id cu) sid) (progress d)))
| w_note (cu : user_row) (sh : shift_row) (sid : Z) (content ts : string) :
    In cu (rows (user d)) -> shift_by_id d sid = Some sh ->
    content <> "" -> PyStr.strip content = content ->
    writes d (with_note d
                (insert_row note_id
                   (fun i => mk_note i sid (user_id cu) content ts) (note d)))
| w_create (title description text : string) :
    writes d (created d title description text)
| w_edit (sh : shift_row) (sid : Z) (title description text : string) :
    shift_by_id d sid = Some sh ->
    writes d (edited d sid title description text)
| w_delete (sid : Z) : writes d (deleted d sid).

(** *** A reachable server to run the handlers on *)

Definition demo_start : server := mk_server (init_db demo_env empty_db) 0.

(** The start after one create through the gate. *)
Definition demo_reached : server :=
  snd (serve demo_env r_admin demo_shift_form anonymous_admin demo_start).

Definition closing : shift_row := mk_shift 1 "Closing" "evening" 1.

Definition bob_admin : session := mk_session (Some 2) true.

(** *** Past the gate *)

(** What the holder of cookie [c] gets from the three admin routes when
    the handlers go ahead: the list of shifts and the edit form of a
    shift are rendered, and a create, an edit of a shift that is there
    and a delete are carried out and acknowledged. *)
Definition admin_crud (E : env) (c : session) : Prop :=
  forall (sv : server) (rq : request),
    (method rq = GET ->
     serve E r_admin rq c sv
     = (mk_reply (Render (admin_html (shifts_newest_first (file sv)))) [] c,
        sv))
    /\ (forall title,
          method rq = POST -> assoc "title" (form rq) = Some title ->
          serve E r_admin rq c sv
          = (mk_reply (Redirect ep_admin) [("Směna vytvořena", "success")] c,
             mk_server (created (file sv) title
                          (form_get rq "description" "")
                          (form_get rq "steps" ""))
                       (readings sv)))
    /\ (forall sid sh,
          shift_by_id (file sv) sid = Some sh ->
          (method rq = GET ->
           serve E (r_edit_shift sid) rq c sv
           = (mk_reply
                (Render (admin_edit_shift_html sh
                   (join_lines (map step_description
                                    (steps_of (file sv) sid))))) [] c,
              sv))
          /\ (forall title,
                method rq = POST -> assoc "title" (form rq) = Some title ->
                serve E (r_edit_shift sid) rq c sv
                = (mk_reply (Redirect ep_admin)
                            [("Směna upravena.", "success")] c,
                   mk_server (edited (file sv) sid title
                                (form_get rq "description" "")
                                (form_get rq "steps" ""))
                             (readings sv))))
    /\ (forall sid,
          sqlite_int sid -> method rq = POST ->
          serve E (r_delete_shift sid) rq c sv
          = (mk_reply (Redirect ep_admin)
               [("Směna a všechny související údaje byly smazány.", "info")] c,
             mk_server (deleted (file sv) sid) (readings sv))).

(** *** A reachable server with progress rows *)

(** After the create, Bob registers and selects the shift. *)
Definition demo_selected : server :=
  snd (serve demo_env (r_shift_detail 1) (post [("action", "select_shift")])
         bob
         (snd (serve demo_env r_register
                 (post [("email", "bob@x.cz"); ("name", "Bob");
                        ("password", "pw")])
                 anonymous demo_reached))).

(** Then he ticks off its first step. *)
Definition demo_toggled : server :=
  snd (serve demo_env (r_shift_detail 1) (post [("action", "toggle_1")])
         bob demo_selected).


Ltac wsimpl :=
  cbn [conn stored sess flashed lastrowid ticks applied file readings
       sess_user_id is_admin_access method form answer messages cookie
       fst snd] in *; cbv beta iota.

(* ===================================================================== *)
(** ** Lists, sorting and tables *)
(* ===================================================================== *)


Section ListFacts.

Context {A : Type}.

Lemma insert_by_length (le : A -> A -> bool) x l :
  List.length (insert_by le x l) = S (List.length l).
Proof.
  induction l as [|y t IH]; simpl; [reflexivity|].
  destruct (le x y); simpl; [reflexivity | now rewrite IH].
Qed.

Lemma sort_by_length (le : A -> A -> bool) l :
  List.length (sort_by le l) = List.length l.
Proof.
  induction l as [|x t IH]; simpl; [reflexivity|].
  unfold sort_by in *. simpl. now rewrite insert_by_length, IH.
Qed.

Lemma filter_none (f : A -> bool) l :
  (forall x, In x l -> f x = false) -> filter f l = [].
Proof.
  induction l as [|x t IH]; simpl; intros H; [reflexivity|].
  rewrite (H x (or_introl eq_refl)). apply IH. intros y Hy. apply H. now right.
Qed.

Lemma filter_all (f : A -> bool) l :
  (forall x, In x l -> f x = true) -> filter f l = l.
Proof.
  induction l as [|x t IH]; simpl; intros H; [reflexivity|].
  rewrite (H x (or_introl eq_refl)). f_equal. apply IH. intros y Hy.
  apply H. now right.
Qed.

Lemma filter_negb_filter (f : A -> bool) l :
  filter f (filter (fun r => negb (f r)) l) = [].
Proof.
  apply filter_none. intros x Hx. apply filter_In in Hx.
  destruct Hx as [_ Hx]. now destruct (f x).
Qed.

Lemma filter_idem (f : A -> bool) l : filter f (filter f l) = filter f l.
Proof.
  apply filter_all. intros x Hx. now apply filter_In in Hx.
Qed.

End ListFacts.


(* ===================================================================== *)
(** ** The shift page: select, toggle, complete *)
(* ===================================================================== *)

Section Loops.

Variable E : env.

Lemma insert_progress_run uid sid steps : forall w, exists w' new,
  insert_progress E uid sid steps w = (inr tt, w')
  /\ keeps_session_and_file w w'
  /\ user (conn w') = user (conn w)
  /\ shift (conn w') = shift (conn w)
  /\ shift_step (conn w') = shift_step (conn w)
  /\ note (conn w') = note (conn w)
  /\ rows (progress (conn w')) = rows (progress (conn w)) ++ new
  /\ Forall2 (fresh_progress uid sid) new steps.
Proof.
  unfold keeps_session_and_file.
  induction steps as [|s rest IH]; intros w.
  - exists w, []. simpl. rewrite app_nil_r. unfold ret. intuition.
  - cbn [insert_progress]. unfold bind at 1 2. unfold utcnow, bind, tick, ret, execute. simpl.
    match goal with |- context [insert_progress E uid sid rest ?w1] =>
      destruct (IH w1) as (w' & new & Hrun & (Hst & Hse & Hfl) & Hu & Hsh & Hss & Hn & Hrows & Hnew)
    end.
    simpl in *. eexists w', (_ :: new). rewrite Hrun.
    repeat split; try assumption.
    + rewrite Hrows, <- app_assoc. reflexivity.
    + constructor; [|exact Hnew]. repeat split.
Qed.

End Loops.

Section ShiftDetail.

Variable E : env.

Lemma user_by_id_id d uid cu : user_by_id d uid = Some cu -> user_id cu = uid.
Proof.
  unfold user_by_id. intros H. apply find_some in H. now apply Z.eqb_eq.
Qed.

Lemma select_shift_run sv s rq sid uid cu sh :
    sess_user_id s = Some uid ->
    user_by_id (file sv) uid = Some cu ->
    shift_by_id (file sv) sid = Some sh ->
    method rq = POST ->
    assoc "action" (form rq) = Some "select_shift" ->
    exists w' new,
      shift_detail E sid rq (open_world sv s)
        = (inr (Redirect (ep_shift_detail sid)), w')
      /\ sess w' = s
      /\ user (stored w') = user (file sv)
      /\ shift (stored w') = shift (file sv)
      /\ shift_step (stored w') = shift_step (file sv)
      /\ note (stored w') = note (file sv)
      /\ rows (progress (stored w'))
         = filter (fun r => negb (progress_of uid sid r))
                  (rows (progress (file sv))) ++ new
      /\ Forall2 (fresh_progress uid sid) new (steps_of (file sv) sid).
Proof.
  intros Hs Hu Hsh Hm Ha.
  pose proof (user_by_id_id _ _ _ Hu) as Hid.
  unfold shift_detail, login_required, current_user, bind, get_session,
    load_user, query, is_post, open_world. wsimpl.
  rewrite Hs. wsimpl. rewrite Hu. wsimpl. rewrite Hsh. wsimpl.
  rewrite Hm, Ha. wsimpl. rewrite String.eqb_refl.
  unfold execute at 1. simpl exec. wsimpl. rewrite Hid.
  match goal with |- context [insert_progress E uid sid ?st ?w1] =>
    destruct (insert_progress_run E uid sid st w1)
      as (w' & new & Hrun & (Hst & Hse & Hfl) & Hu' & Hsh' & Hss & Hn & Hrows & Hnew)
  end.
  rewrite Hrun. unfold commit, flash, ret. wsimpl.
  eexists _, new. split; [reflexivity|]. wsimpl.
  rewrite Hu', Hsh', Hss, Hn, Hrows. simpl. intuition.
Qed.

Lemma Forall2_fresh_filter uid sid new steps :
  Forall2 (fresh_progress uid sid) new steps ->
  filter (progress_of uid sid) new = new
  /\ filter (fun r => negb (progress_of uid sid r)) new = []
  /\ Forall (fun p => progress_completed p = 0) new
  /\ map progress_step_id new = map step_id steps.
Proof.
  induction 1 as [|p s new steps (Hu & Hs & Hst & Hc) _ (IH1 & IH2 & IH3 & IH4)];
    simpl; [repeat split; constructor|].
  assert (Hp : progress_of uid sid p = true)
    by (unfold progress_of; now rewrite Hu, Hs, !Z.eqb_refl).
  rewrite Hp. simpl. rewrite IH1, IH2, IH4, Hst.
  repeat split. constructor; assumption.
Qed.

(** C1. Selecting a shift leaves exactly one progress row per step of
    the shift for the selecting user, all with [completed = 0], whatever
    rows the pair had before. *)
Theorem select_shift_resets_progress :
  forall (sv : server) (s : session) (rq : request) (sid uid : Z)
         (cu : user_row) (sh : shift_row),
    sess_user_id s = Some uid ->
    user_by_id (file sv) uid = Some cu ->
    shift_by_id (file sv) sid = Some sh ->
    method rq = POST ->
    assoc "action" (form rq) = Some "select_shift" ->
    let after := file (snd (serve E (r_shift_detail sid) rq s sv)) in
    let mine := progress_rows_of after uid sid in
    List.length mine
      = List.length (filter (fun r => step_shift_id r =? sid)
                            (rows (shift_step (file sv))))
    /\ Forall (fun p => progress_completed p = 0) mine
    /\ map progress_step_id mine = map step_id (steps_of (file sv) sid).
Proof.
  intros sv s rq sid uid cu sh Hs Hu Hsh Hm Ha after mine.
  destruct (select_shift_run sv s rq sid uid cu sh Hs Hu Hsh Hm Ha)
    as (w' & new & Hrun & _ & _ & _ & _ & _ & Hrows & Hnew).
  assert (Hmine : mine = new).
  { subst mine after. unfold serve. rewrite Hm.
    cbn [accepts view]. rewrite Hrun. wsimpl.
    unfold progress_rows_of. rewrite Hrows, filter_app, filter_negb_filter.
    apply (Forall2_fresh_filter _ _ _ _ Hnew). }
  rewrite Hmine.
  destruct (Forall2_fresh_filter _ _ _ _ Hnew) as (_ & _ & Hz & Hids).
  repeat split; try assumption.
  rewrite <- (sort_by_length (fun a b => step_position a <=? step_position b)).
  fold (steps_of (file sv) sid).
  rewrite <- (length_map step_id (steps_of (file sv) sid)), <- Hids.
  now rewrite length_map.
Qed.

Lemma shift_detail_not_found sv s rq sid uid cu :
  sess_user_id s = Some uid ->
  user_by_id (file sv) uid = Some cu ->
  shift_by_id (file sv) sid = None ->
  shift_detail E sid rq (open_world sv s)
  = (inr (Redirect ep_shifts),
     mk_world (file sv) (file sv) s [("Směna nenalezena", "danger")] None
              (readings sv) []).
Proof.
  intros Hs Hu Hsh.
  unfold shift_detail, login_required, current_user, bind, get_session,
    load_user, query, open_world. wsimpl.
  rewrite Hs. wsimpl. rewrite Hu. wsimpl. rewrite Hsh. reflexivity.
Qed.

Lemma complete_shift_run sv s rq sid uid cu sh :
  sess_user_id s = Some uid ->
  user_by_id (file sv) uid = Some cu ->
  shift_by_id (file sv) sid = Some sh ->
  method rq = POST ->
  assoc "action" (form rq) = Some "complete_shift" ->
  let d := with_progress (file sv)
             (delete_where (progress_of uid sid) (progress (file sv))) in
  shift_detail E sid rq (open_world sv s)
  = (inr (Redirect ep_dashboard),
     mk_world d d s [("Směna byla označena jako dokončená.", "info")] None
              (readings sv) [DeleteProgressOf uid sid]).
Proof.
  intros Hs Hu Hsh Hm Ha d.
  pose proof (user_by_id_id _ _ _ Hu) as Hid.
  unfold shift_detail, login_required, current_user, bind, get_session,
    load_user, query, is_post, open_world. wsimpl.
  rewrite Hs. wsimpl. rewrite Hu. wsimpl. rewrite Hsh. wsimpl.
  rewrite Hm, Ha, Hid. reflexivity.
Qed.

(** C9. [select_shift] and [complete_shift] by user [uid] on shift [sid]
    leave every progress row of another user or another shift as it was,
    in place, and leave the other four tables untouched. *)
Theorem select_and_complete_touch_one_slice :
  forall (sv : server) (s : session) (rq : request) (sid uid : Z)
         (cu : user_row) (action : string),
    sess_user_id s = Some uid ->
    user_by_id (file sv) uid = Some cu ->
    method rq = POST ->
    assoc "action" (form rq) = Some action ->
    action = "select_shift" \/ action = "complete_shift" ->
    let before := file sv in
    let after := file (snd (serve E (r_shift_detail sid) rq s sv)) in
    filter (fun p => negb (progress_of uid sid p)) (rows (progress after))
      = filter (fun p => negb (progress_of uid sid p)) (rows (progress before))
    /\ user after = user before
    /\ shift after = shift before
    /\ shift_step after = shift_step before
    /\ note after = note before.
Proof.
  intros sv s rq sid uid cu action Hs Hu Hm Ha Hact before after.
  subst before after. unfold serve. rewrite Hm. cbn [accepts view].
  destruct (shift_by_id (file sv) sid) as [sh|] eqn:Hsh.
  - destruct Hact as [-> | ->].
    + destruct (select_shift_run sv s rq sid uid cu sh Hs Hu Hsh Hm Ha)
        as (w' & new & Hrun & _ & Hu' & Hsh' & Hss & Hn & Hrows & Hnew).
      rewrite Hrun. wsimpl. rewrite Hrows, filter_app, filter_idem.
      destruct (Forall2_fresh_filter _ _ _ _ Hnew) as (_ & Hnone & _).
      rewrite Hnone, app_nil_r. auto.
    + rewrite (complete_shift_run sv s rq sid uid cu sh Hs Hu Hsh Hm Ha).
      wsimpl. cbn [progress with_progress delete_where rows user shift
                    shift_step note]. rewrite filter_idem. auto.
  - rewrite (shift_detail_not_found sv s rq sid uid cu Hs Hu Hsh).
    wsimpl. auto.
Qed.

(** The table after the UPDATE of a toggle that found [c]. *)
Lemma toggle_run sv s rq sid uid cu t st :
  sess_user_id s = Some uid ->
  user_by_id (file sv) uid = Some cu ->
  method rq = POST ->
  assoc "action" (form rq) = Some (String.append "toggle_" t) ->
  PyStr.int (int_max_str_digits E) t = Some st ->
  snd (serve E (r_shift_detail sid) rq s sv)
  = match shift_by_id (file sv) sid, completed_of (file sv) uid sid st with
    | Some _, Some c =>
        mk_server
          (with_progress (file sv)
             (update_where (progress_at uid sid st)
                (fun r => mk_progress (progress_id r) (progress_user_id r)
                            (progress_shift_id r) (progress_step_id r)
                            (if c =? 0 then 1 else 0)
                            (utcnow_isoformat E (readings sv)))
                (progress (file sv))))
          (S (readings sv))
    | _, _ => sv
    end.
Proof.
  intros Hs Hu Hm Ha Hint.
  pose proof (user_by_id_id _ _ _ Hu) as Hid.
  unfold serve. rewrite Hm. cbn [accepts view].
  destruct (shift_by_id (file sv) sid) as [sh|] eqn:Hsh.
  2:{ rewrite (shift_detail_not_found sv s rq sid uid cu Hs Hu Hsh).
      wsimpl. now destruct sv. }
  unfold shift_detail, login_required, current_user, bind, get_session,
    load_user, query, is_post, open_world. wsimpl.
  rewrite Hs. wsimpl. rewrite Hu. wsimpl. rewrite Hsh. wsimpl.
  rewrite Hm, Ha, Hid. wsimpl.
  change (String.eqb (String.append "toggle_" t) "select_shift") with false.
  change (PyStr.truthy (String.append "toggle_" t)) with true.
  change (PyStr.startswith "toggle_" (String.append "toggle_" t))
    with (String.prefix "" t).
  change (PyStr.after_first "_" (String.append "toggle_" t)) with (Some t).
  replace (String.prefix "" t) with true by (now destruct t).
  cbn [andb option_map]. rewrite Hint. wsimpl.
  destruct (completed_of (file sv) uid sid st) as [c|] eqn:Hc.
  - reflexivity.
  - unfold ret. wsimpl. now destruct sv.
Qed.

(** The row an UPDATE of [toggle] writes in place of [r]. *)
Lemma find_update_at u sid st c ts (l : list progress_row) :
  let set := fun r => mk_progress (progress_id r) (progress_user_id r)
                        (progress_shift_id r) (progress_step_id r) c ts in
  find (progress_at u sid st)
       (map (fun r => if progress_at u sid st r then set r else r) l)
  = option_map set (find (progress_at u sid st) l).
Proof.
  intros set. induction l as [|r l IH]; [reflexivity|].
  cbn [map find]. destruct (progress_at u sid st r) eqn:Hr.
  - change (progress_at u sid st (set r)) with (progress_at u sid st r).
    now rewrite Hr.
  - rewrite Hr. exact IH.
Qed.

Lemma NoDup_map_eq {A B} (f : A -> B) (l : list A) x y :
  NoDup (map f l) -> In x l -> In y l -> f x = f y -> x = y.
Proof.
  induction l as [|a l IH]; simpl; intros Hnd Hx Hy Hf; [contradiction|].
  inversion Hnd as [|? ? Hnot Hnd']; subst.
  destruct Hx as [-> | Hx], Hy as [-> | Hy].
  - reflexivity.
  - exfalso. apply Hnot. rewrite Hf. now apply in_map.
  - exfalso. apply Hnot. rewrite <- Hf. now apply in_map.
  - now apply IH.
Qed.

Lemma progress_at_key u sid st p :
  progress_at u sid st p = true <-> progress_key p = (u, sid, st).
Proof.
  unfold progress_at, progress_key. rewrite !andb_true_iff, !Z.eqb_eq.
  split; [intros [[-> ->] ->]; reflexivity | intros H; inversion H; auto].
Qed.

Lemma one_row_per_step_untimed d d' :
  map untimed (rows (progress d')) = map untimed (rows (progress d)) ->
  one_row_per_step d -> one_row_per_step d'.
Proof.
  unfold one_row_per_step. intros H Hd.
  replace (map progress_key (rows (progress d')))
    with (map (fun x : Z * Z * Z * Z * Z =>
                 let '(_, u, s, st, _) := x in (u, s, st))
              (map untimed (rows (progress d')))).
  - rewrite H, map_map. exact Hd.
  - rewrite map_map. reflexivity.
Qed.

Lemma flags_are_bits_untimed d d' :
  map untimed (rows (progress d')) = map untimed (rows (progress d)) ->
  flags_are_bits d -> flags_are_bits d'.
Proof.
  unfold flags_are_bits. intros H Hd.
  assert (Hc : map progress_completed (rows (progress d'))
               = map progress_completed (rows (progress d))).
  { replace progress_completed with (fun p => snd (untimed p)) by reflexivity.
    now rewrite <- !(map_map untimed snd), H. }
  rewrite Forall_forall in *. intros p Hp.
  apply (in_map progress_completed) in Hp. rewrite Hc in Hp.
  apply in_map_iff in Hp. destruct Hp as (q & Hq & Hin).
  rewrite <- Hq. now apply Hd.
Qed.

Lemma toggle_twice sv s rq sid uid cu t st :
  sess_user_id s = Some uid ->
  user_by_id (file sv) uid = Some cu ->
  method rq = POST ->
  assoc "action" (form rq) = Some (String.append "toggle_" t) ->
  PyStr.int (int_max_str_digits E) t = Some st ->
  one_row_per_step (file sv) ->
  flags_are_bits (file sv) ->
  let sv2 := snd (serve E (r_shift_detail sid) rq s
                    (snd (serve E (r_shift_detail sid) rq s sv))) in
  map untimed (rows (progress (file sv2)))
    = map untimed (rows (progress (file sv)))
  /\ user (file sv2) = user (file sv).
Proof.
  intros Hs Hu Hm Ha Hint Hone Hbits sv2. subst sv2.
  rewrite (toggle_run sv s rq sid uid cu t st Hs Hu Hm Ha Hint).
  destruct (shift_by_id (file sv) sid) as [sh|] eqn:Hsh.
  2:{ rewrite (toggle_run sv s rq sid uid cu t st Hs Hu Hm Ha Hint), Hsh. auto. }
  destruct (completed_of (file sv) uid sid st) as [c|] eqn:Hc.
  2:{ rewrite (toggle_run sv s rq sid uid cu t st Hs Hu Hm Ha Hint), Hsh, Hc.
      auto. }
  unfold completed_of in Hc.
  destruct (find (progress_at uid sid st) (rows (progress (file sv))))
    as [r0|] eqn:Hfind; [|discriminate].
  cbn [option_map] in Hc. injection Hc as Hc.
  match goal with |- context [serve E _ rq s ?x] => set (sv1 := x) end.
  assert (Hsh1 : shift_by_id (file sv1) sid = Some sh) by exact Hsh.
  assert (Hc1 : completed_of (file sv1) uid sid st
                = Some (if c =? 0 then 1 else 0)).
  { unfold completed_of, sv1.
    cbn [file progress with_progress update_where rows].
    rewrite find_update_at, Hfind. reflexivity. }
  rewrite (toggle_run sv1 s rq sid uid cu t st Hs Hu Hm Ha Hint), Hsh1, Hc1.
  unfold sv1.
  cbn [file readings with_progress progress user update_where rows].
  split; [|reflexivity].
  rewrite !map_map. apply map_ext_in. intros r Hr.
  destruct (progress_at uid sid st r) eqn:Hat.
  - match goal with |- context [progress_at uid sid st ?x] =>
      replace (progress_at uid sid st x) with true by (symmetry; exact Hat)
    end.
    apply find_some in Hfind. destruct Hfind as [Hin0 Hat0].
    assert (r = r0).
    { apply (NoDup_map_eq progress_key _ r r0 Hone Hr Hin0).
      apply progress_at_key in Hat, Hat0. congruence. }
    subst r0. unfold flags_are_bits in Hbits. rewrite Forall_forall in Hbits.
    unfold untimed. cbn. repeat f_equal.
    destruct (Hbits r Hr) as [H0 | H1]; rewrite <- Hc; rewrite ?H0, ?H1;
      reflexivity.
  - rewrite Hat. reflexivity.
Qed.

(** The flag a toggle's lookup finds depends on the rows without their
    timestamps only. *)
Lemma completed_of_untimed d d' u sid st :
  map untimed (rows (progress d')) = map untimed (rows (progress d)) ->
  completed_of d' u sid st = completed_of d u sid st.
Proof.
  unfold completed_of.
  generalize (rows (progress d)) as l, (rows (progress d')) as l'.
  induction l as [|p l IH]; intros [|p' l'] H; try discriminate;
    [reflexivity|].
  cbn [map] in H. unfold untimed at 1 3 in H.
  injection H as _ Hu Hs Hst Hc Hl.
  cbn [find]. unfold progress_at at 1 3. rewrite Hu, Hs, Hst.
  fold (progress_at u sid st p).
  destruct (progress_at u sid st p); [cbn; now rewrite Hc | now apply IH].
Qed.

(** The flag the lookup finds after the UPDATE of a toggle that found
    [c]. *)
Lemma toggle_flag sv s rq sid uid cu t st sh c :
  sess_user_id s = Some uid ->
  user_by_id (file sv) uid = Some cu ->
  method rq = POST ->
  assoc "action" (form rq) = Some (String.append "toggle_" t) ->
  PyStr.int (int_max_str_digits E) t = Some st ->
  shift_by_id (file sv) sid = Some sh ->
  completed_of (file sv) uid sid st = Some c ->
  let sv1 := snd (serve E (r_shift_detail sid) rq s sv) in
  completed_of (file sv1) uid sid st = Some (if c =? 0 then 1 else 0)
  /\ user (file sv1) = user (file sv)
  /\ map progress_key (rows (progress (file sv1)))
     = map progress_key (rows (progress (file sv)))
  /\ (flags_are_bits (file sv) -> flags_are_bits (file sv1)).
Proof.
  intros Hs Hu Hm Ha Hint Hsh Hc sv1. subst sv1.
  rewrite (toggle_run sv s rq sid uid cu t st Hs Hu Hm Ha Hint), Hsh, Hc.
  cbn [file with_progress progress user update_where rows].
  split; [|split; [reflexivity|split]].
  - unfold completed_of in *. cbn [progress with_progress update_where rows].
    rewrite find_update_at.
    destruct (find _ (rows (progress (file sv)))); [|discriminate].
    cbn [option_map] in *. reflexivity.
  - rewrite map_map. apply map_ext. intros q.
    now destruct (progress_at uid sid st q).
  - unfold flags_are_bits. cbn [progress with_progress update_where rows].
    intros Hbits. apply Forall_map. revert Hbits. apply Forall_impl.
    intros q Hq. destruct (progress_at uid sid st q); [|exact Hq].
    cbn [progress_completed]. destruct (c =? 0); auto.
Qed.

Lemma toggle_even sv s rq sid uid cu t st :
  sess_user_id s = Some uid ->
  user_by_id (file sv) uid = Some cu ->
  method rq = POST ->
  assoc "action" (form rq) = Some (String.append "toggle_" t) ->
  PyStr.int (int_max_str_digits E) t = Some st ->
  one_row_per_step (file sv) -> flags_are_bits (file sv) ->
  forall n : nat,
    map untimed
      (rows (progress
         (file (repeat_request E (r_shift_detail sid) rq s (2 * n) sv))))
    = map untimed (rows (progress (file sv))).
Proof.
  intros Hs Hu Hm Ha Hint Hone Hbits n. revert sv Hu Hone Hbits.
  induction n as [|n IH]; intros sv Hu Hone Hbits; [reflexivity|].
  replace (2 * S n)%nat with (S (S (2 * n))) by lia.
  cbn [repeat_request].
  destruct (toggle_twice sv s rq sid uid cu t st Hs Hu Hm Ha Hint Hone Hbits)
    as [Hflags Husers].
  rewrite IH.
  - exact Hflags.
  - unfold user_by_id in *. now rewrite Husers.
  - exact (one_row_per_step_untimed _ _ Hflags Hone).
  - exact (flags_are_bits_untimed _ _ Hflags Hbits).
Qed.

(** C2. One toggle of a step that has a progress row flips the flag the
    lookup finds, 0 to 1 and anything else to 0; on a store with one row
    per (user, shift, step) and flags 0 or 1 an even number of toggles
    brings every progress row back to the flags it had and an odd number
    leaves the step's flag flipped; and a toggle of a step without a
    progress row changes nothing in the store. *)
Theorem toggle_even_times_restores :
  forall (sv : server) (s : session) (rq : request) (sid uid : Z)
         (cu : user_row) (t : string) (st : Z),
    sess_user_id s = Some uid ->
    user_by_id (file sv) uid = Some cu ->
    method rq = POST ->
    assoc "action" (form rq) = Some (String.append "toggle_" t) ->
    PyStr.int (int_max_str_digits E) t = Some st ->
    (one_row_per_step (file sv) -> flags_are_bits (file sv) ->
     forall n : nat,
       map untimed
         (rows (progress
            (file (repeat_request E (r_shift_detail sid) rq s (2 * n) sv))))
       = map untimed (rows (progress (file sv))))
    /\ (completed_of (file sv) uid sid st = None ->
        file (snd (serve E (r_shift_detail sid) rq s sv)) = file sv)
    /\ (forall (sh : shift_row) (c : Z),
          shift_by_id (file sv) sid = Some sh ->
          completed_of (file sv) uid sid st = Some c ->
          let flipped := if c =? 0 then 1 else 0 in
          completed_of (file (snd (serve E (r_shift_detail sid) rq s sv)))
            uid sid st = Some flipped
          /\ flipped <> c
          /\ (one_row_per_step (file sv) -> flags_are_bits (file sv) ->
              forall n : nat,
                completed_of
                  (file (repeat_request E (r_shift_detail sid) rq s (2 * n) sv))
                  uid sid st = Some c
                /\ completed_of
                     (file (repeat_request E (r_shift_detail sid) rq s
                              (S (2 * n)) sv))
                     uid sid st = Some flipped)).
Proof.
  intros sv s rq sid uid cu t st Hs Hu Hm Ha Hint.
  split; [|split].
  - now apply (toggle_even sv s rq sid uid cu t st).
  - intros Hnone.
    rewrite (toggle_run sv s rq sid uid cu t st Hs Hu Hm Ha Hint), Hnone.
    now destruct (shift_by_id (file sv) sid).
  - intros sh c Hsh Hc flipped. subst flipped.
    destruct (toggle_flag sv s rq sid uid cu t st sh c Hs Hu Hm Ha Hint Hsh Hc)
      as (Hflip & Husers & Hkeys & Hbits1).
    split; [exact Hflip|]. split.
    + destruct (c =? 0) eqn:H0;
        [apply Z.eqb_eq in H0 | apply Z.eqb_neq in H0]; lia.
    + intros Hone Hbits n. split.
      * rewrite <- Hc. apply completed_of_untimed.
        now apply (toggle_even sv s rq sid uid cu t st).
      * cbn [repeat_request]. rewrite <- Hflip.
        apply completed_of_untimed.
        apply (toggle_even _ s rq sid uid cu t st); trivial.
        -- unfold user_by_id in *. now rewrite Husers.
        -- unfold one_row_per_step in *. now rewrite Hkeys.
        -- now apply Hbits1.
Qed.

End ShiftDetail.

(* ===================================================================== *)
(** ** Frame rules of the handler monad *)
(* ===================================================================== *)

Section Frames.

Context {B : Type} (f : world -> B).

Lemma unchanged_ret {A} (a : A) : respects (unchanged f) (ret a).
Proof. intros w. reflexivity. Qed.

Lemma unchanged_raise {A} e : respects (unchanged f) (@raise A e).
Proof. intros w. reflexivity. Qed.

Lemma unchanged_bind {A C} (m : M A) (k : A -> M C) :
  respects (unchanged f) m ->
  (forall a, respects (unchanged f) (k a)) ->
  respects (unchanged f) (bind m k).
Proof.
  intros Hm Hk w. unfold bind. specialize (Hm w). unfold unchanged in *.
  destruct (m w) as [[e | a] w']; cbn [snd] in *; [exact Hm|].
  rewrite (Hk a w'). exact Hm.
Qed.

Lemma unchanged_try_except {A} (body : M A) (handler : exn -> M A) :
  respects (unchanged f) body ->
  (forall e, respects (unchanged f) (handler e)) ->
  respects (unchanged f) (try_except body handler).
Proof.
  intros Hb Hh w. unfold try_except. specialize (Hb w). unfold unchanged in *.
  destruct (body w) as [[e | a] w']; cbn [snd] in *; [|exact Hb].
  rewrite (Hh e w'). exact Hb.
Qed.

End Frames.

(** A primitive respects a projection when its definition shows it. *)
Ltac frame_prim :=
  solve [ intros ?w;
          unfold unchanged, flag_of, execute, query, commit, flash,
            get_session, set_session, get_lastrowid, tick, form_item,
            load_user, login_user, logout_user, utcnow, bind, ret, raise;
          cbn;
          repeat match goal with
                 | |- context [match ?x with _ => _ end] => destruct x; cbn
                 end;
          reflexivity ].

Ltac frame :=
  repeat first
    [ apply unchanged_ret
    | apply unchanged_raise
    | match goal with
      | H : context [respects] |- respects _ _ => apply H
      end
    | apply unchanged_bind; [|intros ?]
    | apply unchanged_try_except; [|intros ?]
    | match goal with
      | |- respects _ (match ?x with _ => _ end) => destruct x
      | |- respects _ (let _ := _ in _) => cbv zeta
      end
    | frame_prim ].

Section Flag.

Variable E : env.

Lemma insert_progress_keeps {B} (f : world -> B) uid sid steps :
  (forall s, respects (unchanged f) (execute s)) ->
  respects (unchanged f) tick ->
  respects (unchanged f) (insert_progress E uid sid steps).
Proof.
  intros He Ht. induction steps as [|s rest IH]; cbn [insert_progress].
  - apply unchanged_ret.
  - unfold utcnow. frame.
Qed.

Lemma insert_steps_keeps {B} (f : world -> B) sid lines :
  (forall s, respects (unchanged f) (execute s)) ->
  forall pos, respects (unchanged f) (insert_steps sid pos lines).
Proof.
  intros He. induction lines as [|l rest IH]; intros pos; cbn [insert_steps].
  - apply unchanged_ret.
  - destruct (PyStr.truthy (PyStr.strip l)); [|apply IH].
    apply unchanged_bind; [apply He | intros _; apply IH].
Qed.

Lemma view_keeps_flag r rq :
  r <> r_admin_access -> respects (unchanged flag_of) (view E r rq).
Proof.
  intros Hr.
  assert (Hexec : forall s, respects (unchanged flag_of) (execute s))
    by (intros s; frame_prim).
  assert (Htick : respects (unchanged flag_of) tick) by frame_prim.
  pose proof (fun u s l => insert_progress_keeps flag_of u s l Hexec Htick)
    as Hprog.
  pose proof (fun s l => insert_steps_keeps flag_of s l Hexec) as Hsteps.
  assert (Hin : forall u, respects (unchanged flag_of) (login_user u))
    by (intros u; frame_prim).
  assert (Hout : respects (unchanged flag_of) logout_user) by frame_prim.
  destruct r; cbn [view]; try congruence;
    unfold index, register, login, dashboard, logout, shifts, shift_detail,
      shift_detail_page, admin, edit_shift, delete_shift, admin_gate,
      login_required, current_user;
    frame.
Qed.

Lemma serve_keeps_flag r rq s sv :
  r <> r_admin_access ->
  is_admin_access (cookie (fst (serve E r rq s sv))) = is_admin_access s.
Proof.
  intros Hr. unfold serve. destruct (accepts r (method rq)); [|reflexivity].
  pose proof (view_keeps_flag r rq Hr (open_world sv s)) as H.
  unfold unchanged, flag_of in H.
  destruct (view E r rq (open_world sv s)) as [res w]. exact H.
Qed.

(** The handlers that never commit leave the file as it is. *)
Lemma view_keeps_file r rq :
  In r [r_index; r_login; r_dashboard; r_logout; r_shifts; r_admin_access] ->
  respects (unchanged stored) (view E r rq).
Proof.
  intros Hr.
  assert (Hin : forall u, respects (unchanged stored) (login_user u))
    by (intros u; frame_prim).
  assert (Hout : respects (unchanged stored) logout_user) by frame_prim.
  cbn [In] in Hr.
  destruct Hr as [<- | [<- | [<- | [<- | [<- | [<- | []]]]]]]; cbn [view];
    unfold index, login, dashboard, logout, shifts, admin_access,
      login_required, current_user;
    frame.
Qed.

Lemma serve_keeps_file r rq s sv :
  In r [r_index; r_login; r_dashboard; r_logout; r_shifts; r_admin_access] ->
  file (snd (serve E r rq s sv)) = file sv.
Proof.
  intros Hr. unfold serve. destruct (accepts r (method rq)); [|reflexivity].
  pose proof (view_keeps_file r rq Hr (open_world sv s)) as H.
  unfold unchanged in H.
  destruct (view E r rq (open_world sv s)) as [res w]. exact H.
Qed.

End Flag.

(* ===================================================================== *)
(** ** The admin pages: gate, create, edit, delete *)
(* ===================================================================== *)

Section Admin.

Variable E : env.

Lemma insert_steps_run sid lines : forall pos w, exists lr,
  insert_steps sid pos lines w
  = (inr tt,
     mk_world (with_shift_step (conn w)
                 (add_steps sid pos lines (shift_step (conn w))))
              (stored w) (sess w) (flashed w) lr (ticks w)
              (applied w ++ step_stmts sid pos lines)).
Proof.
  induction lines as [|l rest IH]; intros pos w.
  - exists (lastrowid w). cbn. rewrite app_nil_r.
    destruct w as [c ? ? ? ? ? ?]. destruct c. reflexivity.
  - cbn [insert_steps add_steps step_stmts].
    destruct (PyStr.truthy (PyStr.strip l)); [|apply IH].
    unfold bind at 1. unfold execute at 1. cbn [exec]. wsimpl.
    match goal with |- context [insert_steps sid (pos + 1) rest ?w1] =>
      destruct (IH (pos + 1) w1) as [lr Hrun]
    end.
    exists lr. rewrite Hrun. wsimpl. rewrite <- app_assoc. reflexivity.
Qed.

Lemma admin_run rq s sv :
  serve E r_admin rq s sv
  = if is_admin_access s then
      match method rq with
      | POST =>
          match assoc "title" (form rq) with
          | Some title =>
              (mk_reply (Redirect ep_admin) [("Směna vytvořena", "success")] s,
               mk_server (created (file sv) title
                            (form_get rq "description" "")
                            (form_get rq "steps" ""))
                         (readings sv))
          | None => (mk_reply (Abort 400) [] s, sv)
          end
      | GET =>
          (mk_reply (Render (admin_html (shifts_newest_first (file sv)))) [] s,
           sv)
      end
    else (mk_reply (Redirect ep_admin_access) refusal s, sv).
Proof.
  unfold serve. cbn [accepts view].
  replace (accepts r_admin (method rq)) with true by (now destruct (method rq)).
  unfold admin, admin_gate, bind, get_session, open_world. wsimpl.
  destruct (is_admin_access s); [|now destruct sv].
  unfold is_post. destruct (method rq); [now destruct sv|].
  unfold form_item. destruct (assoc "title" (form rq)) as [title|];
    [|now destruct sv].
  unfold ret at 1. wsimpl. unfold execute at 1. cbn [exec]. wsimpl.
  unfold get_lastrowid. wsimpl.
  match goal with |- context [insert_steps ?i 1 ?l ?w1] =>
    destruct (insert_steps_run i l 1 w1) as [lr Hrun]
  end.
  rewrite Hrun. reflexivity.
Qed.

Lemma edit_shift_run sid rq s sv :
  serve E (r_edit_shift sid) rq s sv
  = if is_admin_access s then
      match shift_by_id (file sv) sid with
      | None =>
          (mk_reply (Redirect ep_admin) [("Směna nenalezena.", "danger")] s, sv)
      | Some sh =>
          match method rq with
          | POST =>
              match assoc "title" (form rq) with
              | Some title =>
                  (mk_reply (Redirect ep_admin)
                            [("Směna upravena.", "success")] s,
                   mk_server (edited (file sv) sid title
                                (form_get rq "description" "")
                                (form_get rq "steps" ""))
                             (readings sv))
              | None => (mk_reply (Abort 400) [] s, sv)
              end
          | GET =>
              (mk_reply
                 (Render (admin_edit_shift_html sh
                    (join_lines (map step_description (steps_of (file sv) sid)))))
                 [] s, sv)
          end
      end
    else (mk_reply (Redirect ep_admin_access) refusal s, sv).
Proof.
  unfold serve. cbn [accepts view].
  replace (accepts (r_edit_shift sid) (method rq)) with true
    by (now destruct (method rq)).
  unfold edit_shift, admin_gate, bind, get_session, query, open_world. wsimpl.
  destruct (is_admin_access s); [|now destruct sv]. wsimpl.
  destruct (shift_by_id (file sv) sid) as [sh|]; [|now destruct sv].
  unfold is_post. destruct (method rq); [now destruct sv|].
  unfold form_item. destruct (assoc "title" (form rq)) as [title|];
    [|now destruct sv].
  unfold ret at 1. wsimpl. unfold execute at 1 2. cbn [exec]. wsimpl.
  match goal with |- context [insert_steps ?i 1 ?l ?w1] =>
    destruct (insert_steps_run i l 1 w1) as [lr Hrun]
  end.
  rewrite Hrun. reflexivity.
Qed.

Lemma delete_shift_world sid sv s :
  is_admin_access s = true ->
  delete_shift sid (open_world sv s)
  = (inr (Redirect ep_admin),
     mk_world (deleted (file sv) sid) (deleted (file sv) sid) s
       [("Směna a všechny související údaje byly smazány.", "info")]
       None (readings sv)
       [DeleteProgressOfShift sid; DeleteSteps sid; DeleteNotes sid;
        DeleteShift sid]).
Proof.
  intros Hflag.
  unfold delete_shift, admin_gate, bind, get_session, open_world. wsimpl.
  rewrite Hflag. reflexivity.
Qed.

Lemma delete_shift_run sid rq s sv :
  serve E (r_delete_shift sid) rq s sv
  = match method rq with
    | GET => (mk_reply (Abort 405) [] s, sv)
    | POST =>
        if is_admin_access s then
          (mk_reply (Redirect ep_admin)
             [("Směna a všechny související údaje byly smazány.", "info")] s,
           mk_server (deleted (file sv) sid) (readings sv))
        else (mk_reply (Redirect ep_admin_access) refusal s, sv)
    end.
Proof.
  unfold serve. cbn [accepts view]. destruct (method rq); [reflexivity|].
  destruct (is_admin_access s) eqn:Hflag.
  - now rewrite delete_shift_world.
  - unfold delete_shift, admin_gate, bind, get_session, open_world. wsimpl.
    rewrite Hflag. now destruct sv.
Qed.

Lemma admin_access_run rq s sv :
  serve E r_admin_access rq s sv
  = match method rq with
    | GET => (mk_reply (Render admin_access_html) [] s, sv)
    | POST =>
        match assoc "password" (form rq) with
        | None => (mk_reply (Abort 400) [] s, sv)
        | Some password =>
            if String.eqb password "admin123" then
              (mk_reply (Redirect ep_admin) [("Přístup povolen", "success")]
                        (mk_session (sess_user_id s) true), sv)
            else
              (mk_reply (Render admin_access_html)
                        [("Špatné heslo", "danger")] s, sv)
        end
    end.
Proof.
  unfold serve. cbn [accepts view].
  replace (accepts r_admin_access (method rq)) with true
    by (now destruct (method rq)).
  unfold admin_access, is_post, form_item, open_world.
  destruct (method rq); [now destruct sv|].
  destruct (assoc "password" (form rq)) as [password|]; [|now destruct sv].
  unfold bind, ret. wsimpl.
  destruct (String.eqb password "admin123"); now destruct sv.
Qed.

Lemma numbered_fst l : forall k : nat,
  map fst (numbered (Z.of_nat k) l) = map Z.of_nat (List.seq k (List.length l)).
Proof.
  induction l as [|x t IH]; intros k; [reflexivity|].
  cbn [numbered map List.length List.seq fst]. f_equal.
  replace (Z.of_nat k + 1) with (Z.of_nat (S k)) by lia. apply IH.
Qed.

Lemma numbered_snd l : forall pos, map snd (numbered pos l) = l.
Proof.
  induction l as [|x t IH]; intros pos; [reflexivity|].
  cbn [numbered map snd]. now rewrite IH.
Qed.

Lemma max_id_ge ids x : In x ids -> x <= max_id ids.
Proof.
  induction ids as [|y t IH]; simpl; [contradiction|].
  intros [-> | H]; [lia | specialize (IH H); lia].
Qed.

(** The loop appends, for the shift it works on, one row per non-blank
    line at consecutive positions. *)
Lemma add_steps_listing sid lines : forall pos t,
  map (fun r => (step_position r, step_description r))
      (filter (fun r => step_shift_id r =? sid)
              (rows (add_steps sid pos lines t)))
  = map (fun r => (step_position r, step_description r))
        (filter (fun r => step_shift_id r =? sid) (rows t))
    ++ numbered pos (filter PyStr.truthy (map PyStr.strip lines)).
Proof.
  induction lines as [|l rest IH]; intros pos t.
  - cbn. now rewrite app_nil_r.
  - cbn [add_steps map filter].
    destruct (PyStr.truthy (PyStr.strip l)) eqn:Hl; [|apply IH].
    rewrite IH. cbn [insert_row rows numbered].
    rewrite filter_app, map_app. cbn [filter step_shift_id].
    rewrite Z.eqb_refl. cbn [map step_position step_description].
    now rewrite <- app_assoc.
Qed.

(** Every row the loop adds has a rowid above all rowids the table held
    or had handed out. *)
Lemma add_steps_fresh sid lines : forall pos t r,
  In r (rows (add_steps sid pos lines t)) ->
  In r (rows t)
  \/ Z.max (autoinc t) (max_id (map step_id (rows t))) < step_id r.
Proof.
  induction lines as [|l rest IH]; intros pos t r Hr; [now left|].
  cbn [add_steps] in Hr.
  destruct (PyStr.truthy (PyStr.strip l)); [|now apply IH in Hr].
  apply IH in Hr. cbn [insert_row rows autoinc] in Hr.
  unfold next_rowid in Hr.
  destruct Hr as [Hr | Hr].
  - apply in_app_or in Hr. destruct Hr as [Hr | [<- | []]]; [now left|].
    right. cbn [step_id]. lia.
  - right. lia.
Qed.

(** C8. A create or an edit leaves, for its shift, exactly the trimmed
    non-blank lines of the steps text, in input order, at positions
    1..K; an edit gives every step a rowid no earlier step row had. *)
Theorem steps_are_the_numbered_lines :
  forall (sv : server) (s : session) (rq : request) (title : string),
    is_admin_access s = true ->
    method rq = POST ->
    assoc "title" (form rq) = Some title ->
    let lines := step_lines (form_get rq "steps" "") in
    let K := List.length lines in
    (let sid := next_rowid shift_id (shift (file sv)) in
     let after := file (snd (serve E r_admin rq s sv)) in
     In (mk_shift sid title (form_get rq "description" "") 1)
        (rows (shift after))
     /\ ((forall r, In r (rows (shift_step (file sv))) ->
          step_shift_id r <> sid) ->
         steps_listing after sid = numbered 1 lines))
    /\ (forall sid sh,
          shift_by_id (file sv) sid = Some sh ->
          let after := file (snd (serve E (r_edit_shift sid) rq s sv)) in
          steps_listing after sid = numbered 1 lines
          /\ (sequence_ok step_id (shift_step (file sv)) ->
              forall r r0,
                In r (rows (shift_step after)) -> step_shift_id r = sid ->
                In r0 (rows (shift_step (file sv))) ->
                step_id r <> step_id r0))
    /\ map fst (numbered 1 lines) = map Z.of_nat (List.seq 1 K)
    /\ map snd (numbered 1 lines) = lines.
Proof.
  intros sv s rq title Hflag Hm Ht lines K.
  split; [|split; [|split]].
  - intros sid after. subst after.
    rewrite admin_run, Hflag, Hm, Ht. cbn [snd file]. split.
    + unfold created. cbn [shift with_shift_step with_shift insert_row rows].
      apply in_or_app. right. left. reflexivity.
    + intros Hnone. unfold steps_listing, created.
      cbn [shift_step with_shift_step]. fold sid.
      rewrite add_steps_listing.
      rewrite (filter_none (fun r => step_shift_id r =? sid)).
      * reflexivity.
      * intros r Hr. apply Z.eqb_neq. now apply Hnone.
  - intros sid sh Hsh after. subst after.
    rewrite edit_shift_run, Hflag, Hsh, Hm, Ht. cbn [snd file]. split.
    + unfold steps_listing, edited. cbn [shift_step with_shift_step].
      rewrite add_steps_listing. cbn [delete_where rows].
      now rewrite filter_negb_filter.
    + intros Hseq r r0 Hr Hrs Hr0.
      unfold edited in Hr. cbn [shift_step with_shift_step] in Hr.
      apply add_steps_fresh in Hr. cbn [delete_where rows autoinc] in Hr.
      destruct Hr as [Hr | Hr].
      * apply filter_In in Hr. destruct Hr as [_ Hr].
        rewrite Hrs, Z.eqb_refl in Hr. discriminate.
      * specialize (Hseq r0 Hr0). lia.
  - apply (numbered_fst lines 1%nat).
  - apply numbered_snd.
Qed.


(** C4. Without the admin flag a request to [/admin] changes nothing
    and is sent to the gate; the gate sets the flag exactly on a POST of
    the passphrase, and no other route sets it. *)
Theorem admin_needs_the_passphrase :
  forall (sv : server) (s : session) (rq : request),
    is_admin_access s = false ->
    serve E r_admin rq s sv
      = (mk_reply (Redirect ep_admin_access) refusal s, sv)
    /\ List.length (rows (shift (file (snd (serve E r_admin rq s sv)))))
       = List.length (rows (shift (file sv)))
    /\ (is_admin_access (cookie (fst (serve E r_admin_access rq s sv))) = true
        <-> method rq = POST
            /\ assoc "password" (form rq) = Some "admin123")
    /\ (forall r,
          is_admin_access (cookie (fst (serve E r rq s sv))) = true ->
          r = r_admin_access).
Proof.
  intros sv s rq Hflag.
  assert (Hothers : forall r,
            is_admin_access (cookie (fst (serve E r rq s sv))) = true ->
            r = r_admin_access).
  { intros r Hr.
    destruct r; try reflexivity;
      rewrite (serve_keeps_flag E) in Hr by discriminate; congruence. }
  split; [|split; [|split; [|exact Hothers]]]; clear Hothers;
    rewrite ?admin_run, ?admin_access_run, ?Hflag; cbn [snd fst];
    try reflexivity.
  destruct (method rq); wsimpl.
  - rewrite Hflag. split; [discriminate | intros [H _]; discriminate].
  - destruct (assoc "password" (form rq)) as [p|]; wsimpl.
    + destruct (String.eqb p "admin123") eqn:Hp; wsimpl.
      * apply String.eqb_eq in Hp. subst p. intuition.
      * rewrite Hflag. split; [discriminate|]. intros [_ H].
        injection H as ->. rewrite String.eqb_refl in Hp. discriminate.
    + rewrite Hflag. split; [discriminate | intros [_ H]; discriminate].
Qed.

Ltac admin_cases s rq :=
  let Hf := fresh "Hflag" in
  unfold with_cookie_user, with_users;
  destruct (is_admin_access s) eqn:Hf; destruct (method rq) eqn:?;
  try destruct (assoc "title" (form rq)) eqn:?; wsimpl; rewrite ?Hf.

(** With the flag in the cookie the three handlers go ahead. *)
Lemma flag_gives_admin_crud c : is_admin_access c = true -> admin_crud E c.
Proof.
  intros Hflag sv rq. split; [|split; [|split]].
  - intros Hm. now rewrite admin_run, Hflag, Hm.
  - intros title Hm Ht. now rewrite admin_run, Hflag, Hm, Ht.
  - intros sid sh Hsh. split.
    + intros Hm. now rewrite edit_shift_run, Hflag, Hsh, Hm.
    + intros title Hm Ht. now rewrite edit_shift_run, Hflag, Hsh, Hm, Ht.
  - intros sid _ Hm. now rewrite delete_shift_run, Hm, Hflag.
Qed.

(** C10. The three admin handlers go ahead exactly when the session
    carries the admin flag.  Without it the request is sent to the gate
    and the server stays as it is; with it the handler does its work:
    the shifts are listed, a create, an edit and a delete are carried
    out.  Who is logged in, if anyone, and what the user table holds
    make no difference to what the handlers answer or write; and a
    client without an account that posts the passphrase to the gate
    gets back a cookie with the flag and no user, with which all of
    this is open to it. *)
Theorem admin_flag_is_the_only_check :
  forall (sv : server) (s : session) (rq : request) (r : route),
    admin_route r ->
    accepts r (method rq) = true ->
    (answer (fst (serve E r rq s sv)) <> Redirect ep_admin_access
     <-> is_admin_access s = true)
    /\ (forall u,
          serve E r rq (mk_session u (is_admin_access s)) sv
          = (with_cookie_user (fst (serve E r rq s sv)) u,
             snd (serve E r rq s sv)))
    /\ (forall t,
          serve E r rq s (with_users sv t)
          = (fst (serve E r rq s sv),
             with_users (snd (serve E r rq s sv)) t))
    /\ serve E r_admin_access (post [("password", "admin123")]) anonymous sv
       = (mk_reply (Redirect ep_admin) [("Přístup povolen", "success")]
                   anonymous_admin, sv)
    /\ (is_admin_access s = false ->
        serve E r rq s sv
        = (mk_reply (Redirect ep_admin_access) refusal s, sv))
    /\ (is_admin_access s = true -> admin_crud E s)
    /\ (let c := cookie (fst (serve E r_admin_access
                                (post [("password", "admin123")])
                                anonymous sv)) in
        sess_user_id c = None /\ admin_crud E c).
Proof.
  intros sv s rq r Hr Hacc.
  assert (Hgate : serve E r_admin_access (post [("password", "admin123")])
                    anonymous sv
                  = (mk_reply (Redirect ep_admin)
                       [("Přístup povolen", "success")] anonymous_admin, sv))
    by (rewrite admin_access_run; reflexivity).
  assert (Hopen : (is_admin_access s = true -> admin_crud E s)
                  /\ (let c := cookie (fst (serve E r_admin_access
                                              (post [("password", "admin123")])
                                              anonymous sv)) in
                      sess_user_id c = None /\ admin_crud E c)).
  { split; [apply flag_gives_admin_crud|].
    rewrite Hgate. cbn [fst cookie]. split; [reflexivity|].
    now apply flag_gives_admin_crud. }
  destruct Hopen as [Hcrud Hanon].
  destruct Hr as [-> | [[sid ->] | [sid ->]]].
  - refine (conj _ (conj _ (conj _ (conj Hgate (conj _ (conj Hcrud Hanon)))))).
    + rewrite admin_run. admin_cases s rq; split; congruence.
    + intros u. rewrite !admin_run. admin_cases s rq; reflexivity.
    + intros t. rewrite !admin_run.
      admin_cases s rq; try reflexivity; now destruct sv.
    + intros Hflag. now rewrite admin_run, Hflag.
  - refine (conj _ (conj _ (conj _ (conj Hgate (conj _ (conj Hcrud Hanon)))))).
    + rewrite edit_shift_run. destruct (shift_by_id (file sv) sid);
        admin_cases s rq; split; congruence.
    + intros u. rewrite !edit_shift_run.
      destruct (shift_by_id (file sv) sid); admin_cases s rq; reflexivity.
    + intros t. rewrite !edit_shift_run.
      change (shift_by_id (file (with_users sv t)) sid)
        with (shift_by_id (file sv) sid).
      destruct (shift_by_id (file sv) sid); admin_cases s rq;
        try reflexivity; now destruct sv.
    + intros Hflag. now rewrite edit_shift_run, Hflag.
  - cbn [accepts] in Hacc. destruct (method rq) eqn:Hm; [discriminate|].
    refine (conj _ (conj _ (conj _ (conj Hgate (conj _ (conj Hcrud Hanon)))))).
    + rewrite delete_shift_run, Hm. destruct (is_admin_access s); wsimpl;
        split; congruence.
    + intros u. rewrite !delete_shift_run, Hm. unfold with_cookie_user.
      wsimpl. destruct (is_admin_access s) eqn:Hf; wsimpl; rewrite ?Hf;
        reflexivity.
    + intros t. rewrite !delete_shift_run, Hm.
      destruct (is_admin_access s); try reflexivity; now destruct sv.
    + intros Hflag. now rewrite delete_shift_run, Hm, Hflag.
Qed.

End Admin.

(* ===================================================================== *)
(** ** Accounts: register, login, dashboard *)
(* ===================================================================== *)

Section Accounts.

Variable E : env.

Lemma register_run rq s sv :
  serve E r_register rq s sv
  = match method rq with
    | GET => (mk_reply (Render register_html) [] s, sv)
    | POST =>
        match assoc "email" (form rq), assoc "name" (form rq),
              assoc "password" (form rq) with
        | Some e, Some n, Some p =>
            if email_taken (file sv) (normalize_email e) then
              (mk_reply (Render register_html) [duplicate_email_message] s,
               mk_server (file sv) (S (readings sv)))
            else
              (mk_reply (Redirect ep_login)
                 [("Registrace úspěšná, přihlas se.", "success")] s,
               mk_server
                 (with_user (file sv)
                    (insert_row user_id
                       (fun i => mk_user i (normalize_email e) (PyStr.strip n)
                          (generate_password_hash E (readings sv)
                             (Some "pbkdf2:sha256") p) 0)
                       (user (file sv))))
                 (S (readings sv)))
        | _, _, _ => (mk_reply (Abort 400) [] s, sv)
        end
    end.
Proof.
  unfold serve. cbn [accepts view].
  replace (accepts r_register (method rq)) with true
    by (now destruct (method rq)).
  unfold register, is_post, form_item, open_world, normalize_email.
  destruct (method rq); [now destruct sv|].
  destruct (assoc "email" (form rq)) as [e|]; [|now destruct sv].
  destruct (assoc "name" (form rq)) as [n|]; [|now destruct sv].
  destruct (assoc "password" (form rq)) as [p|]; [|now destruct sv].
  unfold bind at 1 2 3 4. unfold ret at 1 2 3. unfold tick. wsimpl.
  unfold try_except, bind, execute. cbn [exec]. wsimpl.
  destruct (email_taken (file sv) (PyStr.lower (PyStr.strip e))); reflexivity.
Qed.

Lemma login_run rq s sv :
  serve E r_login rq s sv
  = match method rq with
    | GET => (mk_reply (Render login_html) [] s, sv)
    | POST =>
        match assoc "email" (form rq), assoc "password" (form rq) with
        | Some e, Some p =>
            match user_by_email (file sv) (normalize_email e) with
            | Some r =>
                if check_password_hash E (user_password r) p then
                  (mk_reply (Redirect ep_dashboard)
                     [("Přihlášení úspěšné", "success")]
                     (mk_session (Some (user_id r)) (is_admin_access s)), sv)
                else (mk_reply (Render login_html) bad_credentials s, sv)
            | None => (mk_reply (Render login_html) bad_credentials s, sv)
            end
        | _, _ => (mk_reply (Abort 400) [] s, sv)
        end
    end.
Proof.
  unfold serve. cbn [accepts view].
  replace (accepts r_login (method rq)) with true
    by (now destruct (method rq)).
  unfold login, is_post, form_item, open_world, normalize_email.
  destruct (method rq); [now destruct sv|].
  destruct (assoc "email" (form rq)) as [e|]; [|now destruct sv].
  destruct (assoc "password" (form rq)) as [p|]; [|now destruct sv].
  unfold bind at 1 2 3. unfold ret at 1 2. unfold query. wsimpl.
  destruct (user_by_email (file sv) (PyStr.lower (PyStr.strip e))) as [r|];
    [|now destruct sv].
  destruct (check_password_hash E (user_password r) p); now destruct sv.
Qed.

Lemma email_taken_iff d email :
  email_taken d email = true
  <-> exists u, In u (rows (user d)) /\ user_email u = email.
Proof.
  unfold email_taken. rewrite existsb_exists.
  split; intros (u & Hu & He); exists u; split; trivial;
    now apply String.eqb_eq.
Qed.

(** C5. A registration whose normalized email is the normalized email
    of an existing user is answered with an error and leaves the store
    as it was; one whose normalized email is new appends one user row
    that holds the normalized email. *)
Theorem register_rejects_known_email :
  forall (sv : server) (s : session) (rq : request) (e n p : string),
    method rq = POST ->
    assoc "email" (form rq) = Some e ->
    assoc "name" (form rq) = Some n ->
    assoc "password" (form rq) = Some p ->
    let out := serve E r_register rq s sv in
    (forall u,
       In u (rows (user (file sv))) ->
       normalize_email (user_email u) = user_email u ->
       normalize_email e = normalize_email (user_email u) ->
       answer (fst out) = Render register_html
       /\ messages (fst out) = [duplicate_email_message]
       /\ file (snd out) = file sv)
    /\ ((forall u, In u (rows (user (file sv))) ->
                   user_email u <> normalize_email e) ->
        answer (fst out) = Redirect ep_login
        /\ exists id hashed,
             rows (user (file (snd out)))
             = rows (user (file sv))
               ++ [mk_user id (normalize_email e) (PyStr.strip n) hashed 0]).
Proof.
  intros sv s rq e n p Hm He Hn Hp out. subst out.
  rewrite register_run, Hm, He, Hn, Hp. split.
  - intros u Hu Hnorm Heq.
    assert (Ht : email_taken (file sv) (normalize_email e) = true).
    { apply email_taken_iff. exists u. split; [exact Hu | congruence]. }
    rewrite Ht. auto.
  - intros Hnew.
    assert (Ht : email_taken (file sv) (normalize_email e) = false).
    { apply not_true_is_false. intros H. apply email_taken_iff in H.
      destruct H as (u & Hu & Hue). exact (Hnew u Hu Hue). }
    rewrite Ht. wsimpl. split; [reflexivity|]. eexists _, _. reflexivity.
Qed.


Lemma dashboard_run rq s sv uid cu :
  method rq = GET ->
  sess_user_id s = Some uid ->
  user_by_id (file sv) uid = Some cu ->
  serve E r_dashboard rq s sv = (mk_reply (Abort 500) [] s, sv).
Proof.
  intros Hm Hs Hu. unfold serve. rewrite Hm. cbn [accepts view].
  unfold dashboard, login_required, current_user, bind, get_session,
    load_user, query, raise, open_world. wsimpl.
  rewrite Hs. wsimpl. rewrite Hu. wsimpl. now destruct sv.
Qed.

(** C7. At the failing input: a logged-in user's GET of the dashboard
    gets a server error, not a page with the current shift. *)
Example dashboard_has_no_return :
  current_shift_of demo_file 2 = Some (mk_shift 1 "Opening" "" 1)
  /\ serve demo_env r_dashboard (mk_request GET []) bob demo_server
     = (mk_reply (Abort 500) [] bob, demo_server).
Proof. split; reflexivity. Qed.

End Accounts.

(* ===================================================================== *)
(** ** Normalizing an email twice *)
(* ===================================================================== *)

Section Normalize.

Lemma lower_char_idem c : PyStr.lower_char (PyStr.lower_char c) = PyStr.lower_char c.
Proof. destruct c as [[] [] [] [] [] [] [] []]; reflexivity. Qed.

Lemma isspace_lower_char c : PyStr.isspace (PyStr.lower_char c) = PyStr.isspace c.
Proof. destruct c as [[] [] [] [] [] [] [] []]; reflexivity. Qed.

Lemma lower_idem s : PyStr.lower (PyStr.lower s) = PyStr.lower s.
Proof.
  induction s as [|c r IH]; [reflexivity|].
  cbn [PyStr.lower]. now rewrite lower_char_idem, IH.
Qed.

Lemma lstrip_lower s : PyStr.lstrip (PyStr.lower s) = PyStr.lower (PyStr.lstrip s).
Proof.
  induction s as [|c r IH]; [reflexivity|].
  cbn [PyStr.lower PyStr.lstrip]. rewrite isspace_lower_char.
  destruct (PyStr.isspace c); [exact IH | reflexivity].
Qed.

Lemma rstrip_lower s : PyStr.rstrip (PyStr.lower s) = PyStr.lower (PyStr.rstrip s).
Proof.
  induction s as [|c r IH]; [reflexivity|].
  cbn [PyStr.lower PyStr.rstrip]. rewrite IH, isspace_lower_char.
  destruct (PyStr.rstrip r); cbn [PyStr.lower];
    [destruct (PyStr.isspace c)|]; reflexivity.
Qed.

Lemma rstrip_idem s : PyStr.rstrip (PyStr.rstrip s) = PyStr.rstrip s.
Proof.
  induction s as [|c r IH]; [reflexivity|].
  cbn [PyStr.rstrip]. destruct (PyStr.rstrip r) as [|a r'] eqn:Hr.
  - destruct (PyStr.isspace c) eqn:Hc; [reflexivity|].
    cbn [PyStr.rstrip]. now rewrite Hc.
  - cbn [PyStr.rstrip] in *. now rewrite IH.
Qed.

Lemma lstrip_starts_clean s : starts_clean (PyStr.lstrip s).
Proof.
  induction s as [|c r IH]; [exact I|].
  cbn [PyStr.lstrip]. destruct (PyStr.isspace c) eqn:Hc; [exact IH | exact Hc].
Qed.

Lemma starts_clean_lstrip s : starts_clean s -> PyStr.lstrip s = s.
Proof.
  destruct s as [|c r]; [reflexivity|]. cbn. now intros ->.
Qed.

Lemma rstrip_starts_clean s : starts_clean s -> starts_clean (PyStr.rstrip s).
Proof.
  destruct s as [|c r]; [trivial|]. cbn [starts_clean PyStr.rstrip].
  intros Hc. destruct (PyStr.rstrip r); [rewrite Hc|]; exact Hc.
Qed.

Lemma strip_idem s : PyStr.strip (PyStr.strip s) = PyStr.strip s.
Proof.
  unfold PyStr.strip.
  rewrite (starts_clean_lstrip (PyStr.rstrip (PyStr.lstrip s))).
  - apply rstrip_idem.
  - apply rstrip_starts_clean, lstrip_starts_clean.
Qed.

(** Normalizing a normalized email changes nothing. *)
Lemma normalize_email_idem e :
  normalize_email (normalize_email e) = normalize_email e.
Proof.
  unfold normalize_email, PyStr.strip.
  rewrite lstrip_lower, rstrip_lower, lower_idem.
  change (PyStr.rstrip (PyStr.lstrip (PyStr.rstrip (PyStr.lstrip e))))
    with (PyStr.strip (PyStr.strip e)).
  now rewrite strip_idem.
Qed.

End Normalize.

Section Shapes.

Variable E : env.

(** Every way a request to the shift page can leave the file. *)
Lemma shift_detail_file sid rq s sv :
  let d := file sv in
  let d' := file (snd (serve E (r_shift_detail sid) rq s sv)) in
  d' = d
  \/ (exists uid new,
        user d' = user d /\ shift d' = shift d
        /\ shift_step d' = shift_step d /\ note d' = note d
        /\ rows (progress d')
           = filter (fun r => negb (progress_of uid sid r)) (rows (progress d))
             ++ new
        /\ Forall2 (fresh_progress uid sid) new (steps_of d sid))
  \/ (exists uid st c ts,
        (c = 0 \/ c = 1)
        /\ d' = with_progress d
                  (update_where (progress_at uid sid st)
                     (fun r => mk_progress (progress_id r) (progress_user_id r)
                                 (progress_shift_id r) (progress_step_id r)
                                 c ts) (progress d)))
  \/ (exists uid,
        d' = with_progress d
               (delete_where (progress_of uid sid) (progress d)))
  \/ (exists uid content ts,
        d' = with_note d
               (insert_row note_id
                  (fun i => mk_note i sid uid content ts) (note d))).
Proof.
  intros d d'. subst d. assert (Hd : d' = d') by reflexivity.
  unfold d' at 2 in Hd. clearbody d'. unfold serve in Hd.
  replace (accepts (r_shift_detail sid) (method rq)) with true in Hd
    by (now destruct (method rq)).
  cbn [view] in Hd.
  unfold shift_detail, login_required, current_user, bind, get_session,
    load_user, query, open_world in Hd. wsimpl.
  destruct (sess_user_id s) as [uid0|]; wsimpl; [|now left].
  destruct (user_by_id (file sv) uid0) as [cu|]; wsimpl; [|now left].
  destruct (shift_by_id (file sv) sid) as [sh|]; wsimpl; [|now left].
  destruct (if is_post rq then assoc "action" (form rq) else None)
    as [action|]; [|left; exact Hd].
  destruct (String.eqb action "select_shift").
  { right; left. unfold execute at 1 in Hd. cbn [exec] in Hd. wsimpl.
    match type of Hd with context [insert_progress E ?u sid ?st ?w1] =>
      destruct (insert_progress_run E u sid st w1)
        as (w' & new & Hrun & (Hst & Hse & Hfl) & Hu' & Hsh' & Hss & Hn
            & Hrows & Hnew)
    end.
    rewrite Hrun in Hd. unfold commit, flash, ret in Hd. wsimpl.
    exists (user_id cu), new. rewrite Hd, Hu', Hsh', Hss, Hn, Hrows.
    cbn. auto 10. }
  destruct (PyStr.truthy action && PyStr.startswith "toggle_" action).
  { destruct (option_map (PyStr.int (int_max_str_digits E))
                       (PyStr.after_first "_" action))
      as [[st|]|]; [|now left|now left].
    wsimpl.
    destruct (completed_of (file sv) (user_id cu) sid st) as [c|];
      [|now left].
    right; right; left.
    exists (user_id cu), st, (if c =? 0 then 1 else 0),
      (utcnow_isoformat E (readings sv)).
    split; [destruct (c =? 0); auto | exact Hd]. }
  destruct (String.eqb action "complete_shift").
  { right; right; right; left. exists (user_id cu). exact Hd. }
  destruct (String.eqb action "add_note"); [|left; exact Hd].
  destruct (PyStr.truthy (PyStr.strip (form_get rq "note_content" "")));
    [|now left].
  right; right; right; right.
  exists (user_id cu), (PyStr.strip (form_get rq "note_content" "")),
    (utcnow_isoformat E (readings sv)).
  exact Hd.
Qed.

End Shapes.

(* ===================================================================== *)
(** ** The invariant of the store *)
(* ===================================================================== *)

Section Tables.

Context {R : Type} (id : R -> Z) (mk : Z -> R).
Hypothesis id_mk : forall i, id (mk i) = i.

Lemma insert_row_sequence_ok t : sequence_ok id (insert_row id mk t).
Proof.
  intros r Hr. cbn [insert_row rows autoinc] in *. unfold next_rowid.
  apply in_app_or in Hr. destruct Hr as [Hr | [<- | []]].
  - pose proof (max_id_ge _ _ (in_map id _ _ Hr)). lia.
  - rewrite id_mk. unfold next_rowid. lia.
Qed.

Lemma insert_row_NoDup t :
  NoDup (map id (rows t)) -> NoDup (map id (rows (insert_row id mk t))).
Proof.
  intros Hnd. cbn [insert_row rows]. rewrite map_app. apply NoDup_app.
  - exact Hnd.
  - cbn. constructor; [intros [] | constructor].
  - intros a Ha [Hb | []]. rewrite id_mk in Hb. subst a.
    apply max_id_ge in Ha. unfold next_rowid in Ha. lia.
Qed.

Lemma NoDup_map_filter {K} (key : R -> K) cond (l : list R) :
  NoDup (map key l) -> NoDup (map key (filter cond l)).
Proof.
  induction l as [|x l IH]; cbn; intros Hnd; [constructor|].
  inversion Hnd as [|? ? Hnot Hnd']; subst.
  destruct (cond x); cbn; [constructor|]; auto.
  intros Hin. apply Hnot. apply in_map_iff in Hin.
  destruct Hin as (y & Hy & Hin). apply filter_In in Hin.
  rewrite <- Hy. apply in_map. tauto.
Qed.

Lemma delete_where_sequence_ok cond t :
  sequence_ok id t -> sequence_ok id (delete_where cond t).
Proof.
  intros H r Hr. cbn [delete_where rows autoinc] in *.
  apply filter_In in Hr. apply H. tauto.
Qed.

End Tables.

Section Sorting.

Context {A : Type} (le : A -> A -> bool).

Lemma insert_by_perm x l : Permutation (insert_by le x l) (x :: l).
Proof.
  induction l as [|y t IH]; cbn; [reflexivity|].
  destruct (le x y); [reflexivity|].
  rewrite IH. apply perm_swap.
Qed.

Lemma sort_by_perm l : Permutation (sort_by le l) l.
Proof.
  induction l as [|x t IH]; [reflexivity|].
  unfold sort_by in *. cbn [fold_right]. rewrite insert_by_perm.
  now constructor.
Qed.

End Sorting.

Section Invariant.

Variable E : env.

Lemma add_steps_NoDup sid lines : forall pos t,
  NoDup (map step_id (rows t)) ->
  NoDup (map step_id (rows (add_steps sid pos lines t))).
Proof.
  induction lines as [|l rest IH]; intros pos t Hnd; [exact Hnd|].
  cbn [add_steps]. destruct (PyStr.truthy (PyStr.strip l)); [|now apply IH].
  apply IH. now apply insert_row_NoDup.
Qed.

Lemma add_steps_sequence_ok sid lines : forall pos t,
  sequence_ok step_id t ->
  sequence_ok step_id (add_steps sid pos lines t).
Proof.
  induction lines as [|l rest IH]; intros pos t Hseq; [exact Hseq|].
  cbn [add_steps]. destruct (PyStr.truthy (PyStr.strip l)); [|now apply IH].
  apply IH. now apply insert_row_sequence_ok.
Qed.

Lemma add_steps_refs sid lines : forall pos t r,
  In r (rows (add_steps sid pos lines t)) ->
  In r (rows t) \/ step_shift_id r = sid.
Proof.
  induction lines as [|l rest IH]; intros pos t r Hr; [now left|].
  cbn [add_steps] in Hr.
  destruct (PyStr.truthy (PyStr.strip l)); [|now apply IH in Hr].
  apply IH in Hr. destruct Hr as [Hr | Hr]; [|now right].
  cbn [insert_row rows] in Hr. apply in_app_or in Hr.
  destruct Hr as [Hr | [<- | []]]; [now left | now right].
Qed.

Lemma shift_by_id_In d sid sh :
  shift_by_id d sid = Some sh -> In sh (rows (shift d)) /\ shift_id sh = sid.
Proof.
  unfold shift_by_id. intros H. apply find_some in H.
  now rewrite Z.eqb_eq in H.
Qed.

Lemma steps_of_NoDup d sid :
  NoDup (map step_id (rows (shift_step d))) ->
  NoDup (map step_id (steps_of d sid)).
Proof.
  intros Hnd. unfold steps_of.
  eapply Permutation_NoDup.
  - apply Permutation_map. symmetry. apply sort_by_perm.
  - now apply NoDup_map_filter.
Qed.

Lemma fresh_progress_keys uid sid new steps :
  Forall2 (fresh_progress uid sid) new steps ->
  map progress_key new = map (fun s => (uid, sid, step_id s)) steps.
Proof.
  induction 1 as [|p s new steps (Hu & Hs & Hst & _) _ IH]; [reflexivity|].
  cbn [map]. rewrite IH. unfold progress_key. now rewrite Hu, Hs, Hst.
Qed.

Lemma select_keeps_progress_ok d uid sid rows' new :
  one_row_per_step d -> flags_are_bits d ->
  NoDup (map step_id (rows (shift_step d))) ->
  rows' = filter (fun r => negb (progress_of uid sid r)) (rows (progress d))
          ++ new ->
  Forall2 (fresh_progress uid sid) new (steps_of d sid) ->
  NoDup (map progress_key rows')
  /\ Forall (fun p => progress_completed p = 0 \/ progress_completed p = 1)
            rows'.
Proof.
  unfold one_row_per_step, flags_are_bits. intros Hone Hbits Hids -> Hnew.
  split.
  - rewrite map_app. apply NoDup_app.
    + now apply NoDup_map_filter.
    + rewrite (fresh_progress_keys _ _ _ _ Hnew).
      apply steps_of_NoDup with (sid := sid) in Hids.
      revert Hids. generalize (steps_of d sid). intros l.
      induction l as [|x l IH]; cbn; intros Hnd; [constructor|].
      inversion Hnd as [|? ? Hnot Hnd']; subst. constructor; auto.
      intros Hin. apply Hnot. apply in_map_iff in Hin.
      destruct Hin as (y & Hy & Hin). injection Hy as Hy.
      rewrite <- Hy. now apply in_map.
    + intros k Hold Hk. apply in_map_iff in Hold.
      destruct Hold as (p & Hp & Hin). apply filter_In in Hin.
      destruct Hin as [_ Hneg].
      rewrite (fresh_progress_keys _ _ _ _ Hnew) in Hk.
      apply in_map_iff in Hk. destruct Hk as (st & Hst & _).
      subst k. unfold progress_key in Hst. injection Hst as Hu Hs _.
      unfold progress_of in Hneg. rewrite <- Hu, <- Hs, !Z.eqb_refl in Hneg.
      discriminate.
  - apply Forall_app. split.
    + rewrite Forall_forall in *. intros p Hp. apply filter_In in Hp.
      apply Hbits. tauto.
    + clear -Hnew. induction Hnew as [|p s new steps (_ & _ & _ & Hc) _ IH];
        constructor; auto.
Qed.

Lemma shift_detail_store_ok sid rq s sv :
  store_ok (file sv) ->
  store_ok (file (snd (serve E (r_shift_detail sid) rq s sv))).
Proof.
  intros Hok.
  destruct (shift_detail_file E sid rq s sv)
    as [H | [(uid & new & Hu & Hsh & Hss & Hn & Hrows & Hnew)
       | [(uid & st & c & ts & Hc & H) | [(uid & H) | (uid & content & ts & H)]]]].
  - now rewrite H.
  - destruct Hok as [Hone Hbits Hids Hseq Hsseq Hrefs Hmail Huniq].
    destruct (select_keeps_progress_ok _ uid sid _ new Hone Hbits Hids
                Hrows Hnew) as [Hone' Hbits'].
    constructor; unfold one_row_per_step, flags_are_bits, emails_normalized,
      emails_unique in *; rewrite ?Hu, ?Hsh, ?Hss; assumption.
  - rewrite H. destruct Hok as [Hone Hbits Hids Hseq Hsseq Hrefs Hmail Huniq].
    constructor; try assumption;
      unfold one_row_per_step, flags_are_bits in *;
      cbn [with_progress progress update_where rows].
    + rewrite map_map.
      erewrite map_ext; [exact Hone|].
      intros p. now destruct (progress_at uid sid st p).
    + rewrite Forall_forall in *. intros p Hp. apply in_map_iff in Hp.
      destruct Hp as (q & Hq & Hin). subst p.
      destruct (progress_at uid sid st q); [exact Hc | now apply Hbits].
  - rewrite H. destruct Hok as [Hone Hbits Hids Hseq Hsseq Hrefs Hmail Huniq].
    constructor; try assumption;
      unfold one_row_per_step, flags_are_bits in *;
      cbn [with_progress progress delete_where rows].
    + now apply NoDup_map_filter.
    + rewrite Forall_forall in *. intros p Hp. apply filter_In in Hp.
      apply Hbits. tauto.
  - rewrite H. destruct Hok as [Hone Hbits Hids Hseq Hsseq Hrefs Hmail Huniq].
    constructor; assumption.
Qed.

Lemma register_store_ok rq s sv :
  store_ok (file sv) -> store_ok (file (snd (serve E r_register rq s sv))).
Proof.
  intros Hok. rewrite register_run.
  destruct (method rq); [exact Hok|].
  destruct (assoc "email" (form rq)) as [e|]; [|exact Hok].
  destruct (assoc "name" (form rq)) as [n|]; [|exact Hok].
  destruct (assoc "password" (form rq)) as [p|]; [|exact Hok].
  destruct (email_taken (file sv) (normalize_email e)) eqn:Ht; [exact Hok|].
  destruct Hok as [Hone Hbits Hids Hseq Hsseq Hrefs Hmail Huniq].
  cbn [snd file]. constructor; try assumption;
    unfold emails_normalized, emails_unique in *;
    cbn [with_user user insert_row rows].
  - intros u Hu. apply in_app_or in Hu. destruct Hu as [Hu | [<- | []]].
    + now apply Hmail.
    + apply normalize_email_idem.
  - rewrite map_app. apply NoDup_app; [exact Huniq | |].
    + cbn. constructor; [intros [] | constructor].
    + intros a Ha [Hb | []]. cbn [user_email] in Hb. subst a.
      apply in_map_iff in Ha. destruct Ha as (u & Hue & Hu).
      assert (email_taken (file sv) (normalize_email e) = true)
        by (apply email_taken_iff; now exists u).
      congruence.
Qed.

Lemma created_store_ok d title description text :
  store_ok d -> store_ok (created d title description text).
Proof.
  intros [Hone Hbits Hids Hseq Hsseq Hrefs Hmail Huniq].
  unfold created. constructor; try assumption;
    cbn [with_shift_step with_shift shift_step shift].
  - now apply add_steps_NoDup.
  - now apply add_steps_sequence_ok.
  - now apply insert_row_sequence_ok.
  - intros st Hst. apply add_steps_refs in Hst. cbn [insert_row autoinc].
    destruct Hst as [Hst | ->]; [|lia].
    specialize (Hrefs st Hst). unfold next_rowid. lia.
Qed.

Lemma edited_store_ok d sid sh title description text :
  shift_by_id d sid = Some sh ->
  store_ok d -> store_ok (edited d sid title description text).
Proof.
  intros Hsh [Hone Hbits Hids Hseq Hsseq Hrefs Hmail Huniq].
  apply shift_by_id_In in Hsh. destruct Hsh as [Hin Hid].
  unfold edited. constructor; try assumption;
    cbn [with_shift_step with_shift shift_step shift].
  - apply add_steps_NoDup. cbn [delete_where rows].
    now apply NoDup_map_filter.
  - apply add_steps_sequence_ok. now apply delete_where_sequence_ok.
  - intros r Hr. cbn [update_where rows autoinc] in *.
    apply in_map_iff in Hr. destruct Hr as (q & Hq & Hr).
    specialize (Hsseq q Hr). destruct (shift_id q =? sid); now subst r.
  - intros st Hst. apply add_steps_refs in Hst.
    cbn [update_where autoinc delete_where rows] in *.
    destruct Hst as [Hst | ->].
    + apply filter_In in Hst. apply Hrefs. tauto.
    + rewrite <- Hid. now apply Hsseq.
Qed.

Lemma deleted_store_ok d sid : store_ok d -> store_ok (deleted d sid).
Proof.
  intros [Hone Hbits Hids Hseq Hsseq Hrefs Hmail Huniq].
  unfold deleted. constructor; try assumption;
    unfold one_row_per_step, flags_are_bits in *;
    cbn [progress shift_step shift delete_where rows autoinc].
  - now apply NoDup_map_filter.
  - rewrite Forall_forall in *. intros p Hp. apply filter_In in Hp.
    apply Hbits. tauto.
  - now apply NoDup_map_filter.
  - now apply delete_where_sequence_ok.
  - now apply delete_where_sequence_ok.
  - intros st Hst. apply filter_In in Hst. apply Hrefs. tauto.
Qed.

(** Every request keeps the invariant. *)
Lemma serve_store_ok r rq s sv :
  store_ok (file sv) -> store_ok (file (snd (serve E r rq s sv))).
Proof.
  intros Hok. destruct r;
    try (rewrite serve_keeps_file; [exact Hok | cbn; tauto]).
  - now apply register_store_ok.
  - now apply shift_detail_store_ok.
  - rewrite admin_run.
    destruct (is_admin_access s), (method rq);
      try destruct (assoc "title" (form rq)); try exact Hok.
    now apply created_store_ok.
  - rewrite edit_shift_run.
    destruct (is_admin_access s); [|exact Hok].
    destruct (shift_by_id (file sv) shift_id0) as [sh|] eqn:Hsh; [|exact Hok].
    destruct (method rq); try destruct (assoc "title" (form rq));
      try exact Hok.
    now apply (edited_store_ok _ _ sh).
  - rewrite delete_shift_run.
    destruct (method rq), (is_admin_access s); try exact Hok.
    now apply deleted_store_ok.
Qed.

Lemma init_db_store_ok : store_ok (init_db E empty_db).
Proof.
  constructor; cbn.
  - constructor.
  - constructor.
  - constructor.
  - intros r [].
  - intros r [].
  - intros st [].
  - intros u [<- | []]. reflexivity.
  - constructor; [intros [] | constructor].
Qed.

(** The invariant holds of every server the program can be in. *)
Theorem reachable_store_ok sv : reachable E sv -> store_ok (file sv).
Proof.
  induction 1 as [|sv r rq s _ IH].
  - apply init_db_store_ok.
  - now apply serve_store_ok.
Qed.

(** In particular no step row refers to the id the next shift gets. *)
Corollary reachable_next_shift_unreferenced sv :
  reachable E sv ->
  forall r, In r (rows (shift_step (file sv))) ->
            step_shift_id r <> next_rowid shift_id (shift (file sv)).
Proof.
  intros Hreach r Hr.
  pose proof (ok_step_refs _ (reachable_store_ok sv Hreach) r Hr).
  unfold next_rowid. lia.
Qed.

End Invariant.

(* ===================================================================== *)
(** ** The dashboard query *)
(* ===================================================================== *)

Section Dashboard.

Lemma leb_trans a : forall b c,
  PyStr.leb a b = true -> PyStr.leb b c = true -> PyStr.leb a c = true.
Proof.
  unfold PyStr.leb, String.leb.
  induction a as [|x a IH]; intros [|y b] [|z c]; cbn; try congruence.
  unfold Ascii.compare.
  destruct (N.compare_spec (N_of_ascii x) (N_of_ascii y)) as [Hxy | Hxy | Hxy];
    destruct (N.compare_spec (N_of_ascii y) (N_of_ascii z)) as [Hyz | Hyz | Hyz];
    destruct (N.compare_spec (N_of_ascii x) (N_of_ascii z)) as [Hxz | Hxz | Hxz];
    try congruence; try lia.
  apply IH.
Qed.

Lemma leb_refl a : PyStr.leb a a = true.
Proof. destruct (String.leb_total a a); assumption. Qed.

Section Head.

Context {A : Type} (le : A -> A -> bool).
Hypothesis le_total : forall a b, le a b = true \/ le b a = true.
Hypothesis le_trans : forall a b c, le a b = true -> le b c = true -> le a c = true.

(** The first row of an [ORDER BY] comes before every row. *)
Lemma sort_by_head l :
  match sort_by le l with
  | [] => l = []
  | x :: _ => In x l /\ forall y, In y l -> le x y = true
  end.
Proof.
  induction l as [|a t IH]; [reflexivity|].
  unfold sort_by in *. cbn [fold_right].
  destruct (fold_right (insert_by le) [] t) as [|x0 r].
  - subst t. cbn. split; [now left|]. intros y [<- | []].
    now destruct (le_total a a).
  - destruct IH as [Hin Hmin]. cbn [insert_by].
    destruct (le a x0) eqn:Hle.
    + split; [now left|]. intros y [<- | Hy].
      * now destruct (le_total a a).
      * eapply le_trans; [exact Hle | now apply Hmin].
    + split; [now right|]. intros y [<- | Hy]; [|now apply Hmin].
      destruct (le_total a x0); congruence.
Qed.

End Head.

Lemma max_timestamp_upper g p :
  In p g -> PyStr.leb (progress_timestamp p) (max_timestamp g) = true.
Proof.
  induction g as [|q g IH]; [intros []|].
  cbn [max_timestamp fold_right]. fold (max_timestamp g).
  intros [<- | Hp].
  - destruct (PyStr.leb (max_timestamp g) (progress_timestamp q)) eqn:H.
    + apply leb_refl.
    + destruct (String.leb_total (max_timestamp g) (progress_timestamp q));
        [unfold PyStr.leb in H; congruence | assumption].
  - specialize (IH Hp).
    destruct (PyStr.leb (max_timestamp g) (progress_timestamp q)) eqn:H;
      [eapply leb_trans; eassumption | exact IH].
Qed.

Lemma max_timestamp_attained g :
  g <> [] -> exists p, In p g /\ progress_timestamp p = max_timestamp g.
Proof.
  induction g as [|q g IH]; [congruence|]. intros _.
  cbn [max_timestamp fold_right]. fold (max_timestamp g).
  destruct (PyStr.leb (max_timestamp g) (progress_timestamp q)) eqn:H.
  - exists q. split; [now left | reflexivity].
  - destruct g as [|q' g'].
    + unfold PyStr.leb in H. cbn in H.
      destruct (progress_timestamp q); discriminate.
    + destruct IH as (p & Hp & Hts); [discriminate|].
      exists p. split; [now right | exact Hts].
Qed.

(** The query of the dashboard, lines 155-164: the row it returns is a
    shift on which the user has progress rows, fewer of them completed
    than there are, and whose latest timestamp no other such shift
    exceeds; it returns no row exactly when there is no such shift. *)
Theorem current_shift_of_spec d u :
  match current_shift_of d u with
  | Some sh =>
      In sh (rows (shift d))
      /\ group_of d u sh <> []
      /\ sum_completed (group_of d u sh)
         < Z.of_nat (List.length (group_of d u sh))
      /\ forall sh',
           In sh' (rows (shift d)) -> in_progress d u sh' = true ->
           PyStr.leb (max_timestamp (group_of d u sh'))
                     (max_timestamp (group_of d u sh)) = true
  | None => forall sh, In sh (rows (shift d)) -> in_progress d u sh = false
  end.
Proof.
  unfold current_shift_of.
  set (le := fun a b : shift_row =>
               PyStr.leb (max_timestamp (group_of d u b))
                         (max_timestamp (group_of d u a))).
  pose proof (sort_by_head le) as H.
  specialize (H (fun a b => String.leb_total _ _)
                (fun a b c Hab Hbc => leb_trans _ _ _ Hbc Hab)
                (filter (in_progress d u) (rows (shift d)))).
  destruct (sort_by le (filter (in_progress d u) (rows (shift d))))
    as [|sh rest]; cbn [hd_error].
  - intros sh Hsh. destruct (in_progress d u sh) eqn:Hp; [|reflexivity].
    assert (Hin : In sh (filter (in_progress d u) (rows (shift d))))
      by (apply filter_In; now split).
    rewrite H in Hin. destruct Hin.
  - destruct H as [Hin Hmin]. apply filter_In in Hin.
    destruct Hin as [Hin Hp]. unfold in_progress in Hp.
    apply andb_true_iff in Hp. destruct Hp as [Hne Hlt].
    split; [exact Hin|]. split.
    + intros Hnil. rewrite Hnil in Hne. discriminate.
    + split; [now apply Z.ltb_lt|].
      intros sh' Hin' Hp'. apply (Hmin sh'). apply filter_In. now split.
Qed.

End Dashboard.

(* ===================================================================== *)
(** ** The theorems at work on the demo store *)
(* ===================================================================== *)

Lemma select_shift_resets_progress_witness :
  (sess_user_id bob = Some 2
   /\ user_by_id demo_file 2 = Some bob_row
   /\ shift_by_id demo_file 1 = Some opening)
  /\ let after := file (snd (serve demo_env (r_shift_detail 1)
                              (post [("action", "select_shift")]) bob
                              demo_server)) in
     List.length (progress_rows_of after 2 1) = 2%nat
     /\ Forall (fun p => progress_completed p = 0) (progress_rows_of after 2 1)
     /\ map progress_step_id (progress_rows_of after 2 1) = [1; 2].
Proof.
  split; [repeat split|].
  exact (select_shift_resets_progress demo_env demo_server bob
           (post [("action", "select_shift")]) 1 2 bob_row opening
           eq_refl eq_refl eq_refl eq_refl eq_refl).
Defined.

Lemma toggle_even_times_restores_witness :
  (sess_user_id bob = Some 2
   /\ user_by_id demo_file 2 = Some bob_row
   /\ PyStr.int (int_max_str_digits demo_env) "1" = Some 1
   /\ shift_by_id demo_file 1 = Some opening
   /\ completed_of demo_file 2 1 1 = Some 1)
  /\ map untimed
       (rows (progress (file (repeat_request demo_env (r_shift_detail 1)
                                (post [("action", "toggle_1")]) bob 2
                                demo_server))))
     = map untimed (rows (progress demo_file))
  /\ completed_of
       (file (snd (serve demo_env (r_shift_detail 1)
                     (post [("action", "toggle_1")]) bob demo_server)))
       2 1 1
     = Some 0
  /\ completed_of
       (file (repeat_request demo_env (r_shift_detail 1)
                (post [("action", "toggle_1")]) bob 3 demo_server))
       2 1 1
     = Some 0.
Proof.
  split; [repeat split|].
  assert (Hone : one_row_per_step demo_file).
  { unfold one_row_per_step. cbn.
    repeat constructor; cbn; intuition discriminate. }
  assert (Hbits : flags_are_bits demo_file).
  { unfold flags_are_bits. cbn.
    repeat first [apply Forall_nil
                 | apply Forall_cons; [first [now left | now right]|]]. }
  destruct (toggle_even_times_restores demo_env demo_server bob
              (post [("action", "toggle_1")]) 1 2 bob_row "1" 1
              eq_refl eq_refl eq_refl eq_refl eq_refl)
    as (Heven & _ & Hflip).
  destruct (Hflip opening 1 eq_refl eq_refl) as (Honce & _ & Hmany).
  split; [exact (Heven Hone Hbits 1%nat)|]. split; [exact Honce|].
  exact (proj2 (Hmany Hone Hbits 1%nat)).
Defined.



Lemma admin_needs_the_passphrase_witness :
  is_admin_access anonymous = false
  /\ serve demo_env r_admin demo_shift_form anonymous demo_server
     = (mk_reply (Redirect ep_admin_access) refusal anonymous, demo_server).
Proof.
  split; [reflexivity|].
  exact (proj1 (admin_needs_the_passphrase demo_env demo_server anonymous
                  demo_shift_form eq_refl)).
Defined.

Lemma register_rejects_known_email_witness :
  In bob_row (rows (user demo_file))
  /\ normalize_email " BOB@x.cz" = normalize_email (user_email bob_row)
  /\ file (snd (serve demo_env r_register
                  (post [("email", " BOB@x.cz"); ("name", "Bobby");
                         ("password", "pw2")]) anonymous demo_server))
     = demo_file.
Proof.
  split; [right; left; reflexivity|]. split; [reflexivity|].
  refine (proj2 (proj2 (proj1 (register_rejects_known_email demo_env
            demo_server anonymous
            (post [("email", " BOB@x.cz"); ("name", "Bobby");
                   ("password", "pw2")])
            " BOB@x.cz" "Bobby" "pw2" eq_refl eq_refl eq_refl eq_refl)
            bob_row _ eq_refl eq_refl))).
  right; left; reflexivity.
Defined.


Lemma steps_are_the_numbered_lines_witness :
  is_admin_access anonymous_admin = true
  /\ assoc "title" (form demo_shift_form) = Some "Closing"
  /\ steps_listing
       (file (snd (serve demo_env r_admin demo_shift_form anonymous_admin
                     demo_server))) 2
     = [(1, "Lock door"); (2, "Lights off")]
  /\ steps_listing
       (file (snd (serve demo_env (r_edit_shift 1) demo_shift_form
                     anonymous_admin demo_server))) 1
     = [(1, "Lock door"); (2, "Lights off")].
Proof.
  split; [reflexivity|]. split; [reflexivity|].
  pose proof (steps_are_the_numbered_lines demo_env demo_server
                anonymous_admin demo_shift_form "Closing"
                eq_refl eq_refl eq_refl) as H.
  cbv zeta in H. destruct H as [[_ Hcreate] [Hedit _]]. split.
  - apply Hcreate. intros r [<- | [<- | []]]; discriminate.
  - exact (proj1 (Hedit 1 opening eq_refl)).
Defined.

Lemma select_and_complete_touch_one_slice_witness :
  (sess_user_id bob = Some 2 /\ user_by_id demo_file 2 = Some bob_row)
  /\ let after := file (snd (serve demo_env (r_shift_detail 1)
                              (post [("action", "complete_shift")]) bob
                              demo_server)) in
     user after = user demo_file /\ shift after = shift demo_file
     /\ shift_step after = shift_step demo_file /\ note after = note demo_file.
Proof.
  split; [repeat split|].
  exact (proj2 (select_and_complete_touch_one_slice demo_env demo_server bob
                  (post [("action", "complete_shift")]) 1 2 bob_row
                  "complete_shift" eq_refl eq_refl eq_refl eq_refl
                  (or_intror eq_refl))).
Defined.

Lemma admin_flag_is_the_only_check_witness :
  (admin_route r_admin /\ accepts r_admin (method demo_shift_form) = true
   /\ sqlite_int 1)
  /\ (answer (fst (serve demo_env r_admin demo_shift_form anonymous_admin
                     demo_server)) <> Redirect ep_admin_access
      <-> is_admin_access anonymous_admin = true)
  /\ serve demo_env r_admin demo_shift_form anonymous demo_server
     = (mk_reply (Redirect ep_admin_access) refusal anonymous, demo_server)
  /\ (let c := cookie (fst (serve demo_env r_admin_access
                              (post [("password", "admin123")])
                              anonymous demo_server)) in
      sess_user_id c = None
      /\ rows (shift (file (snd (serve demo_env r_admin demo_shift_form c
                                   demo_server))))
         = [opening; mk_shift 2 "Closing" "evening" 1]
      /\ rows (shift (file (snd (serve demo_env (r_delete_shift 1) (post [])
                                   c demo_server))))
         = []).
Proof.
  assert (Hint : sqlite_int 1) by (split; [discriminate | reflexivity]).
  split; [split; [left; reflexivity | split; [reflexivity | exact Hint]]|].
  destruct (admin_flag_is_the_only_check demo_env demo_server
              anonymous_admin demo_shift_form r_admin
              (or_introl eq_refl) eq_refl)
    as (Hiff & _ & _ & _ & _ & _ & Hanon & Hcrud).
  split; [exact Hiff|]. split.
  - exact (proj1 (proj2 (proj2 (proj2 (proj2
             (admin_flag_is_the_only_check demo_env demo_server anonymous
                demo_shift_form r_admin (or_introl eq_refl) eq_refl)))))
           eq_refl).
  - cbv zeta in *. split; [exact Hanon|]. split.
    + rewrite (proj1 (proj2 (Hcrud demo_server demo_shift_form))
                 "Closing" eq_refl eq_refl).
      reflexivity.
    + rewrite (proj2 (proj2 (proj2 (Hcrud demo_server (post []))))
                 1 Hint eq_refl).
      reflexivity.
Defined.

(* ===================================================================== *)
(** ** Start-up, sessions and requests that only read *)
(* ===================================================================== *)

Section Startup.

Variable E : env.

Lemma user_by_email_taken d email :
  user_by_email d email = None <-> email_taken d email = false.
Proof.
  unfold user_by_email, email_taken. split; intros H.
  - apply not_true_is_false. intros Ht. apply existsb_exists in Ht.
    destruct Ht as (u & Hu & He).
    pose proof (find_none _ _ H u Hu) as Hn. cbv beta in Hn. congruence.
  - destruct (find _ _) as [u|] eqn:Hf; [|reflexivity].
    apply find_some in Hf. destruct Hf as [Hu He].
    assert (Ht : existsb (fun r => String.eqb (user_email r) email)
                         (rows (user d)) = true)
      by (apply existsb_exists; now exists u).
    congruence.
Qed.

Lemma find_app_new {A} (f : A -> bool) l x :
  find f l = None -> f x = true -> find f (l ++ [x]) = Some x.
Proof.
  induction l as [|y l IH]; cbn; intros Hn Hx; [now rewrite Hx|].
  destruct (f y); [discriminate | now apply IH].
Qed.

(** X1. [init_db] makes sure an account with the bootstrap email
    exists, touches nothing else, keeps every account that is there (an
    existing bootstrap account is not replaced), and doing it again
    changes nothing. *)
Theorem init_db_bootstrap_once :
  forall d : DB,
    let d' := init_db E d in
    (exists u, In u (rows (user d'))
               /\ user_email u = "admin@example.com")
    /\ init_db E d' = d'
    /\ (forall u, In u (rows (user d)) -> In u (rows (user d')))
    /\ (email_taken d "admin@example.com" = true -> d' = d)
    /\ shift d' = shift d /\ shift_step d' = shift_step d
    /\ progress d' = progress d /\ note d' = note d.
Proof.
  intros d d'. subst d'. unfold init_db.
  destruct (user_by_email d "admin@example.com") as [u|] eqn:Hu.
  - rewrite Hu. repeat split; auto.
    unfold user_by_email in Hu. apply find_some in Hu.
    destruct Hu as [Hin He]. exists u. split; [exact Hin|].
    now apply String.eqb_eq.
  - pose proof (proj1 (user_by_email_taken _ _) Hu) as Ht.
    cbn [exec]. rewrite Ht.
    set (row := mk_user (next_rowid user_id (user d)) "admin@example.com"
                  "Admin" (generate_password_hash E 0 None "admin123") 1).
    assert (Hfound : user_by_email
              (with_user d (insert_row user_id
                 (fun i => mk_user i "admin@example.com" "Admin"
                    (generate_password_hash E 0 None "admin123") 1) (user d)))
              "admin@example.com" = Some row).
    { unfold user_by_email. cbn [with_user user insert_row rows].
      apply find_app_new; [exact Hu | reflexivity]. }
    rewrite Hfound. repeat split; auto.
    + exists row. split; [|reflexivity].
      cbn [with_user user insert_row rows]. apply in_or_app. right. now left.
    + intros u Hin. cbn [with_user user insert_row rows].
      apply in_or_app. now left.
    + congruence.
Qed.

End Startup.

Section Sessions.

Variable E : env.

Lemma current_user_run s sv w :
  stored w = file sv -> sess w = s ->
  current_user w = (inr (current_user_of (file sv) s), w).
Proof.
  intros Hst Hs. unfold current_user, current_user_of, bind, get_session,
    load_user, ret.
  rewrite Hs. destruct (sess_user_id s); [now rewrite Hst | reflexivity].
Qed.

(** X2. Without a user behind the session (no [_user_id], or one that
    finds no row) the dashboard, logout, the shift list and the shift
    page answer with the redirect to the login page and flask-login's
    message, and neither the server nor the cookie changes. *)
Theorem protected_routes_need_login :
  forall (sv : server) (s : session) (rq : request) (r : route),
    protected r ->
    accepts r (method rq) = true ->
    current_user_of (file sv) s = None ->
    serve E r rq s sv = (mk_reply (Redirect ep_login) please_log_in s, sv).
Proof.
  intros sv s rq r Hr Hacc Hnone. unfold serve. rewrite Hacc.
  assert (Hcu : current_user (open_world sv s) = (inr None, open_world sv s))
    by (rewrite <- Hnone; now apply current_user_run).
  destruct Hr as [-> | [-> | [-> | [sid ->]]]]; cbn [view];
    unfold dashboard, logout, shifts, shift_detail, login_required;
    unfold bind at 1; rewrite Hcu; destruct sv; reflexivity.
Qed.

(** X3. A GET changes nothing on the server, on any route, with any
    cookie and any form: neither the file nor the count of clock
    readings. *)
Theorem get_never_writes :
  forall (sv : server) (s : session) (rq : request) (r : route),
    method rq = GET ->
    snd (serve E r rq s sv) = sv.
Proof.
  intros sv s rq r Hm. unfold serve. rewrite Hm.
  destruct (accepts r GET) eqn:Hacc; [|reflexivity].
  assert (H : respects (unchanged server_of) (view E r rq)).
  { assert (Hin : forall u, respects (unchanged server_of) (login_user u))
      by (intros u; frame_prim).
    assert (Hout : respects (unchanged server_of) logout_user) by frame_prim.
    destruct r; cbn [view accepts] in *; try discriminate;
      unfold index, register, login, dashboard, logout, shifts, shift_detail,
        shift_detail_page, admin, edit_shift, admin_access, admin_gate,
        login_required, current_user, is_post;
      rewrite ?Hm; cbv beta iota; frame. }
  specialize (H (open_world sv s)). unfold unchanged, server_of in H.
  destruct (view E r rq (open_world sv s)) as [res w]. cbn [snd] in *.
  injection H as Hst Ht. cbn [open_world stored ticks] in *.
  destruct sv. cbn in *. now rewrite Hst, Ht.
Qed.

(** X4. No request takes the admin flag away: a session that has it
    keeps it through every route; in particular logging out drops the
    user from the session and leaves the flag. *)
Theorem admin_flag_outlives_logout :
  forall (sv : server) (s : session) (rq : request),
    is_admin_access s = true ->
    (forall r, is_admin_access (cookie (fst (serve E r rq s sv))) = true)
    /\ (forall cu,
          method rq = GET ->
          current_user_of (file sv) s = Some cu ->
          serve E r_logout rq s sv
          = (mk_reply (Redirect ep_index) [("Odhlášeno", "info")]
                      (mk_session None true), sv)).
Proof.
  intros sv s rq Hflag. split.
  - intros r. destruct r;
      try (rewrite (serve_keeps_flag E) by discriminate; exact Hflag).
    rewrite admin_access_run.
    destruct (method rq); [exact Hflag|].
    destruct (assoc "password" (form rq)) as [p|]; [|exact Hflag].
    destruct (String.eqb p "admin123"); [reflexivity | exact Hflag].
  - intros cu Hm Hcu. unfold serve. rewrite Hm. cbn [accepts view].
    unfold logout, login_required. unfold bind at 1.
    rewrite (current_user_run s sv) by reflexivity. rewrite Hcu.
    unfold logout_user, bind, get_session, set_session, flash, ret,
      open_world. wsimpl. rewrite Hflag. now destruct sv.
Qed.

End Sessions.

(* ===================================================================== *)
(** ** More of the shift page: notes, a single toggle, odd actions *)
(* ===================================================================== *)

Ltac enter_shift_detail Hs Hu Hsh :=
  unfold shift_detail, login_required, current_user, bind, get_session,
    load_user, query, is_post, open_world; wsimpl;
  rewrite Hs; wsimpl; rewrite Hu; wsimpl; rewrite Hsh; wsimpl.

Section ShiftPage.

Variable E : env.

Lemma current_user_of_inv d s cu :
  current_user_of d s = Some cu ->
  sess_user_id s = Some (user_id cu) /\ user_by_id d (user_id cu) = Some cu
  /\ In cu (rows (user d)).
Proof.
  unfold current_user_of. destruct (sess_user_id s) as [uid|]; [|discriminate].
  intros Hu. pose proof (user_by_id_id _ _ _ Hu) as Hid. subst uid.
  repeat split; trivial.
  unfold user_by_id in Hu. now apply find_some in Hu.
Qed.

Lemma shift_detail_get_run sid rq s sv cu sh :
  current_user_of (file sv) s = Some cu ->
  shift_by_id (file sv) sid = Some sh ->
  method rq = GET ->
  serve E (r_shift_detail sid) rq s sv
  = (mk_reply
       (Render (shift_detail_html sh (steps_of (file sv) sid)
                  (progress_dict (progress_rows_of (file sv) (user_id cu) sid))
                  (notes_of (file sv) sid))) [] s, sv).
Proof.
  intros Hcu Hsh Hm. apply current_user_of_inv in Hcu.
  destruct Hcu as (Hs & Hu & _).
  unfold serve. rewrite Hm. cbn [accepts view].
  enter_shift_detail Hs Hu Hsh. rewrite Hm. wsimpl.
  apply shift_by_id_In in Hsh. destruct Hsh as [_ Hid].
  unfold shift_detail_page, bind, query, ret. wsimpl. rewrite Hid.
  now destruct sv.
Qed.

Lemma add_note_run sid rq s sv cu sh :
  current_user_of (file sv) s = Some cu ->
  shift_by_id (file sv) sid = Some sh ->
  method rq = POST ->
  assoc "action" (form rq) = Some "add_note" ->
  serve E (r_shift_detail sid) rq s sv
  = let content := PyStr.strip (form_get rq "note_content" "") in
    if PyStr.truthy content then
      (mk_reply (Redirect (ep_shift_detail sid))
                [("Poznámka přidána.", "success")] s,
       mk_server
         (with_note (file sv)
            (insert_row note_id
               (fun i => mk_note i sid (user_id cu) content
                           (utcnow_isoformat E (readings sv)))
               (note (file sv))))
         (S (readings sv)))
    else
      (mk_reply (Redirect (ep_shift_detail sid))
                [("Poznámka nesmí být prázdná.", "warning")] s, sv).
Proof.
  intros Hcu Hsh Hm Ha. apply current_user_of_inv in Hcu.
  destruct Hcu as (Hs & Hu & _).
  unfold serve. rewrite Hm. cbn [accepts view].
  enter_shift_detail Hs Hu Hsh. rewrite Hm, Ha. wsimpl.
  change (String.eqb "add_note" "select_shift") with false.
  change (PyStr.truthy "add_note" && PyStr.startswith "toggle_" "add_note")
    with false.
  change (String.eqb "add_note" "complete_shift") with false.
  change (String.eqb "add_note" "add_note") with true. cbv beta iota zeta.
  destruct (PyStr.truthy (PyStr.strip (form_get rq "note_content" "")));
    [reflexivity | now destruct sv].
Qed.

(** X5. A note is stored trimmed, with its shift, its author and the
    time of the request, and the shift page then lists it with the
    author's name; a note that is blank after trimming, or missing from
    the form, is refused with a warning and nothing is written. *)
Theorem add_note_stores_and_lists :
  forall (sv : server) (s : session) (rq : request) (sid : Z)
         (cu : user_row) (sh : shift_row),
    current_user_of (file sv) s = Some cu ->
    shift_by_id (file sv) sid = Some sh ->
    method rq = POST ->
    assoc "action" (form rq) = Some "add_note" ->
    let content := PyStr.strip (form_get rq "note_content" "") in
    let out := serve E (r_shift_detail sid) rq s sv in
    let n := mk_note (next_rowid note_id (note (file sv))) sid (user_id cu)
                     content (utcnow_isoformat E (readings sv)) in
    (content <> "" ->
     rows (note (file (snd out))) = rows (note (file sv)) ++ [n]
     /\ messages (fst out) = [("Poznámka přidána.", "success")]
     /\ In (n, user_name cu) (notes_of (file (snd out)) sid)
     /\ exists steps prog notes,
          answer (fst (serve E (r_shift_detail sid) (mk_request GET [])
                         s (snd out)))
          = Render (shift_detail_html sh steps prog notes)
          /\ In (n, user_name cu) notes)
    /\ (content = "" ->
        snd out = sv
        /\ messages (fst out) = [("Poznámka nesmí být prázdná.", "warning")]).
Proof.
  intros sv s rq sid cu sh Hcu Hsh Hm Ha content out n. subst out.
  rewrite (add_note_run sid rq s sv cu sh Hcu Hsh Hm Ha). cbv zeta.
  fold content. split; intros Hc.
  - assert (Ht : PyStr.truthy content = true)
      by (destruct content; [congruence | reflexivity]).
    rewrite Ht. cbn [fst snd file messages].
    assert (Hlisted : In (n, user_name cu)
              (notes_of (with_note (file sv)
                 (insert_row note_id
                    (fun i => mk_note i sid (user_id cu) content
                                (utcnow_isoformat E (readings sv)))
                    (note (file sv)))) sid)).
    { unfold notes_of. eapply Permutation_in;
        [symmetry; apply sort_by_perm|].
      apply in_flat_map. exists n. split.
      - cbn [with_note note insert_row rows]. apply in_or_app. right. now left.
      - cbn [note_shift_id n]. unfold n at 1. cbn [note_shift_id].
        rewrite Z.eqb_refl. apply in_map_iff. exists cu. split; [reflexivity|].
        apply filter_In. apply current_user_of_inv in Hcu.
        destruct Hcu as (_ & _ & Hin). split; [exact Hin|].
        unfold n. cbn [note_user_id]. apply Z.eqb_refl. }
    repeat split; try assumption; try reflexivity.
    eexists _, _, _. split; [|exact Hlisted].
    rewrite (shift_detail_get_run sid _ s _ cu sh); [reflexivity | | | ].
    + exact Hcu.
    + exact Hsh.
    + reflexivity.
  - assert (Ht : PyStr.truthy content = false) by (now rewrite Hc).
    rewrite Ht. split; reflexivity.
Qed.

(** X6. One toggle sets the flag of the step's rows to 1 if the first
    of them held 0 and to 0 otherwise, stamps them with the time of the
    request, and leaves every other progress row, the number of rows and
    the other tables as they were. *)
Theorem toggle_flips_one_step :
  forall (sv : server) (s : session) (rq : request) (sid st c : Z)
         (cu : user_row) (sh : shift_row) (t : string),
    current_user_of (file sv) s = Some cu ->
    shift_by_id (file sv) sid = Some sh ->
    method rq = POST ->
    assoc "action" (form rq) = Some (String.append "toggle_" t) ->
    PyStr.int (int_max_str_digits E) t = Some st ->
    completed_of (file sv) (user_id cu) sid st = Some c ->
    let uid := user_id cu in
    let after := file (snd (serve E (r_shift_detail sid) rq s sv)) in
    completed_of after uid sid st = Some (if c =? 0 then 1 else 0)
    /\ (forall p, In p (rows (progress after)) ->
                  progress_at uid sid st p = true ->
                  progress_completed p = (if c =? 0 then 1 else 0)
                  /\ progress_timestamp p = utcnow_isoformat E (readings sv))
    /\ filter (fun p => negb (progress_at uid sid st p)) (rows (progress after))
       = filter (fun p => negb (progress_at uid sid st p))
                (rows (progress (file sv)))
    /\ map progress_key (rows (progress after))
       = map progress_key (rows (progress (file sv)))
    /\ user after = user (file sv) /\ shift after = shift (file sv)
    /\ shift_step after = shift_step (file sv) /\ note after = note (file sv).
Proof.
  intros sv s rq sid st c cu sh t Hcu Hsh Hm Ha Hint Hc uid after.
  apply current_user_of_inv in Hcu. destruct Hcu as (Hs & Hu & _).
  subst after uid.
  rewrite (toggle_run E sv s rq sid _ cu t st Hs Hu Hm Ha Hint), Hsh, Hc.
  cbn [file with_progress progress update_where rows user shift shift_step
       note].
  split; [|split; [|split; [|split]]]; auto.
  - unfold completed_of in *. cbn [progress with_progress update_where rows].
    rewrite find_update_at.
    destruct (find _ (rows (progress (file sv)))); [|discriminate].
    reflexivity.
  - intros p Hp Hat. cbn [update_where rows] in Hp. apply in_map_iff in Hp. destruct Hp as (q & Hq & _).
    destruct (progress_at (user_id cu) sid st q) eqn:Hq'.
    + subst p. split; reflexivity.
    + subst p. congruence.
  - cbn [update_where rows].
    induction (rows (progress (file sv))) as [|q l IH]; [reflexivity|].
    cbn [map filter]. destruct (progress_at (user_id cu) sid st q) eqn:Hq.
    + change (progress_at (user_id cu) sid st
                (mk_progress (progress_id q) (progress_user_id q)
                   (progress_shift_id q) (progress_step_id q)
                   (if c =? 0 then 1 else 0)
                   (utcnow_isoformat E (readings sv))))
        with (progress_at (user_id cu) sid st q).
      rewrite Hq. exact IH.
    + rewrite Hq. cbn [negb]. now rewrite IH.
  - cbn [update_where rows]. rewrite map_map. apply map_ext. intros q.
    now destruct (progress_at (user_id cu) sid st q).
Qed.

(** X7. A toggle whose suffix is not an integer literal ([toggle_],
    [toggle_abc]) ends in a server error, and a POST whose action is
    none of the four, or is missing, shows the page as a GET does; in
    both cases nothing is written. *)
Theorem odd_actions_write_nothing :
  forall (sv : server) (s : session) (rq : request) (sid : Z)
         (cu : user_row) (sh : shift_row),
    current_user_of (file sv) s = Some cu ->
    shift_by_id (file sv) sid = Some sh ->
    method rq = POST ->
    (forall t,
       assoc "action" (form rq) = Some (String.append "toggle_" t) ->
       PyStr.int (int_max_str_digits E) t = None ->
       serve E (r_shift_detail sid) rq s sv = (mk_reply (Abort 500) [] s, sv))
    /\ ((forall a, assoc "action" (form rq) = Some a ->
                   a <> "select_shift" /\ a <> "complete_shift"
                   /\ a <> "add_note"
                   /\ PyStr.startswith "toggle_" a = false) ->
        serve E (r_shift_detail sid) rq s sv
        = serve E (r_shift_detail sid) (mk_request GET (form rq)) s sv).
Proof.
  intros sv s rq sid cu sh Hcu Hsh Hm. split.
  - intros t Ha Hint. apply current_user_of_inv in Hcu.
    destruct Hcu as (Hs & Hu & _).
    unfold serve. rewrite Hm. cbn [accepts view].
    enter_shift_detail Hs Hu Hsh. rewrite Hm, Ha. wsimpl.
    change (String.eqb (String.append "toggle_" t) "select_shift") with false.
    change (PyStr.truthy (String.append "toggle_" t)) with true.
    change (PyStr.startswith "toggle_" (String.append "toggle_" t))
      with (String.prefix "" t).
    change (PyStr.after_first "_" (String.append "toggle_" t)) with (Some t).
    replace (String.prefix "" t) with true by (now destruct t).
    cbn [andb option_map]. rewrite Hint. unfold raise. now destruct sv.
  - intros Hodd.
    rewrite (shift_detail_get_run sid (mk_request GET (form rq)) s sv cu sh
               Hcu Hsh eq_refl).
    apply current_user_of_inv in Hcu. destruct Hcu as (Hs & Hu & _).
    unfold serve. rewrite Hm. cbn [accepts view].
    enter_shift_detail Hs Hu Hsh. rewrite Hm. wsimpl.
    apply shift_by_id_In in Hsh. destruct Hsh as [_ Hid].
    assert (Hpage : forall w,
              w = mk_world (file sv) (file sv) s [] None (readings sv) [] ->
              (let '(res, w') :=
                 shift_detail_page (user_id cu) sh (steps_of (file sv) sid) w in
               (mk_reply match res with
                         | inl (BadRequestKeyError _) => Abort 400
                         | inr resp => resp
                         | inl _ => Abort 500
                         end (flashed w') (sess w'),
                mk_server (stored w') (ticks w')))
              = (mk_reply
                   (Render (shift_detail_html sh (steps_of (file sv) sid)
                      (progress_dict
                         (progress_rows_of (file sv) (user_id cu) sid))
                      (notes_of (file sv) sid))) [] s, sv)).
    { intros w ->. unfold shift_detail_page, bind, query, ret. wsimpl.
      rewrite Hid. now destruct sv. }
    destruct (assoc "action" (form rq)) as [a|]; [|now apply Hpage].
    destruct (Hodd a eq_refl) as (H1 & H2 & H3 & H4).
    apply String.eqb_neq in H1, H2, H3.
    rewrite H1, H2, H3, H4, andb_false_r. now apply Hpage.
Qed.

(** X8. An id within SQLite's integer range that finds no shift is
    reported, after the login check on the shift page and after the gate
    on the edit page, whatever the method and the form, and nothing is
    written; deleting does not look the shift up and answers an unknown
    id like a known one. *)
Theorem unknown_shift_is_reported :
  forall (sv : server) (s : session) (rq : request) (sid : Z),
    sqlite_int sid ->
    shift_by_id (file sv) sid = None ->
    (forall cu,
       current_user_of (file sv) s = Some cu ->
       serve E (r_shift_detail sid) rq s sv
       = (mk_reply (Redirect ep_shifts) [("Směna nenalezena", "danger")] s, sv))
    /\ (is_admin_access s = true ->
        serve E (r_edit_shift sid) rq s sv
        = (mk_reply (Redirect ep_admin) [("Směna nenalezena.", "danger")] s,
           sv))
    /\ (is_admin_access s = true -> method rq = POST ->
        fst (serve E (r_delete_shift sid) rq s sv)
        = mk_reply (Redirect ep_admin)
            [("Směna a všechny související údaje byly smazány.", "info")] s).
Proof.
  intros sv s rq sid _ Hsh. split; [|split].
  - intros cu Hcu. apply current_user_of_inv in Hcu.
    destruct Hcu as (Hs & Hu & _). unfold serve.
    replace (accepts (r_shift_detail sid) (method rq)) with true
      by (now destruct (method rq)).
    cbn [view].
    rewrite (shift_detail_not_found E sv s rq sid _ cu Hs Hu Hsh).
    now destruct sv.
  - intros Hflag. now rewrite edit_shift_run, Hflag, Hsh.
  - intros Hflag Hm. now rewrite delete_shift_run, Hm, Hflag.
Qed.

End ShiftPage.

(* ===================================================================== *)
(** ** More of the forms: missing fields, frames of the admin pages *)
(* ===================================================================== *)

Section Forms.

Variable E : env.

(** X9. A POST that lacks a field the handler reads with
    [request.form[...]] is answered with 400 before anything is read
    from the clock or written: email, name or password for register,
    email or password for login, password for the gate, and, once past
    the gate, title for create and edit. *)
Theorem missing_field_is_a_400 :
  forall (sv : server) (s : session) (rq : request),
    method rq = POST ->
    let refused := (mk_reply (Abort 400) [] s, sv) in
    (assoc "email" (form rq) = None \/ assoc "name" (form rq) = None
     \/ assoc "password" (form rq) = None ->
     serve E r_register rq s sv = refused)
    /\ (assoc "email" (form rq) = None \/ assoc "password" (form rq) = None ->
        serve E r_login rq s sv = refused)
    /\ (assoc "password" (form rq) = None ->
        serve E r_admin_access rq s sv = refused)
    /\ (is_admin_access s = true -> assoc "title" (form rq) = None ->
        serve E r_admin rq s sv = refused
        /\ forall sid sh, shift_by_id (file sv) sid = Some sh ->
                          serve E (r_edit_shift sid) rq s sv = refused).
Proof.
  intros sv s rq Hm refused. subst refused. repeat split.
  - rewrite register_run, Hm. intros [H | [H | H]]; rewrite H;
      repeat match goal with
             | |- context [match assoc ?k (form rq) with _ => _ end] =>
                 destruct (assoc k (form rq))
             end; reflexivity.
  - rewrite login_run, Hm. intros [H | H]; rewrite H;
      try destruct (assoc "email" (form rq)); reflexivity.
  - rewrite admin_access_run, Hm. now intros ->.
  - now rewrite admin_run, Hm, H, H0.
  - intros sid sh Hsh. now rewrite edit_shift_run, Hm, H, H0, Hsh.
Qed.

Lemma add_steps_appends sid lines : forall pos t, exists new,
  rows (add_steps sid pos lines t) = rows t ++ new
  /\ Forall (fun r => step_shift_id r = sid) new.
Proof.
  induction lines as [|l rest IH]; intros pos t.
  - exists []. cbn. now rewrite app_nil_r.
  - cbn [add_steps]. destruct (PyStr.truthy (PyStr.strip l)); [|apply IH].
    destruct (IH (pos + 1)
                 (insert_row step_id
                    (fun i => mk_step i sid pos (PyStr.strip l)) t))
      as (new & Hrows & Hnew).
    eexists (_ :: new). rewrite Hrows. cbn [insert_row rows].
    rewrite <- app_assoc. split; [reflexivity|].
    constructor; [reflexivity | exact Hnew].
Qed.

(** X10. What create and edit leave alone.  A create appends one shift
    row and step rows of the new shift only; an edit rewrites title and
    description of the rows with its id, keeps their id and
    [is_template], and replaces step rows of that shift only.  Neither
    touches users, notes or progress: an edit leaves the progress rows
    of the steps it deletes behind. *)
Theorem create_and_edit_frame :
  forall (sv : server) (s : session) (rq : request) (title : string),
    is_admin_access s = true ->
    method rq = POST ->
    assoc "title" (form rq) = Some title ->
    (let after := file (snd (serve E r_admin rq s sv)) in
     let sid := next_rowid shift_id (shift (file sv)) in
     rows (shift after)
       = rows (shift (file sv))
         ++ [mk_shift sid title (form_get rq "description" "") 1]
     /\ (exists new, rows (shift_step after)
                     = rows (shift_step (file sv)) ++ new
                     /\ Forall (fun r => step_shift_id r = sid) new)
     /\ user after = user (file sv) /\ progress after = progress (file sv)
     /\ note after = note (file sv))
    /\ (forall sid sh,
          shift_by_id (file sv) sid = Some sh ->
          let after := file (snd (serve E (r_edit_shift sid) rq s sv)) in
          rows (shift after)
            = map (fun r => if shift_id r =? sid
                            then mk_shift (shift_id r) title
                                   (form_get rq "description" "")
                                   (shift_is_template r)
                            else r) (rows (shift (file sv)))
          /\ filter (fun r => negb (step_shift_id r =? sid))
                    (rows (shift_step after))
             = filter (fun r => negb (step_shift_id r =? sid))
                      (rows (shift_step (file sv)))
          /\ user after = user (file sv) /\ progress after = progress (file sv)
          /\ note after = note (file sv)).
Proof.
  intros sv s rq title Hflag Hm Ht. split.
  - intros after sid. subst after.
    rewrite admin_run, Hflag, Hm, Ht. cbn [snd file]. unfold created.
    cbn [with_shift_step with_shift shift shift_step user progress note
         insert_row rows].
    repeat split. apply add_steps_appends.
  - intros sid sh Hsh after. subst after.
    rewrite edit_shift_run, Hflag, Hsh, Hm, Ht. cbn [snd file]. unfold edited.
    cbn [with_shift_step with_shift shift shift_step user progress note
         update_where rows].
    repeat split.
    destruct (add_steps_appends sid (PyStr.split newline (form_get rq "steps" ""))
                1 (delete_where (fun r => step_shift_id r =? sid)
                     (shift_step (file sv)))) as (new & Hrows & Hnew).
    rewrite Hrows, filter_app. cbn [delete_where rows]. cbv beta.
    rewrite (filter_idem (fun r : step_row => negb (step_shift_id r =? sid))). rewrite (filter_none _ new); [apply app_nil_r|].
    intros r Hr. rewrite Forall_forall in Hnew. rewrite (Hnew r Hr).
    now rewrite Z.eqb_refl.
Qed.

Lemma deleted_idem d sid : deleted (deleted d sid) sid = deleted d sid.
Proof.
  unfold deleted, delete_where.
  cbn [user shift shift_step progress note rows autoinc]. cbv beta.
  f_equal; f_equal; apply filter_idem.
Qed.

(** X11. Deleting a shift again changes nothing more, and for an id
    that no row refers to it changes nothing at all, though it answers
    as if it had; it never touches users or rows of other shifts. *)
Theorem delete_shift_again :
  forall (sv : server) (s : session) (rq : request) (sid : Z),
    is_admin_access s = true ->
    method rq = POST ->
    let once := serve E (r_delete_shift sid) rq s sv in
    serve E (r_delete_shift sid) rq s (snd once) = once
    /\ user (file (snd once)) = user (file sv)
    /\ ((forall r, In r (rows (shift (file sv))) -> shift_id r <> sid) ->
        (forall r, In r (rows (shift_step (file sv))) ->
                   step_shift_id r <> sid) ->
        (forall r, In r (rows (progress (file sv))) ->
                   progress_shift_id r <> sid) ->
        (forall r, In r (rows (note (file sv))) -> note_shift_id r <> sid) ->
        snd once = sv).
Proof.
  intros sv s rq sid Hflag Hm once. subst once.
  rewrite !delete_shift_run, Hm, Hflag. cbn [snd file readings].
  split; [|split; [reflexivity|]].
  - now rewrite deleted_idem.
  - intros H1 H2 H3 H4. unfold deleted, delete_where.
    rewrite !filter_all.
    + now destruct sv as [[[] [] [] [] []] ?].
    + intros r Hr. apply negb_true_iff, Z.eqb_neq. now apply H4.
    + intros r Hr. apply negb_true_iff, Z.eqb_neq. now apply H3.
    + intros r Hr. apply negb_true_iff, Z.eqb_neq. now apply H2.
    + intros r Hr. apply negb_true_iff, Z.eqb_neq. now apply H1.
Qed.

End Forms.

(* ===================================================================== *)
(** ** The dashboard query after the shift page's actions *)
(* ===================================================================== *)

Section DashboardAfter.

Variable E : env.

Lemma sum_completed_bits g :
  Forall (fun p => progress_completed p = 0 \/ progress_completed p = 1) g ->
  sum_completed g <= Z.of_nat (List.length g)
  /\ (sum_completed g < Z.of_nat (List.length g)
      <-> exists p, In p g /\ progress_completed p = 0).
Proof.
  induction 1 as [|p g Hp _ (IHle & IHlt)].
  - cbn. split; [lia|]. split; [lia | intros (p & [] & _)].
  - cbn [sum_completed fold_right List.length]. fold (sum_completed g).
    rewrite Nat2Z.inj_succ. split; [lia|]. split.
    + intros Hlt. destruct Hp as [H0 | H1].
      * exists p. split; [now left | exact H0].
      * destruct (proj1 IHlt) as (q & Hq & Hq0); [lia|].
        exists q. split; [now right | exact Hq0].
    + intros (q & [<- | Hq] & Hq0); [lia|].
      assert (sum_completed g < Z.of_nat (List.length g))
        by (apply IHlt; now exists q).
      lia.
Qed.

(** X12. With 0/1 flags the query's HAVING clause picks the shifts on
    which the user has a step that is not completed, and the query
    returns no row exactly when the user has no such step on any
    shift. *)
Theorem dashboard_finds_unfinished_steps :
  forall (d : DB) (u : Z),
    flags_are_bits d ->
    (forall sh,
       in_progress d u sh = true
       <-> exists p, In p (rows (progress d))
                     /\ progress_user_id p = u
                     /\ progress_shift_id p = shift_id sh
                     /\ progress_completed p = 0)
    /\ (current_shift_of d u = None
        <-> forall sh p,
              In sh (rows (shift d)) -> In p (rows (progress d)) ->
              progress_user_id p = u ->
              progress_shift_id p = shift_id sh ->
              progress_completed p = 1).
Proof.
  intros d u Hbits.
  assert (Hiff : forall sh,
            in_progress d u sh = true
            <-> exists p, In p (rows (progress d))
                          /\ progress_user_id p = u
                          /\ progress_shift_id p = shift_id sh
                          /\ progress_completed p = 0).
  { intros sh. unfold in_progress.
    assert (Hg : Forall (fun p => progress_completed p = 0
                                  \/ progress_completed p = 1)
                        (group_of d u sh)).
    { unfold flags_are_bits in Hbits. rewrite Forall_forall in *.
      intros p Hp. apply filter_In in Hp. apply Hbits. tauto. }
    destruct (sum_completed_bits _ Hg) as [_ Hlt].
    rewrite andb_true_iff, Z.ltb_lt, Hlt. split.
    - intros (_ & p & Hp & H0). unfold group_of in Hp. apply filter_In in Hp.
      destruct Hp as [Hin Hof]. unfold progress_of in Hof.
      apply andb_true_iff in Hof. rewrite !Z.eqb_eq in Hof.
      exists p. tauto.
    - intros (p & Hin & Hu & Hs & H0).
      assert (Hp : In p (group_of d u sh)).
      { unfold group_of. apply filter_In. split; [exact Hin|].
        unfold progress_of. now rewrite Hu, Hs, !Z.eqb_refl. }
      split; [|now exists p].
      destruct (group_of d u sh); [destruct Hp | reflexivity]. }
  split; [exact Hiff|].
  pose proof (current_shift_of_spec d u) as Hspec. split.
  - intros Hnone sh p Hsh Hp Hu Hs. rewrite Hnone in Hspec.
    specialize (Hspec sh Hsh).
    unfold flags_are_bits in Hbits. rewrite Forall_forall in Hbits.
    destruct (Hbits p Hp) as [H0 | H1]; [|exact H1].
    assert (in_progress d u sh = true) by (apply Hiff; now exists p).
    congruence.
  - intros Hall. destruct (current_shift_of d u) as [sh|]; [|reflexivity].
    destruct Hspec as (Hsh & Hne & Hlt & _).
    assert (Hin : in_progress d u sh = true).
    { unfold in_progress. apply andb_true_iff. split; [|now apply Z.ltb_lt].
      destruct (group_of d u sh); [congruence | reflexivity]. }
    apply Hiff in Hin. destruct Hin as (p & Hp & Hu & Hs & H0).
    specialize (Hall sh p Hsh Hp Hu Hs). lia.
Qed.

Lemma filter_filter_implied {A} (f g : A -> bool) l :
  (forall x, f x = true -> g x = true) ->
  filter f (filter g l) = filter f l.
Proof.
  intros H. induction l as [|x l IH]; [reflexivity|].
  cbn [filter]. destruct (g x) eqn:Hg; cbn [filter].
  - now rewrite IH.
  - destruct (f x) eqn:Hf; [|exact IH].
    rewrite (H x Hf) in Hg. discriminate.
Qed.

Lemma sum_completed_zero g :
  Forall (fun p => progress_completed p = 0) g -> sum_completed g = 0.
Proof.
  induction 1 as [|p g Hp _ IH]; [reflexivity|].
  cbn [sum_completed fold_right]. fold (sum_completed g). lia.
Qed.

(** X13. After [select_shift] the shift is on the user's dashboard
    query exactly when it has a step: the query then returns a row, and
    a shift without steps is selected without ever showing up. *)
Theorem select_puts_shift_in_progress :
  forall (sv : server) (s : session) (rq : request) (sid : Z)
         (cu : user_row) (sh : shift_row),
    current_user_of (file sv) s = Some cu ->
    shift_by_id (file sv) sid = Some sh ->
    method rq = POST ->
    assoc "action" (form rq) = Some "select_shift" ->
    let after := file (snd (serve E (r_shift_detail sid) rq s sv)) in
    in_progress after (user_id cu) sh
      = negb (Nat.eqb (List.length (steps_of (file sv) sid)) 0)
    /\ (steps_of (file sv) sid <> [] ->
        current_shift_of after (user_id cu) <> None).
Proof.
  intros sv s rq sid cu sh Hcu Hsh Hm Ha after.
  apply current_user_of_inv in Hcu. destruct Hcu as (Hs & Hu & _).
  destruct (select_shift_run E sv s rq sid _ cu sh Hs Hu Hsh Hm Ha)
    as (w' & new & Hrun & _ & _ & Hshift & _ & _ & Hrows & Hnew).
  assert (Hafter : after = stored w').
  { subst after. unfold serve. rewrite Hm. cbn [accepts view].
    now rewrite Hrun. }
  pose proof (shift_by_id_In _ _ _ Hsh) as [Hin Hid].
  destruct (Forall2_fresh_filter _ _ _ _ Hnew) as (Hall & _ & Hzero & _).
  assert (Hgroup : group_of after (user_id cu) sh = new).
  { unfold group_of. rewrite Hafter, Hrows, Hid, filter_app,
      filter_negb_filter. exact Hall. }
  assert (Hlen : List.length new = List.length (steps_of (file sv) sid))
    by (eapply Forall2_length; exact Hnew).
  assert (Hprog : in_progress after (user_id cu) sh
                  = negb (Nat.eqb (List.length (steps_of (file sv) sid)) 0)).
  { unfold in_progress. rewrite Hgroup, (sum_completed_zero _ Hzero), Hlen.
    destruct (steps_of (file sv) sid); [reflexivity|].
    cbn [List.length Nat.eqb negb andb]. apply Z.ltb_lt. lia. }
  split; [exact Hprog|].
  intros Hsteps Hnone.
  pose proof (current_shift_of_spec after (user_id cu)) as Hspec.
  rewrite Hnone in Hspec.
  assert (Hin' : In sh (rows (shift after))) by (now rewrite Hafter, Hshift).
  rewrite (Hspec sh Hin') in Hprog.
  destruct (steps_of (file sv) sid); [congruence | discriminate].
Qed.

(** X14. After [complete_shift] the query no longer counts the shift
    for that user, whatever the flags were, so the dashboard query never
    returns it; for any other user or shift it counts what it counted
    before. *)
Theorem complete_takes_shift_off :
  forall (sv : server) (s : session) (rq : request) (sid : Z)
         (cu : user_row) (sh : shift_row),
    current_user_of (file sv) s = Some cu ->
    shift_by_id (file sv) sid = Some sh ->
    method rq = POST ->
    assoc "action" (form rq) = Some "complete_shift" ->
    let after := file (snd (serve E (r_shift_detail sid) rq s sv)) in
    (forall sh', shift_id sh' = sid ->
                 in_progress after (user_id cu) sh' = false
                 /\ current_shift_of after (user_id cu) <> Some sh')
    /\ (forall u sh',
          u <> user_id cu \/ shift_id sh' <> sid ->
          in_progress after u sh' = in_progress (file sv) u sh').
Proof.
  intros sv s rq sid cu sh Hcu Hsh Hm Ha after.
  apply current_user_of_inv in Hcu. destruct Hcu as (Hs & Hu & _).
  assert (Hafter : after
                   = with_progress (file sv)
                       (delete_where (progress_of (user_id cu) sid)
                          (progress (file sv)))).
  { subst after. unfold serve. rewrite Hm. cbn [accepts view].
    now rewrite (complete_shift_run E sv s rq sid _ cu sh Hs Hu Hsh Hm Ha). }
  split.
  - intros sh' Hid.
    assert (Hgroup : group_of after (user_id cu) sh' = []).
    { unfold group_of. rewrite Hafter, Hid.
      cbn [with_progress progress delete_where rows].
      apply filter_negb_filter. }
    split.
    + unfold in_progress. now rewrite Hgroup.
    + intros Hsome.
      pose proof (current_shift_of_spec after (user_id cu)) as Hspec.
      rewrite Hsome in Hspec. destruct Hspec as (_ & Hne & _). congruence.
  - intros u sh' Hother. unfold in_progress, group_of. rewrite Hafter.
    cbn [with_progress progress delete_where rows].
    rewrite filter_filter_implied; [reflexivity|].
    intros p Hp. unfold progress_of in *. apply andb_true_iff in Hp.
    rewrite !Z.eqb_eq in Hp. destruct Hp as [Hpu Hps].
    apply negb_true_iff, andb_false_iff. rewrite !Z.eqb_neq.
    destruct Hother; [left | right]; congruence.
Qed.

End DashboardAfter.

(* ===================================================================== *)
(** ** Registering, then logging in *)
(* ===================================================================== *)

Section RegisterLogin.

Variable E : env.

(** X15. After a registration that went through, a login with an email
    that normalizes to the registered one and with the same password is
    accepted as the new user, provided werkzeug verifies the hash it
    made; the stored email is the normalized one whatever case and
    surrounding blanks either form used. *)
Theorem register_then_login :
  forall (sv : server) (s s' : session) (rq rq' : request)
         (e n p e' : string),
    method rq = POST ->
    assoc "email" (form rq) = Some e ->
    assoc "name" (form rq) = Some n ->
    assoc "password" (form rq) = Some p ->
    email_taken (file sv) (normalize_email e) = false ->
    check_password_hash E
      (generate_password_hash E (readings sv) (Some "pbkdf2:sha256") p) p
      = true ->
    method rq' = POST ->
    assoc "email" (form rq') = Some e' ->
    assoc "password" (form rq') = Some p ->
    normalize_email e' = normalize_email e ->
    let sv1 := snd (serve E r_register rq s sv) in
    serve E r_login rq' s' sv1
    = (mk_reply (Redirect ep_dashboard) [("Přihlášení úspěšné", "success")]
         (mk_session (Some (next_rowid user_id (user (file sv))))
                     (is_admin_access s')), sv1).
Proof.
  intros sv s s' rq rq' e n p e' Hm He Hn Hp Hfree Hhash Hm' He' Hp' Hnorm sv1.
  subst sv1. rewrite register_run, Hm, He, Hn, Hp, Hfree. cbn [snd].
  rewrite login_run, Hm', He', Hp', Hnorm. cbn [file].
  unfold user_by_email. cbn [with_user user insert_row rows].
  rewrite (find_app_new _ _
             (mk_user (next_rowid user_id (user (file sv))) (normalize_email e)
                (PyStr.strip n)
                (generate_password_hash E (readings sv)
                   (Some "pbkdf2:sha256") p) 0)).
  - cbn [user_password user_id]. now rewrite Hhash.
  - now apply user_by_email_taken.
  - cbn [user_email]. apply String.eqb_refl.
Qed.

End RegisterLogin.

(* ===================================================================== *)
(** ** Lines of text: split, strip and join *)
(* ===================================================================== *)

Section Lines.

Variable sep : ascii.

Lemma split_pieces_free s : forall x, In x (PyStr.split sep s) -> free_of sep x.
Proof.
  unfold free_of. induction s as [|c r IH]; intros x Hx.
  - destruct Hx as [<- | []]. reflexivity.
  - cbn [PyStr.split] in Hx. destruct (Ascii.eqb c sep) eqn:Hc.
    + destruct Hx as [<- | Hx]; [reflexivity | now apply IH].
    + destruct (PyStr.split sep r) as [|h t] eqn:Hr.
      * destruct Hx as [<- | []]. cbn. now rewrite Hc.
      * destruct Hx as [<- | Hx].
        -- cbn. rewrite Hc. apply IH. now left.
        -- apply IH. now right.
Qed.

Lemma lstrip_free s : free_of sep s -> free_of sep (PyStr.lstrip s).
Proof.
  unfold free_of. induction s as [|c r IH]; [trivial|].
  cbn [PyStr.lstrip]. destruct (PyStr.isspace c); [|trivial].
  cbn. destruct (Ascii.eqb c sep); [discriminate | exact IH].
Qed.

Lemma rstrip_free s : free_of sep s -> free_of sep (PyStr.rstrip s).
Proof.
  unfold free_of. induction s as [|c r IH]; [trivial|].
  cbn [PyStr.rstrip PyStr.after_first].
  destruct (Ascii.eqb c sep) eqn:Hc; [discriminate|]. intros Hr.
  specialize (IH Hr). destruct (PyStr.rstrip r) as [|a r'].
  - destruct (PyStr.isspace c); cbn; [reflexivity | now rewrite Hc].
  - cbn [PyStr.after_first]. now rewrite Hc.
Qed.

Lemma strip_free s : free_of sep s -> free_of sep (PyStr.strip s).
Proof. intros H. unfold PyStr.strip. now apply rstrip_free, lstrip_free. Qed.

Lemma split_free s : free_of sep s -> PyStr.split sep s = [s].
Proof.
  unfold free_of. induction s as [|c r IH]; [reflexivity|].
  cbn. destruct (Ascii.eqb c sep); [discriminate|].
  intros H. now rewrite (IH H).
Qed.

Lemma split_append x r :
  free_of sep x ->
  PyStr.split sep (String.append x (String sep r)) = x :: PyStr.split sep r.
Proof.
  unfold free_of. induction x as [|c x IH]; cbn.
  - now rewrite Ascii.eqb_refl.
  - destruct (Ascii.eqb c sep); [discriminate|]. intros H. now rewrite (IH H).
Qed.

End Lines.

Section Joining.

(** Splitting what [join_lines] joined gives the lines back, when there
    is at least one and none holds a newline. *)
Lemma split_join_lines l :
  l <> [] -> Forall (free_of newline) l ->
  PyStr.split newline (join_lines l) = l.
Proof.
  induction l as [|x l IH]; [congruence|]. intros _ Hall.
  inversion Hall as [|? ? Hx Hl]; subst.
  destruct l as [|y l].
  - cbn [join_lines]. now apply split_free.
  - change (join_lines (x :: y :: l))
      with (String.append x (String newline (join_lines (y :: l)))).
    rewrite (split_append newline x _ Hx), IH; [reflexivity | discriminate |].
    exact Hl.
Qed.

Lemma truthy_iff x : PyStr.truthy x = true <-> x <> "".
Proof. destruct x; cbn; split; congruence. Qed.

(** The lines the step loop keeps of a joined list of clean lines are
    those lines. *)
Lemma step_lines_join l :
  Forall clean_line l -> step_lines (join_lines l) = l.
Proof.
  intros Hall. unfold step_lines. destruct l as [|x l]; [reflexivity|].
  rewrite split_join_lines; [|discriminate|].
  - induction Hall as [|y t (Hne & Hstrip & _) _ IH]; [reflexivity|].
    cbn [map filter]. rewrite Hstrip.
    rewrite (proj2 (truthy_iff y) Hne). now rewrite IH.
  - eapply Forall_impl; [|exact Hall]. now intros y (_ & _ & Hy).
Qed.

(** Every line the step loop keeps is clean. *)
Lemma step_lines_clean text : Forall clean_line (step_lines text).
Proof.
  unfold step_lines. apply Forall_forall. intros x Hx.
  apply filter_In in Hx. destruct Hx as [Hx Ht].
  apply in_map_iff in Hx. destruct Hx as (l & <- & Hl).
  repeat split.
  - now apply truthy_iff.
  - apply strip_idem.
  - apply strip_free. now apply (split_pieces_free newline text).
Qed.

End Joining.

(* ===================================================================== *)
(** ** Every request as one write *)
(* ===================================================================== *)

Section Writes.

Variable E : env.

Lemma shift_detail_writes sid rq s sv :
  writes (file sv) (file (snd (serve E (r_shift_detail sid) rq s sv))).
Proof.
  set (d' := file (snd (serve E (r_shift_detail sid) rq s sv))).
  assert (Hd : d' = d') by reflexivity.
  unfold d' at 2 in Hd. clearbody d'. unfold serve in Hd.
  replace (accepts (r_shift_detail sid) (method rq)) with true in Hd
    by (now destruct (method rq)).
  cbn [view] in Hd.
  unfold shift_detail, login_required, current_user, bind, get_session,
    load_user, query, open_world in Hd. wsimpl.
  destruct (sess_user_id s) as [uid0|]; wsimpl; [|subst d'; constructor].
  destruct (user_by_id (file sv) uid0) as [cu|] eqn:Hu; wsimpl;
    [|subst d'; constructor].
  assert (Hcu : In cu (rows (user (file sv))))
    by (unfold user_by_id in Hu; now apply find_some in Hu).
  destruct (shift_by_id (file sv) sid) as [sh|] eqn:Hsh; wsimpl;
    [|subst d'; constructor].
  destruct (if is_post rq then assoc "action" (form rq) else None)
    as [action|]; [|rewrite Hd; constructor].
  destruct (String.eqb action "select_shift").
  { unfold execute at 1 in Hd. cbn [exec] in Hd. wsimpl.
    match type of Hd with context [insert_progress E ?u sid ?st ?w1] =>
      destruct (insert_progress_run E u sid st w1)
        as (w' & new & Hrun & (Hst & Hse & Hfl) & Hu' & Hsh' & Hss & Hn
            & Hrows & Hnew)
    end.
    rewrite Hrun in Hd. unfold commit, flash, ret in Hd. wsimpl.
    apply (w_select _ cu sh sid new); trivial; rewrite Hd; assumption. }
  destruct (PyStr.truthy action && PyStr.startswith "toggle_" action).
  { destruct (option_map (PyStr.int (int_max_str_digits E))
                       (PyStr.after_first "_" action))
      as [[st|]|]; [|rewrite Hd; constructor|rewrite Hd; constructor].
    wsimpl.
    destruct (completed_of (file sv) (user_id cu) sid st) as [c|] eqn:Hc;
      [|rewrite Hd; constructor].
    rewrite Hd. apply (w_toggle _ cu sh); trivial; [congruence|].
    destruct (c =? 0); auto. }
  destruct (String.eqb action "complete_shift").
  { rewrite Hd. now apply (w_complete _ cu sh). }
  destruct (String.eqb action "add_note"); [|rewrite Hd; constructor].
  destruct (PyStr.truthy (PyStr.strip (form_get rq "note_content" "")))
    eqn:Ht; [|rewrite Hd; constructor].
  rewrite Hd. apply (w_note _ cu sh); trivial.
  - now apply truthy_iff.
  - apply strip_idem.
Qed.

Lemma serve_writes sv s rq r :
  writes (file sv) (file (snd (serve E r rq s sv))).
Proof.
  destruct r;
    try (rewrite serve_keeps_file; [constructor | cbn; tauto]).
  - rewrite register_run.
    destruct (method rq); [constructor|].
    destruct (assoc "email" (form rq)) as [e|]; [|constructor].
    destruct (assoc "name" (form rq)) as [n|]; [|constructor].
    destruct (assoc "password" (form rq)) as [p|]; [|constructor].
    destruct (email_taken (file sv) (normalize_email e)) eqn:Ht;
      [constructor | now apply w_register].
  - apply shift_detail_writes.
  - rewrite admin_run.
    destruct (is_admin_access s), (method rq);
      try destruct (assoc "title" (form rq)); constructor.
  - rewrite edit_shift_run.
    destruct (is_admin_access s); [|constructor].
    destruct (shift_by_id (file sv) shift_id0) as [sh|] eqn:Hsh; [|constructor].
    destruct (method rq); try destruct (assoc "title" (form rq));
      try constructor.
    now apply (w_edit _ sh).
  - rewrite delete_shift_run.
    destruct (method rq), (is_admin_access s); constructor.
Qed.

End Writes.

(* ===================================================================== *)
(** ** What every write keeps *)
(* ===================================================================== *)

Section Kept.

Lemma add_steps_autoinc sid lines : forall pos t,
  autoinc t <= autoinc (add_steps sid pos lines t).
Proof.
  induction lines as [|l rest IH]; intros pos t; [cbn; lia|].
  cbn [add_steps]. destruct (PyStr.truthy (PyStr.strip l)); [|apply IH].
  etransitivity; [|apply IH]. cbn [insert_row autoinc]. unfold next_rowid. lia.
Qed.

Lemma add_steps_clean sid lines : forall pos t r,
  In r (rows (add_steps sid pos lines t)) ->
  In r (rows t)
  \/ (step_shift_id r = sid
      /\ In (step_description r)
            (filter PyStr.truthy (map PyStr.strip lines))).
Proof.
  induction lines as [|l rest IH]; intros pos t r Hr; [now left|].
  cbn [add_steps] in Hr. cbn [map filter].
  destruct (PyStr.truthy (PyStr.strip l)) eqn:Hl.
  - apply IH in Hr. destruct Hr as [Hr | [Hs Hd]].
    + cbn [insert_row rows] in Hr. apply in_app_or in Hr.
      destruct Hr as [Hr | [<- | []]]; [now left|].
      right. split; [reflexivity | now left].
    + right. split; [exact Hs | now right].
  - apply IH in Hr. tauto.
Qed.

Lemma add_steps_other sid sid' lines pos t :
  sid' <> sid ->
  filter (fun r => step_shift_id r =? sid') (rows (add_steps sid pos lines t))
  = filter (fun r => step_shift_id r =? sid') (rows t).
Proof.
  intros Hne. destruct (add_steps_appends sid lines pos t) as (new & -> & Hnew).
  rewrite filter_app, (filter_none _ new); [apply app_nil_r|].
  intros r Hr. rewrite Forall_forall in Hnew. rewrite (Hnew r Hr).
  apply Z.eqb_neq. congruence.
Qed.

Lemma numbered_length l : forall pos, List.length (numbered pos l) = List.length l.
Proof.
  induction l as [|x t IH]; intros pos; [reflexivity|].
  cbn [numbered List.length]. now rewrite IH.
Qed.

Lemma numbered_runs l :
  map fst (numbered 1 l)
  = map Z.of_nat (List.seq 1 (List.length (numbered 1 l))).
Proof. rewrite numbered_length. apply (numbered_fst l 1%nat). Qed.

Lemma writes_users_grow d d' :
  writes d d' ->
  exists new, rows (user d') = rows (user d) ++ new
              /\ Forall (fun u => user_is_admin u = 0) new
              /\ (List.length new <= 1)%nat.
Proof.
  assert (Hsame : rows (user d) = rows (user d) ++ []
                  /\ Forall (fun u => user_is_admin u = 0) []
                  /\ (List.length (@nil user_row) <= 1)%nat)
    by (rewrite app_nil_r; repeat constructor).
  destruct 1; try (exists []; exact Hsame).
  - eexists [_]. cbn [with_user user insert_row rows]. split; [reflexivity|].
    split; [repeat constructor | cbn; lia].
  - exists []. now rewrite H1.
Qed.

Lemma writes_one_admin d d' : one_admin_row d -> writes d d' -> one_admin_row d'.
Proof.
  intros Hone Hw u Hu Hadm.
  destruct (writes_users_grow d d' Hw) as (new & Hrows & Hnew & _).
  rewrite Hrows in Hu. apply in_app_or in Hu. destruct Hu as [Hu | Hu].
  - now apply Hone.
  - rewrite Forall_forall in Hnew. specialize (Hnew u Hu). lia.
Qed.

Lemma writes_texts d d' : texts_clean d -> writes d d' -> texts_clean d'.
Proof.
  intros [Hsteps Hnotes] Hw. destruct Hw; unfold texts_clean;
    cbn [with_user with_progress with_note shift_step note].
  - now split.
  - now split.
  - rewrite H3, H4. now split.
  - now split.
  - now split.
  - split; [exact Hsteps|]. intros n Hn. cbn [insert_row rows] in Hn.
    apply in_app_or in Hn. destruct Hn as [Hn | [<- | []]]; [now apply Hnotes|].
    now split.
  - unfold created. cbn [with_shift_step with_shift shift_step note].
    split; [|exact Hnotes]. intros st Hst. apply add_steps_clean in Hst.
    destruct Hst as [Hst | [_ Hst]]; [now apply Hsteps|].
    pose proof (step_lines_clean text) as Hclean.
    rewrite Forall_forall in Hclean. now apply Hclean.
  - unfold edited. cbn [with_shift_step with_shift shift_step note].
    split; [|exact Hnotes]. intros st Hst. apply add_steps_clean in Hst.
    destruct Hst as [Hst | [_ Hst]].
    + cbn [delete_where rows] in Hst. apply filter_In in Hst.
      apply Hsteps. tauto.
    + pose proof (step_lines_clean text) as Hclean.
      rewrite Forall_forall in Hclean. now apply Hclean.
  - unfold deleted. cbn [shift_step note delete_where rows].
    split; intros x Hx; apply filter_In in Hx; [apply Hsteps | apply Hnotes];
      tauto.
Qed.

Lemma Forall2_In_left {A B} (R : A -> B -> Prop) l1 l2 x :
  Forall2 R l1 l2 -> In x l1 -> exists y, In y l2 /\ R x y.
Proof.
  induction 1 as [|a b l1 l2 Hab _ IH]; [intros []|].
  intros [<- | Hx].
  - exists b. split; [now left | exact Hab].
  - destruct (IH Hx) as (y & Hy & Hxy). exists y. split; [now right | exact Hxy].
Qed.

Lemma steps_of_In d sid st :
  In st (steps_of d sid) ->
  In st (rows (shift_step d)) /\ step_shift_id st = sid.
Proof.
  unfold steps_of. intros H.
  apply (Permutation_in _ (sort_by_perm _ _)) in H.
  apply filter_In in H. now rewrite Z.eqb_eq in H.
Qed.

Lemma writes_references d d' :
  store_ok d -> references_issued d -> writes d d' -> references_issued d'.
Proof.
  intros Hok [Hprog Hnote] Hw.
  destruct Hok as [_ _ _ Hstepseq Hshiftseq _ _ _].
  destruct Hw; unfold references_issued;
    cbn [with_user with_progress with_note shift shift_step progress note].
  - now split.
  - now split.
  - rewrite H2, H3, H4. split; [|exact Hnote]. intros p Hp.
    rewrite H5 in Hp. apply in_app_or in Hp. destruct Hp as [Hp | Hp].
    + apply filter_In in Hp. apply Hprog. tauto.
    + apply shift_by_id_In in H0. destruct H0 as [Hin Hid].
      pose proof (Hshiftseq sh Hin) as Hle.
      destruct (Forall2_In_left _ _ _ _ H6 Hp) as (st & Hst & _ & Hs & Hstep & _).
      apply steps_of_In in Hst. destruct Hst as [Hst _].
      pose proof (Hstepseq st Hst). split; lia.
  - split; [|exact Hnote]. intros p Hp. cbn [update_where rows] in Hp.
    apply in_map_iff in Hp. destruct Hp as (q & Hq & Hin).
    specialize (Hprog q Hin).
    destruct (progress_at (user_id cu) sid st q); subst p; exact Hprog.
  - split; [|exact Hnote]. intros p Hp. cbn [delete_where rows] in Hp.
    apply filter_In in Hp. apply Hprog. tauto.
  - split; [exact Hprog|]. intros n Hn. cbn [insert_row rows] in Hn.
    apply in_app_or in Hn. destruct Hn as [Hn | [<- | []]]; [now apply Hnote|].
    cbn [note_shift_id]. apply shift_by_id_In in H0. destruct H0 as [Hin Hid].
    rewrite <- Hid. now apply Hshiftseq.
  - unfold created. cbn [with_shift_step with_shift shift shift_step progress
                         note insert_row autoinc].
    pose proof (add_steps_autoinc (next_rowid shift_id (shift d)) 
                  (PyStr.split newline text) 1 (shift_step d)) as Hmono.
    unfold next_rowid at 1 3.
    split; [intros p Hp; specialize (Hprog p Hp)
           | intros n Hn; specialize (Hnote n Hn)]; lia.
  - unfold edited. cbn [with_shift_step with_shift shift shift_step progress
                        note update_where autoinc].
    pose proof (add_steps_autoinc sid (PyStr.split newline text) 1
                  (delete_where (fun r => step_shift_id r =? sid)
                     (shift_step d))) as Hmono.
    cbn [delete_where autoinc] in Hmono.
    split; [intros p Hp; specialize (Hprog p Hp); lia | exact Hnote].
  - unfold deleted. cbn [shift shift_step progress note delete_where rows
                         autoinc].
    split; intros x Hx; apply filter_In in Hx; [apply Hprog | apply Hnote];
      tauto.
Qed.

Lemma writes_positions d d' :
  store_ok d -> positions_run d -> writes d d' -> positions_run d'.
Proof.
  intros Hok Hpos Hw.
  destruct Hok as [_ _ _ _ _ Hrefs _ _].
  destruct Hw; unfold positions_run, steps_listing in *;
    cbn [with_user with_progress with_note shift_step]; trivial.
  - now rewrite H3.
  - intros sid'. unfold created. cbn [with_shift_step shift_step].
    destruct (Z.eq_dec sid' (next_rowid shift_id (shift d))) as [-> | Hne].
    + rewrite add_steps_listing.
      rewrite (filter_none _ (rows (shift_step d))).
      * cbn [map app]. apply numbered_runs.
      * intros st Hst. apply Z.eqb_neq. specialize (Hrefs st Hst).
        unfold next_rowid. lia.
    + rewrite add_steps_other by exact Hne. apply Hpos.
  - intros sid'. unfold edited. cbn [with_shift_step shift_step].
    destruct (Z.eq_dec sid' sid) as [-> | Hne].
    + rewrite add_steps_listing. cbn [delete_where rows].
      rewrite filter_negb_filter. cbn [map app]. apply numbered_runs.
    + rewrite add_steps_other by exact Hne. cbn [delete_where rows].
      rewrite filter_filter_implied; [apply Hpos|].
      intros st Hst. apply Z.eqb_eq in Hst.
      apply negb_true_iff, Z.eqb_neq. congruence.
  - intros sid'. unfold deleted. cbn [shift_step delete_where rows].
    destruct (Z.eq_dec sid' sid) as [-> | Hne].
    + rewrite filter_negb_filter. reflexivity.
    + rewrite filter_filter_implied; [apply Hpos|].
      intros st Hst. apply Z.eqb_eq in Hst.
      apply negb_true_iff, Z.eqb_neq. congruence.
Qed.

End Kept.

(* ===================================================================== *)
(** ** What holds of every reachable server *)
(* ===================================================================== *)

Section Reachable.

Variable E : env.

Lemma reachable_kept sv :
  reachable E sv ->
  references_issued (file sv) /\ texts_clean (file sv)
  /\ positions_run (file sv) /\ one_admin_row (file sv).
Proof.
  induction 1 as [|sv r rq s Hreach (Hrefs & Htexts & Hpos & Hadm)].
  - split; [|split; [|split]].
    + split; intros ? [].
    + split; intros ? [].
    + intros sid. reflexivity.
    + intros u [<- | []] _. reflexivity.
  - pose proof (reachable_store_ok E sv Hreach) as Hok.
    pose proof (serve_writes E sv s rq r) as Hw.
    split; [|split; [|split]].
    + exact (writes_references _ _ Hok Hrefs Hw).
    + exact (writes_texts _ _ Htexts Hw).
    + exact (writes_positions _ _ Hok Hpos Hw).
    + exact (writes_one_admin _ _ Hadm Hw).
Qed.

Lemma reachable_bootstrap sv :
  reachable E sv ->
  In (mk_user 1 "admin@example.com" "Admin"
        (generate_password_hash E 0 None "admin123") 1)
     (rows (user (file sv))).
Proof.
  induction 1 as [|sv r rq s _ IH]; [now left|].
  destruct (writes_users_grow _ _ (serve_writes E sv s rq r))
    as (new & Hrows & _).
  rewrite Hrows. apply in_or_app. now left.
Qed.

(** X16. Whatever the route, the request and the cookie, one request
    leaves the file as it was or makes exactly one of eight changes: a
    new user, a shift selected, a step toggled, a shift completed, a note
    added, a shift created, edited or deleted; and the changes of the
    shift page happen only for a user row and a shift row the file
    holds. *)
Theorem every_request_is_one_write :
  forall (sv : server) (s : session) (rq : request) (r : route),
    writes (file sv) (file (snd (serve E r rq s sv))).
Proof. intros sv s rq r. apply serve_writes. Qed.

(** X17. Accounts.  On every reachable server the emails are stored
    normalized and no two rows share one, the bootstrap account is
    there and is the only row with [is_admin = 1]; and a request never
    changes or removes a user row: it appends at most one. *)
Theorem accounts_only_grow :
  forall sv : server,
    reachable E sv ->
    emails_unique (file sv) /\ emails_normalized (file sv)
    /\ one_admin_row (file sv)
    /\ (exists u, In u (rows (user (file sv)))
                  /\ user_email u = "admin@example.com"
                  /\ user_is_admin u = 1)
    /\ forall r rq s,
         exists new,
           rows (user (file (snd (serve E r rq s sv))))
           = rows (user (file sv)) ++ new
           /\ (List.length new <= 1)%nat.
Proof.
  intros sv Hreach.
  pose proof (reachable_store_ok E sv Hreach) as Hok.
  destruct (reachable_kept sv Hreach) as (_ & _ & _ & Hadm).
  split; [exact (ok_unique _ Hok)|]. split; [exact (ok_emails _ Hok)|].
  split; [exact Hadm|]. split.
  - eexists. split; [exact (reachable_bootstrap sv Hreach)|]. now split.
  - intros r rq s.
    destruct (writes_users_grow _ _ (serve_writes E sv s rq r))
      as (new & Hrows & _ & Hlen).
    now exists new.
Qed.

(** X18. Progress.  On every reachable server there is at most one
    progress row per (user, shift, step), every flag is 0 or 1, and
    every row refers to a shift id and a step id that were handed
    out. *)
Theorem progress_rows_are_consistent :
  forall sv : server,
    reachable E sv ->
    one_row_per_step (file sv) /\ flags_are_bits (file sv)
    /\ forall p, In p (rows (progress (file sv))) ->
                 progress_shift_id p <= autoinc (shift (file sv))
                 /\ progress_step_id p <= autoinc (shift_step (file sv)).
Proof.
  intros sv Hreach.
  pose proof (reachable_store_ok E sv Hreach) as Hok.
  destruct (reachable_kept sv Hreach) as ((Hprog & _) & _).
  split; [exact (ok_one_row _ Hok)|]. split; [exact (ok_bits _ Hok)|].
  exact Hprog.
Qed.

(** X19. Steps and notes.  On every reachable server step ids are
    unique, the steps of each shift sit at positions 1..K in table
    order, every step description is one non-empty trimmed line, and
    every note is non-empty, trimmed and refers to a shift id that was
    handed out. *)
Theorem steps_and_notes_are_clean :
  forall sv : server,
    reachable E sv ->
    NoDup (map step_id (rows (shift_step (file sv))))
    /\ positions_run (file sv)
    /\ (forall st, In st (rows (shift_step (file sv))) ->
                   clean_line (step_description st)
                   /\ step_shift_id st <= autoinc (shift (file sv)))
    /\ (forall n, In n (rows (note (file sv))) ->
                  note_content n <> ""
                  /\ PyStr.strip (note_content n) = note_content n
                  /\ note_shift_id n <= autoinc (shift (file sv))).
Proof.
  intros sv Hreach.
  pose proof (reachable_store_ok E sv Hreach) as Hok.
  destruct (reachable_kept sv Hreach)
    as ((_ & Hnref) & (Hsteps & Hnotes) & Hpos & _).
  split; [exact (ok_step_ids _ Hok)|]. split; [exact Hpos|]. split.
  - intros st Hst. split; [now apply Hsteps | now apply (ok_step_refs _ Hok)].
  - intros n Hn. destruct (Hnotes n Hn). repeat split; trivial.
    now apply Hnref.
Qed.

(** X20. A new shift starts empty.  On a reachable server the id a
    create hands out is the id of no shift row, and afterwards no
    progress row and no note refers to it and its steps are exactly the
    submitted lines: ids of deleted shifts are not used again. *)
Theorem new_shift_starts_empty :
  forall (sv : server) (s : session) (rq : request) (title : string),
    reachable E sv ->
    is_admin_access s = true ->
    method rq = POST ->
    assoc "title" (form rq) = Some title ->
    let sid := next_rowid shift_id (shift (file sv)) in
    let after := file (snd (serve E r_admin rq s sv)) in
    (forall sh, In sh (rows (shift (file sv))) -> shift_id sh <> sid)
    /\ shift_by_id after sid
       = Some (mk_shift sid title (form_get rq "description" "") 1)
    /\ (forall p, In p (rows (progress after)) -> progress_shift_id p <> sid)
    /\ (forall n, In n (rows (note after)) -> note_shift_id n <> sid)
    /\ steps_listing after sid
       = numbered 1 (step_lines (form_get rq "steps" "")).
Proof.
  intros sv s rq title Hreach Hflag Hm Ht sid after.
  pose proof (reachable_store_ok E sv Hreach) as Hok.
  destruct (reachable_kept sv Hreach) as ((Hprog & Hnote) & _).
  assert (Hnew : forall sh, In sh (rows (shift (file sv))) -> shift_id sh <> sid).
  { intros sh Hsh. pose proof (ok_shift_seq _ Hok sh Hsh).
    subst sid. unfold next_rowid. lia. }
  subst after. rewrite admin_run, Hflag, Hm, Ht. cbn [snd file].
  unfold created.
  cbn [with_shift_step with_shift shift shift_step progress note].
  fold sid. repeat split.
  - exact Hnew.
  - unfold shift_by_id.
    cbn [shift with_shift_step with_shift insert_row rows]. fold sid.
    rewrite find_app_new; [reflexivity | | apply Z.eqb_refl].
    destruct (find _ (rows (shift (file sv)))) as [sh|] eqn:Hf; [|reflexivity].
    apply find_some in Hf. destruct Hf as [Hin Hid].
    apply Z.eqb_eq in Hid. now apply Hnew in Hin.
  - intros p Hp. destruct (Hprog p Hp). subst sid. unfold next_rowid. lia.
  - intros n Hn. pose proof (Hnote n Hn). subst sid. unfold next_rowid. lia.
  - unfold steps_listing. cbn [with_shift_step shift_step].
    rewrite add_steps_listing, (filter_none _ (rows (shift_step (file sv)))).
    + reflexivity.
    + intros st Hst. apply Z.eqb_neq.
      pose proof (ok_step_refs _ Hok st Hst). subst sid. unfold next_rowid. lia.
Qed.

(** X21. An edit orphans progress.  On a reachable server an edit
    leaves the progress table as it is while every step of the shift
    gets a new id, so afterwards no progress row belongs to any step of
    the shift: for every user and every step of the shift the lookup a
    toggle makes finds nothing. *)
Theorem edit_orphans_progress :
  forall (sv : server) (s : session) (rq : request) (title : string)
         (sid : Z) (sh : shift_row),
    reachable E sv ->
    is_admin_access s = true ->
    method rq = POST ->
    assoc "title" (form rq) = Some title ->
    shift_by_id (file sv) sid = Some sh ->
    let after := file (snd (serve E (r_edit_shift sid) rq s sv)) in
    progress after = progress (file sv)
    /\ forall st,
         In st (rows (shift_step after)) -> step_shift_id st = sid ->
         (forall p, In p (rows (progress after)) ->
                    progress_step_id p <> step_id st)
         /\ forall u, completed_of after u sid (step_id st) = None.
Proof.
  intros sv s rq title sid sh Hreach Hflag Hm Ht Hsh after.
  destruct (reachable_kept sv Hreach) as ((Hprog & _) & _).
  subst after. rewrite edit_shift_run, Hflag, Hsh, Hm, Ht. cbn [snd file].
  unfold edited. cbn [with_shift_step with_shift progress shift_step].
  split; [reflexivity|]. intros st Hst Hsid.
  assert (Hfresh : forall p, In p (rows (progress (file sv))) ->
                             progress_step_id p <> step_id st).
  { intros p Hp. destruct (Hprog p Hp) as [_ Hle].
    apply add_steps_fresh in Hst. cbn [delete_where rows autoinc] in Hst.
    destruct Hst as [Hst | Hst]; [|lia].
    apply filter_In in Hst. destruct Hst as [_ Hst].
    rewrite Hsid, Z.eqb_refl in Hst. discriminate. }
  split; [exact Hfresh|]. intros u. unfold completed_of.
  cbn [progress with_shift_step with_shift].
  destruct (find (progress_at u sid (step_id st)) (rows (progress (file sv))))
    as [p|] eqn:Hf; [|reflexivity].
  apply find_some in Hf. destruct Hf as [Hin Hat].
  apply progress_at_key in Hat. unfold progress_key in Hat.
  injection Hat as _ _ Hstep. now apply Hfresh in Hin.
Qed.

End Reachable.

(* ===================================================================== *)
(** ** Saving the edit form as it was shown *)
(* ===================================================================== *)

Section EditForm.

Variable E : env.

Lemma sort_numbered l : forall descs pos,
  map (fun r => (step_position r, step_description r)) l = numbered pos descs ->
  sort_by (fun a b => step_position a <=? step_position b) l = l.
Proof.
  induction l as [|r l IH]; intros descs pos H; [reflexivity|].
  destruct descs as [|x descs]; [discriminate|].
  cbn [map numbered] in H. injection H as Hpos _ Hrest.
  unfold sort_by in *. cbn [fold_right]. rewrite (IH descs (pos + 1) Hrest).
  destruct l as [|r' l']; [reflexivity|].
  destruct descs as [|y descs']; [discriminate|].
  cbn [map numbered] in Hrest. injection Hrest as Hpos' _ _.
  cbn [insert_by].
  replace (step_position r <=? step_position r') with true; [reflexivity|].
  symmetry. apply Z.leb_le. lia.
Qed.

(** X22. On a reachable server the edit page shows the step
    descriptions of the shift joined by newlines, and saving that text
    back gives the shift the same descriptions in the same order, at
    positions 1..K (under new step ids). *)
Theorem edit_form_round_trip :
  forall (sv : server) (s : session) (rq : request) (title : string)
         (sid : Z) (sh : shift_row),
    reachable E sv ->
    is_admin_access s = true ->
    shift_by_id (file sv) sid = Some sh ->
    let descs := map step_description (steps_of (file sv) sid) in
    let text := join_lines descs in
    answer (fst (serve E (r_edit_shift sid) (mk_request GET []) s sv))
      = Render (admin_edit_shift_html sh text)
    /\ (method rq = POST ->
        assoc "title" (form rq) = Some title ->
        assoc "steps" (form rq) = Some text ->
        let after := file (snd (serve E (r_edit_shift sid) rq s sv)) in
        steps_listing after sid = numbered 1 descs
        /\ map step_description (steps_of after sid) = descs).
Proof.
  intros sv s rq title sid sh Hreach Hflag Hsh descs text.
  destruct (reachable_kept E sv Hreach) as (_ & (Hsteps & _) & _).
  split.
  - now rewrite edit_shift_run, Hflag, Hsh.
  - intros Hm Ht Htext after.
    assert (Hclean : Forall clean_line descs).
    { apply Forall_forall. intros x Hx. apply in_map_iff in Hx.
      destruct Hx as (st & <- & Hst). apply steps_of_In in Hst.
      now apply Hsteps. }
    assert (Hlisting : steps_listing after sid = numbered 1 descs).
    { subst after. rewrite edit_shift_run, Hflag, Hsh, Hm, Ht. cbn [snd file].
      unfold steps_listing, edited. cbn [shift_step with_shift_step].
      rewrite add_steps_listing. cbn [delete_where rows].
      rewrite filter_negb_filter. cbn [map app].
      unfold form_get. rewrite Htext.
      change (filter PyStr.truthy
                (map PyStr.strip (PyStr.split newline text)))
        with (step_lines text).
      unfold text. now rewrite step_lines_join. }
    split; [exact Hlisting|].
    unfold steps_of. unfold steps_listing in Hlisting.
    rewrite (sort_numbered _ descs 1 Hlisting).
    replace (map step_description
               (filter (fun r => step_shift_id r =? sid)
                       (rows (shift_step after))))
      with (map snd (map (fun r => (step_position r, step_description r))
                         (filter (fun r => step_shift_id r =? sid)
                                 (rows (shift_step after)))))
      by (now rewrite map_map).
    rewrite Hlisting. apply numbered_snd.
Qed.

End EditForm.

(* ===================================================================== *)
(** ** Sessions and commits *)
(* ===================================================================== *)

Section Commits.

Variable E : env.

(** X23. Who is logged in and whether the admin flag is set change only
    at login, at logout and at the gate: every other route sends back
    the session's [_user_id] and [is_admin_access] as it got them (what
    the handlers flash, which Flask also puts into the session, is in
    [messages]). *)
Theorem other_routes_keep_user_and_flag :
  forall (sv : server) (s : session) (rq : request) (r : route),
    r <> r_login -> r <> r_logout -> r <> r_admin_access ->
    let c := cookie (fst (serve E r rq s sv)) in
    sess_user_id c = sess_user_id s
    /\ is_admin_access c = is_admin_access s.
Proof.
  intros sv s rq r H1 H2 H3 c.
  enough (Hc : c = s) by (now rewrite Hc).
  subst c. unfold serve.
  destruct (accepts r (method rq)); [|reflexivity].
  assert (H : respects (unchanged sess) (view E r rq)).
  { assert (Hexec : forall st, respects (unchanged sess) (execute st))
      by (intros st; frame_prim).
    assert (Htick : respects (unchanged sess) tick) by frame_prim.
    pose proof (fun u i l => insert_progress_keeps E sess u i l Hexec Htick)
      as Hprog.
    pose proof (fun i l => insert_steps_keeps sess i l Hexec) as Hsteps.
    destruct r; cbn [view]; try congruence;
      unfold index, register, dashboard, shifts, shift_detail,
        shift_detail_page, admin, edit_shift, delete_shift, admin_gate,
        login_required, current_user;
      frame. }
  specialize (H (open_world sv s)). unfold unchanged in H.
  destruct (view E r rq (open_world sv s)) as [res w]. exact H.
Qed.

Lemma insert_progress_conn uid sid steps w :
  exists w', insert_progress E uid sid steps w = (inr tt, w').
Proof.
  destruct (insert_progress_run E uid sid steps w) as (w' & new & H & _).
  now exists w'.
Qed.

(** X24. No handler ends with a write it has not committed: when the
    view returns or raises, the connection holds exactly what the file
    holds, so closing the connection at teardown drops nothing. *)
Theorem nothing_is_left_uncommitted :
  forall (sv : server) (s : session) (rq : request) (r : route),
    let w := snd (view E r rq (open_world sv s)) in
    conn w = stored w.
Proof.
  intros sv s rq r w. subst w.
  assert (Hread : forall (m : M response),
            respects (unchanged conn) m -> respects (unchanged stored) m ->
            conn (snd (m (open_world sv s)))
            = stored (snd (m (open_world sv s)))).
  { intros m Hc Hs. rewrite (Hc (open_world sv s)), (Hs (open_world sv s)).
    reflexivity. }
  assert (Hin : forall f : world -> DB,
            (f = conn \/ f = stored) ->
            (forall u, respects (unchanged f) (login_user u))
            /\ respects (unchanged f) logout_user).
  { intros f [-> | ->]; (split; [intros u|]); frame_prim. }
  destruct r; cbn [view].
  - apply Hread; destruct (Hin conn (or_introl eq_refl)) as [Hi Ho];
      try destruct (Hin stored (or_intror eq_refl)) as [Hi' Ho'];
      unfold index, current_user; frame.
  - (* register *)
    unfold register, is_post, form_item.
    destruct (method rq); [reflexivity|].
    destruct (assoc "email" (form rq)); [|reflexivity].
    destruct (assoc "name" (form rq)); [|reflexivity].
    destruct (assoc "password" (form rq)); [|reflexivity].
    unfold try_except, bind, ret, tick, execute, open_world. cbn [exec].
    wsimpl. destruct (email_taken _ _); reflexivity.
  - apply Hread; destruct (Hin conn (or_introl eq_refl)) as [Hi Ho];
      try destruct (Hin stored (or_intror eq_refl)) as [Hi' Ho'];
      unfold login; frame.
  - apply Hread; unfold dashboard, login_required, current_user; frame.
  - apply Hread; destruct (Hin conn (or_introl eq_refl)) as [Hi Ho];
      try destruct (Hin stored (or_intror eq_refl)) as [Hi' Ho'];
      unfold logout, login_required, current_user; frame.
  - apply Hread; unfold shifts, login_required, current_user; frame.
  - (* shift_detail *)
    unfold shift_detail, login_required, current_user, bind, get_session,
      load_user, query, open_world. wsimpl.
    destruct (sess_user_id s); wsimpl; [|reflexivity].
    destruct (user_by_id (file sv) _); wsimpl; [|reflexivity].
    destruct (shift_by_id (file sv) _); wsimpl; [|reflexivity].
    destruct (if is_post rq then assoc "action" (form rq) else None);
      [|reflexivity].
    destruct (String.eqb _ "select_shift").
    { unfold execute. cbn [exec]. wsimpl.
      match goal with |- context [insert_progress E ?u ?i ?st ?w1] =>
        destruct (insert_progress_conn u i st w1) as (w' & Hrun)
      end.
      rewrite Hrun. reflexivity. }
    destruct (PyStr.truthy _ && PyStr.startswith "toggle_" _).
    { destruct (option_map (PyStr.int _) _) as [[st|]|]; try reflexivity.
      wsimpl. destruct (completed_of (file sv) _ _ st); reflexivity. }
    destruct (String.eqb _ "complete_shift"); [reflexivity|].
    destruct (String.eqb _ "add_note"); [|reflexivity].
    destruct (PyStr.truthy _); reflexivity.
  - (* admin *)
    unfold admin, admin_gate, bind, get_session, open_world. wsimpl.
    destruct (is_admin_access s); [|reflexivity].
    unfold is_post. destruct (method rq); [reflexivity|].
    unfold form_item. destruct (assoc "title" (form rq)); [|reflexivity].
    unfold ret, execute. cbn [exec]. wsimpl.
    unfold get_lastrowid. wsimpl.
    match goal with |- context [insert_steps ?i 1 ?l ?w1] =>
      destruct (insert_steps_run i l 1 w1) as [lr Hrun]
    end.
    rewrite Hrun. reflexivity.
  - (* edit_shift *)
    unfold edit_shift, admin_gate, bind, get_session, query, open_world.
    wsimpl. destruct (is_admin_access s); [|reflexivity]. wsimpl.
    destruct (shift_by_id (file sv) _); [|reflexivity].
    unfold is_post. destruct (method rq); [reflexivity|].
    unfold form_item. destruct (assoc "title" (form rq)); [|reflexivity].
    unfold ret, execute. cbn [exec]. wsimpl.
    match goal with |- context [insert_steps ?i 1 ?l ?w1] =>
      destruct (insert_steps_run i l 1 w1) as [lr Hrun]
    end.
    rewrite Hrun. reflexivity.
  - (* delete_shift *)
    unfold delete_shift, admin_gate, bind, get_session, open_world. wsimpl.
    destruct (is_admin_access s); reflexivity.
  - apply Hread; unfold admin_access; frame.
Qed.

End Commits.

(* ===================================================================== *)
(** ** The further theorems at work *)
(* ===================================================================== *)

Lemma demo_reached_reachable : reachable demo_env demo_reached.
Proof. exact (reach_serve _ _ _ _ _ (reach_start demo_env)). Qed.

Lemma demo_toggled_reachable : reachable demo_env demo_toggled.
Proof.
  exact (reach_serve _ _ _ _ _
           (reach_serve _ _ _ _ _
              (reach_serve _ _ _ _ _ demo_reached_reachable))).
Qed.

Lemma protected_routes_need_login_witness :
  current_user_of demo_file anonymous = None
  /\ serve demo_env r_dashboard (mk_request GET []) anonymous demo_server
     = (mk_reply (Redirect ep_login) please_log_in anonymous, demo_server).
Proof.
  split; [reflexivity|].
  exact (protected_routes_need_login demo_env demo_server anonymous
           (mk_request GET []) r_dashboard (or_introl eq_refl) eq_refl eq_refl).
Defined.

Lemma get_never_writes_witness :
  snd (serve demo_env (r_shift_detail 1)
         (mk_request GET [("action", "select_shift")]) bob demo_server)
  = demo_server.
Proof.
  exact (get_never_writes demo_env demo_server bob
           (mk_request GET [("action", "select_shift")]) (r_shift_detail 1)
           eq_refl).
Defined.

Lemma admin_flag_outlives_logout_witness :
  current_user_of demo_file bob_admin = Some bob_row
  /\ serve demo_env r_logout (mk_request GET []) bob_admin demo_server
     = (mk_reply (Redirect ep_index) [("Odhlášeno", "info")]
                 (mk_session None true), demo_server).
Proof.
  split; [reflexivity|].
  exact (proj2 (admin_flag_outlives_logout demo_env demo_server bob_admin
                  (mk_request GET []) eq_refl) bob_row eq_refl eq_refl).
Defined.

Lemma add_note_stores_and_lists_witness :
  current_user_of demo_file bob = Some bob_row
  /\ rows (note (file (snd (serve demo_env (r_shift_detail 1)
                             (post [("action", "add_note");
                                    ("note_content", "  door sticks ")])
                             bob demo_server))))
     = rows (note demo_file)
       ++ [mk_note 2 1 2 "door sticks" "2024-01-01T00:00:01"].
Proof.
  split; [reflexivity|].
  refine (proj1 (proj1 (add_note_stores_and_lists demo_env demo_server bob
            (post [("action", "add_note"); ("note_content", "  door sticks ")])
            1 bob_row opening eq_refl eq_refl eq_refl eq_refl) _)).
  discriminate.
Defined.

Lemma toggle_flips_one_step_witness :
  completed_of demo_file 2 1 1 = Some 1
  /\ completed_of
       (file (snd (serve demo_env (r_shift_detail 1)
                     (post [("action", "toggle_1")]) bob demo_server)))
       2 1 1
     = Some 0.
Proof.
  split; [reflexivity|].
  exact (proj1 (toggle_flips_one_step demo_env demo_server bob
                  (post [("action", "toggle_1")]) 1 1 1 bob_row opening "1"
                  eq_refl eq_refl eq_refl eq_refl eq_refl eq_refl)).
Defined.

Lemma odd_actions_write_nothing_witness :
  (PyStr.int (int_max_str_digits demo_env) "abc" = None
   /\ serve demo_env (r_shift_detail 1) (post [("action", "toggle_abc")])
            bob demo_server
      = (mk_reply (Abort 500) [] bob, demo_server))
  /\ (PyStr.int (int_max_str_digits demo_env) (String "028"%char "1") = None
      /\ serve demo_env (r_shift_detail 1)
               (post [("action", String.append "toggle_"
                                   (String "028"%char "1"))])
               bob demo_server
         = (mk_reply (Abort 500) [] bob, demo_server)).
Proof.
  split; (split; [reflexivity|]).
  - exact (proj1 (odd_actions_write_nothing demo_env demo_server bob
                    (post [("action", "toggle_abc")]) 1 bob_row opening
                    eq_refl eq_refl eq_refl) "abc" eq_refl eq_refl).
  - exact (proj1 (odd_actions_write_nothing demo_env demo_server bob
                    (post [("action", String.append "toggle_"
                                        (String "028"%char "1"))])
                    1 bob_row opening eq_refl eq_refl eq_refl)
                 (String "028"%char "1") eq_refl eq_refl).
Defined.

Lemma unknown_shift_is_reported_witness :
  sqlite_int 99
  /\ shift_by_id demo_file 99 = None
  /\ serve demo_env (r_shift_detail 99) (post [("action", "select_shift")])
           bob demo_server
     = (mk_reply (Redirect ep_shifts) [("Směna nenalezena", "danger")] bob,
        demo_server).
Proof.
  assert (Hint : sqlite_int 99) by (split; [discriminate | reflexivity]).
  split; [exact Hint|]. split; [reflexivity|].
  exact (proj1 (unknown_shift_is_reported demo_env demo_server bob
                  (post [("action", "select_shift")]) 99 Hint eq_refl)
               bob_row eq_refl).
Defined.

Lemma missing_field_is_a_400_witness :
  assoc "name" (form (post [("email", "a@b.cz"); ("password", "pw")])) = None
  /\ serve demo_env r_register
           (post [("email", "a@b.cz"); ("password", "pw")]) anonymous
           demo_server
     = (mk_reply (Abort 400) [] anonymous, demo_server).
Proof.
  split; [reflexivity|].
  exact (proj1 (missing_field_is_a_400 demo_env demo_server anonymous
                  (post [("email", "a@b.cz"); ("password", "pw")]) eq_refl)
               (or_intror (or_introl eq_refl))).
Defined.

Lemma create_and_edit_frame_witness :
  is_admin_access anonymous_admin = true
  /\ progress (file (snd (serve demo_env (r_edit_shift 1) demo_shift_form
                            anonymous_admin demo_server)))
     = progress demo_file.
Proof.
  split; [reflexivity|].
  pose proof (proj2 (create_and_edit_frame demo_env demo_server
                       anonymous_admin demo_shift_form "Closing"
                       eq_refl eq_refl eq_refl) 1 opening eq_refl) as H.
  exact (proj1 (proj2 (proj2 (proj2 H)))).
Defined.

Lemma delete_shift_again_witness :
  is_admin_access anonymous_admin = true
  /\ serve demo_env (r_delete_shift 1) (post []) anonymous_admin
       (snd (serve demo_env (r_delete_shift 1) (post []) anonymous_admin
               demo_server))
     = serve demo_env (r_delete_shift 1) (post []) anonymous_admin demo_server.
Proof.
  split; [reflexivity|].
  exact (proj1 (delete_shift_again demo_env demo_server anonymous_admin
                  (post []) 1 eq_refl eq_refl)).
Defined.

Lemma dashboard_finds_unfinished_steps_witness :
  flags_are_bits demo_file
  /\ (in_progress demo_file 2 opening = true
      <-> exists p, In p (rows (progress demo_file))
                    /\ progress_user_id p = 2
                    /\ progress_shift_id p = shift_id opening
                    /\ progress_completed p = 0).
Proof.
  assert (Hbits : flags_are_bits demo_file).
  { unfold flags_are_bits. cbn.
    repeat first [apply Forall_nil
                 | apply Forall_cons; [first [now left | now right]|]]. }
  split; [exact Hbits|].
  exact (proj1 (dashboard_finds_unfinished_steps demo_file 2 Hbits) opening).
Defined.

Lemma select_puts_shift_in_progress_witness :
  current_user_of demo_file bob = Some bob_row
  /\ in_progress
       (file (snd (serve demo_env (r_shift_detail 1)
                     (post [("action", "select_shift")]) bob demo_server)))
       2 opening
     = true.
Proof.
  split; [reflexivity|].
  exact (proj1 (select_puts_shift_in_progress demo_env demo_server bob
                  (post [("action", "select_shift")]) 1 bob_row opening
                  eq_refl eq_refl eq_refl eq_refl)).
Defined.

Lemma complete_takes_shift_off_witness :
  current_user_of demo_file bob = Some bob_row
  /\ in_progress
       (file (snd (serve demo_env (r_shift_detail 1)
                     (post [("action", "complete_shift")]) bob demo_server)))
       2 opening
     = false.
Proof.
  split; [reflexivity|].
  exact (proj1 (proj1 (complete_takes_shift_off demo_env demo_server bob
                         (post [("action", "complete_shift")]) 1 bob_row
                         opening eq_refl eq_refl eq_refl eq_refl)
                      opening eq_refl)).
Defined.

Lemma register_then_login_witness :
  email_taken demo_file (normalize_email " Eva@X.cz ") = false
  /\ answer (fst (serve demo_env r_login
                    (post [("email", "EVA@x.cz"); ("password", "pw3")])
                    anonymous
                    (snd (serve demo_env r_register
                            (post [("email", " Eva@X.cz "); ("name", "Eva");
                                   ("password", "pw3")])
                            anonymous demo_server))))
     = Redirect ep_dashboard.
Proof.
  split; [reflexivity|].
  exact (f_equal (fun x => answer (fst x))
           (register_then_login demo_env demo_server anonymous anonymous
              (post [("email", " Eva@X.cz "); ("name", "Eva");
                     ("password", "pw3")])
              (post [("email", "EVA@x.cz"); ("password", "pw3")])
              " Eva@X.cz " "Eva" "pw3" "EVA@x.cz"
              eq_refl eq_refl eq_refl eq_refl eq_refl eq_refl
              eq_refl eq_refl eq_refl eq_refl)).
Defined.

Lemma accounts_only_grow_witness :
  emails_unique (file demo_reached) /\ emails_normalized (file demo_reached).
Proof.
  pose proof (accounts_only_grow demo_env demo_reached demo_reached_reachable)
    as H.
  exact (conj (proj1 H) (proj1 (proj2 H))).
Defined.

Lemma progress_rows_are_consistent_witness :
  map untimed (rows (progress (file demo_toggled)))
  = [(1, 2, 1, 1, 1); (2, 2, 1, 2, 0)]
  /\ one_row_per_step (file demo_toggled)
  /\ flags_are_bits (file demo_toggled)
  /\ (forall p, In p (rows (progress (file demo_toggled))) ->
                progress_shift_id p <= autoinc (shift (file demo_toggled))
                /\ progress_step_id p
                   <= autoinc (shift_step (file demo_toggled))).
Proof.
  split; [reflexivity|].
  exact (progress_rows_are_consistent demo_env demo_toggled
           demo_toggled_reachable).
Defined.

Lemma steps_and_notes_are_clean_witness :
  rows (shift_step (file demo_reached))
  = [mk_step 1 1 1 "Lock door"; mk_step 2 1 2 "Lights off"]
  /\ positions_run (file demo_reached).
Proof.
  split; [reflexivity|].
  exact (proj1 (proj2 (steps_and_notes_are_clean demo_env demo_reached
                         demo_reached_reachable))).
Defined.

Lemma new_shift_starts_empty_witness :
  next_rowid shift_id (shift (file demo_reached)) = 2
  /\ steps_listing
       (file (snd (serve demo_env r_admin demo_shift_form anonymous_admin
                     demo_reached))) 2
     = [(1, "Lock door"); (2, "Lights off")].
Proof.
  split; [reflexivity|].
  exact (proj2 (proj2 (proj2 (proj2
           (new_shift_starts_empty demo_env demo_reached anonymous_admin
              demo_shift_form "Closing" demo_reached_reachable
              eq_refl eq_refl eq_refl))))).
Defined.

Lemma edit_orphans_progress_witness :
  shift_by_id (file demo_toggled) 1 = Some closing
  /\ let after := file (snd (serve demo_env (r_edit_shift 1) demo_shift_form
                               anonymous_admin demo_toggled)) in
     map progress_step_id (rows (progress (file demo_toggled))) = [1; 2]
     /\ map step_id (rows (shift_step after)) = [3; 4]
     /\ progress after = progress (file demo_toggled)
     /\ (forall p, In p (rows (progress after)) -> progress_step_id p <> 3)
     /\ completed_of after 2 1 3 = None.
Proof.
  split; [reflexivity|]. cbv zeta.
  split; [reflexivity|]. split; [reflexivity|].
  destruct (edit_orphans_progress demo_env demo_toggled anonymous_admin
              demo_shift_form "Closing" 1 closing demo_toggled_reachable
              eq_refl eq_refl eq_refl eq_refl)
    as (Hsame & Horphan).
  split; [exact Hsame|].
  destruct (Horphan (mk_step 3 1 1 "Lock door") (or_introl eq_refl) eq_refl)
    as (Hnone & Hlookup).
  split; [exact Hnone | exact (Hlookup 2)].
Defined.

Lemma edit_form_round_trip_witness :
  shift_by_id (file demo_reached) 1 = Some closing
  /\ answer (fst (serve demo_env (r_edit_shift 1) (mk_request GET [])
                    anonymous_admin demo_reached))
     = Render (admin_edit_shift_html closing
                 (String.append "Lock door" (String newline "Lights off")))
  /\ map step_description
       (steps_of
          (file (snd (serve demo_env (r_edit_shift 1)
                        (post [("title", "Closing");
                               ("steps", String.append "Lock door"
                                           (String newline "Lights off"))])
                        anonymous_admin demo_reached))) 1)
     = ["Lock door"; "Lights off"].
Proof.
  split; [reflexivity|].
  pose proof (edit_form_round_trip demo_env demo_reached anonymous_admin
                (post [("title", "Closing");
                       ("steps", String.append "Lock door"
                                   (String newline "Lights off"))])
                "Closing" 1 closing demo_reached_reachable eq_refl eq_refl)
    as H.
  exact (conj (proj1 H) (proj2 (proj2 H eq_refl eq_refl eq_refl))).
Defined.

Lemma other_routes_keep_user_and_flag_witness :
  messages (fst (serve demo_env r_register
                   (post [("email", "x@y.cz"); ("name", "X"); ("password", "p")])
                   bob_admin demo_server))
  = [("Registrace úspěšná, přihlas se.", "success")]
  /\ (let c := cookie (fst (serve demo_env r_register
                              (post [("email", "x@y.cz"); ("name", "X");
                                     ("password", "p")])
                              bob_admin demo_server)) in
      sess_user_id c = Some 2 /\ is_admin_access c = true).
Proof.
  split; [reflexivity|].
  refine (other_routes_keep_user_and_flag demo_env demo_server bob_admin
            (post [("email", "x@y.cz"); ("name", "X"); ("password", "p")])
            r_register _ _ _); discriminate.
Defined.
